(** * Reliability control plane: burn rate, SLO, forecast, release gate,
      alerts and metric ingestion

    A shallow embedding of the computational engines under
    [backend/app/services] together with the tables of
    [backend/app/models/database.py] and the request schemas of
    [backend/app/schemas/schemas.py].

    Conventions of the embedding.
    - Python [float] values are rationals ([Q]); every finite float is a
      rational and comparisons agree, arithmetic is taken exact.  The one
      quotient numpy computes, where a zero divisor yields a NaN or an
      infinity, has the type [Num.npfloat].
    - [datetime] values are integer counts of seconds since 1970, between
      [datetime_min] and [datetime_max]; arithmetic that leaves this range
      raises [OverflowError].  A function that reads the clock once
      receives the reading as the argument [now]; one that reads it at
      several places receives a [Clock], with one reading for each place.
    - The SQLAlchemy session is a record of tables, each a list of rows in
      insertion order; a function that writes returns the new store.  The
      store is SQLite, the default of [DATABASE_URL]: an integer that is
      bound to a statement or stored in a column is a signed 64-bit one.
    - A Python exception is the [Raise] branch of [result]. *)

From Stdlib Require Import ZArith QArith Qround Qabs Qminmax Qreduction.
From Stdlib Require Import Lia Lqa List String Ascii Bool DecimalString.
From Stdlib Require Import Sorted Permutation.
Import ListNotations.

Open Scope string_scope.
Open Scope Z_scope.
Open Scope Q_scope.

(** * Exceptions and the error monad *)

Inductive exn : Type :=
| ValueError (msg : string)
| AttributeError (msg : string)
| KeyError (key : string)
| IntegrityError (msg : string)
| ValidationError (msg : string)
| OverflowError
| OperationalError.

Inductive result (A : Type) : Type :=
| Ok (a : A)
| Raise (e : exn).
Arguments Ok {A} a.
Arguments Raise {A} e.

Definition bind {A B : Type} (m : result A) (k : A -> result B) : result B :=
  match m with
  | Ok a => k a
  | Raise e => Raise e
  end.

Notation "x <- m ;; k" := (bind m (fun x => k))
  (at level 61, m at next level, right associativity).

(** [try: ... except Exception: handler] *)
Definition try_except {A : Type} (m : result A) (handler : exn -> A) : A :=
  match m with
  | Ok a => a
  | Raise e => handler e
  end.

(** * Numbers *)

Module Num.

Definition Qgeb (a b : Q) : bool := Qle_bool b a.
Definition Qgtb (a b : Q) : bool := negb (Qle_bool a b).
Definition Qltb (a b : Q) : bool := negb (Qle_bool b a).
Definition Qleb (a b : Q) : bool := Qle_bool a b.

(** Nearest integer, ties to the even one: what Python's [round] and the
    [.nf] format do on the exact value of their argument. *)
Definition round_half_even (q : Q) : Z :=
  let f := Qfloor q in
  match Qcompare (q - inject_Z f) (1 # 2) with
  | Lt => f
  | Gt => (f + 1)%Z
  | Eq => if Z.even f then f else (f + 1)%Z
  end.

Fixpoint scale (ndigits : nat) : positive :=
  match ndigits with
  | O => 1%positive
  | S n => (10 * scale n)%positive
  end.

(** [round(q, ndigits)] *)
Definition py_round (q : Q) (ndigits : nat) : Q :=
  Qmake (round_half_even (q * inject_Z (Zpos (scale ndigits)))) (scale ndigits).

(** [int(q)]: truncation toward zero. *)
Definition py_int (q : Q) : Z := Qnum q ÷ Zpos (Qden q).

Definition string_of_Z (z : Z) : string :=
  NilZero.string_of_int (Z.to_int z).

Fixpoint digits_of (n : nat) (z : Z) (acc : string) : string :=
  match n with
  | O => acc
  | S n' =>
      digits_of n' (z / 10)
        (String (ascii_of_nat (48 + Z.to_nat (z mod 10))) acc)
  end.

(** [f"{q:.nf}"]; the sign of a negative value that rounds to zero is
    dropped. *)
Definition format_fixed (ndigits : nat) (q : Q) : string :=
  let z := round_half_even (q * inject_Z (Zpos (scale ndigits))) in
  let a := Z.abs z in
  let sign := if (z <? 0)%Z then "-" else "" in
  let whole := string_of_Z (a / Zpos (scale ndigits)) in
  match ndigits with
  | O => sign ++ whole
  | S _ => sign ++ whole ++ "." ++ digits_of ndigits (a mod Zpos (scale ndigits)) ""
  end.

Fixpoint strip_zeros (rev_digits : list ascii) : list ascii :=
  match rev_digits with
  | c :: ((_ :: _) as rest) =>
      if Ascii.eqb c "0"%char then strip_zeros rest else rev_digits
  | _ => rev_digits
  end.

(** [str(q)] of a float: the decimal expansion with at least one and at
    most seventeen fractional digits (exponent forms are not modelled). *)
Definition float_repr (q : Q) : string :=
  let z := round_half_even (q * inject_Z (Zpos (scale 17))) in
  let a := Z.abs z in
  let sign := if (z <? 0)%Z then "-" else "" in
  let whole := string_of_Z (a / Zpos (scale 17)) in
  let frac := list_ascii_of_string (digits_of 17 (a mod Zpos (scale 17)) "") in
  sign ++ whole ++ "." ++ string_of_list_ascii (rev (strip_zeros (rev frac))).

(** A numpy [float64] that may not be finite: the quotient of the
    least-squares slope is computed by numpy, where a zero divisor gives
    a NaN or an infinity instead of an exception. *)
Inductive npfloat : Type :=
| Finite (q : Q)
| PosInf
| NegInf
| NaN.

Definition np_div (num den : Q) : npfloat :=
  if Qeq_bool den 0 then
    if Qeq_bool num 0 then NaN
    else if Qgtb num 0 then PosInf else NegInf
  else Finite (num / den).

(** [a > b] and [a < b]; every comparison with a NaN is false. *)
Definition np_gtb (a : npfloat) (b : Q) : bool :=
  match a with
  | Finite q => Qgtb q b
  | PosInf => true
  | NegInf | NaN => false
  end.

Definition np_ltb (a : npfloat) (b : Q) : bool :=
  match a with
  | Finite q => Qltb q b
  | NegInf => true
  | PosInf | NaN => false
  end.

(** [b + a] *)
Definition np_add (b : Q) (a : npfloat) : npfloat :=
  match a with
  | Finite q => Finite (b + q)
  | other => other
  end.

(** [q / d] for a divisor that compared greater than zero. *)
Definition np_quot (q : Q) (d : npfloat) : Q :=
  match d with
  | Finite b => q / b
  | _ => 0
  end.

Definition np_round (a : npfloat) (ndigits : nat) : npfloat :=
  match a with
  | Finite q => Finite (py_round q ndigits)
  | other => other
  end.

End Num.

(** * Configuration: [core/config.py] *)

Record Settings : Type := {
  BURN_RATE_SAFE_THRESHOLD : Q;
  BURN_RATE_OBSERVE_THRESHOLD : Q;
  BURN_RATE_DANGER_THRESHOLD : Q;
  BURN_RATE_FREEZE_THRESHOLD : Q;
  ERROR_BUDGET_OBSERVE_THRESHOLD : Q;
  ERROR_BUDGET_DANGER_THRESHOLD : Q;
  ERROR_BUDGET_FREEZE_THRESHOLD : Q;
  RELEASE_GATE_BURN_RATE_THRESHOLD : Q;
  RELEASE_GATE_BUDGET_THRESHOLD : Q;
  ALERT_COOLDOWN_MINUTES : Z
}.

(** The defaults of [class Settings]. *)
Definition default_settings : Settings := {|
  BURN_RATE_SAFE_THRESHOLD := 1;
  BURN_RATE_OBSERVE_THRESHOLD := 3 # 2;
  BURN_RATE_DANGER_THRESHOLD := 2;
  BURN_RATE_FREEZE_THRESHOLD := 3;
  ERROR_BUDGET_OBSERVE_THRESHOLD := 70;
  ERROR_BUDGET_DANGER_THRESHOLD := 85;
  ERROR_BUDGET_FREEZE_THRESHOLD := 95;
  RELEASE_GATE_BURN_RATE_THRESHOLD := 2;
  RELEASE_GATE_BUDGET_THRESHOLD := 90;
  ALERT_COOLDOWN_MINUTES := 15
|}.

(** * Enumerations: [schemas.py] and [database.py] carry the same ones *)

Inductive RiskLevel : Type := SAFE | OBSERVE | DANGER | FREEZE.

Definition RiskLevel_value (r : RiskLevel) : string :=
  match r with
  | SAFE => "safe"
  | OBSERVE => "observe"
  | DANGER => "danger"
  | FREEZE => "freeze"
  end.

Definition RiskLevel_eqb (a b : RiskLevel) : bool :=
  match a, b with
  | SAFE, SAFE | OBSERVE, OBSERVE | DANGER, DANGER | FREEZE, FREEZE => true
  | _, _ => false
  end.

Inductive AlertSeverity : Type := INFO | WARNING | CRITICAL | EMERGENCY.

Inductive AlertChannel : Type := EMAIL | SLACK | UI | PAGERDUTY.

Definition AlertChannel_value (c : AlertChannel) : string :=
  match c with
  | EMAIL => "email"
  | SLACK => "slack"
  | UI => "ui"
  | PAGERDUTY => "pagerduty"
  end.

(** [RISK_THRESHOLDS[level]["color"]] and [["action"]] *)
Definition risk_color (r : RiskLevel) : string :=
  match r with
  | SAFE => "#22c55e"
  | OBSERVE => "#eab308"
  | DANGER => "#f97316"
  | FREEZE => "#ef4444"
  end.

Definition risk_action (r : RiskLevel) : string :=
  match r with
  | SAFE => "Normal operations"
  | OBSERVE => "Increased monitoring"
  | DANGER => "Limit non-critical changes"
  | FREEZE => "Block all deployments"
  end.

(** * Tables: [models/database.py] *)

(** JSON values as far as the alert metadata needs them. *)
Definition json_object : Type := list (string * string).

Record Service : Type := {
  svc_id : Z;
  svc_name : string;
  svc_is_active : bool
}.

Record Metric : Type := {
  m_service_id : Z;
  m_timestamp : Z;
  m_total_requests : Z;
  m_error_count : Z;
  m_latency_p50 : option Q;
  m_latency_p95 : option Q;
  m_latency_p99 : option Q;
  m_success_rate : option Q
}.

Record SLOTarget : Type := {
  slo_service_id : Z;
  slo_name : string;
  slo_target_value : Q;
  slo_window_days : Z;
  slo_burn_rate_threshold : Q;
  slo_critical_burn_rate : Q;
  slo_is_active : bool
}.

Record BurnHistory : Type := {
  bh_service_id : Z;
  bh_timestamp : Z;
  bh_window_minutes : Z;
  bh_burn_rate : Q;
  bh_error_budget_consumed : Q;
  bh_error_budget_remaining : Q;
  bh_time_to_exhaustion_hours : option Q;
  bh_risk_level : RiskLevel
}.

Record Deployment : Type := {
  dep_service_id : Z;
  dep_deployment_id : string;
  dep_version : option string;
  dep_requested_at : Z;
  dep_requested_by : option string;
  dep_allowed : bool;
  dep_blocked_reason : option string;
  dep_risk_level_at_request : option RiskLevel;
  dep_burn_rate_at_request : option Q;
  dep_status : string
}.

(** The columns of [alerts].  The JSON column is mapped under the name
    [alert_metadata]. *)
Record Alert : Type := {
  al_service_id : Z;
  al_timestamp : Z;
  al_severity : AlertSeverity;
  al_channel : AlertChannel;
  al_title : string;
  al_message : string;
  al_alert_metadata : option json_object;
  al_sent : bool;
  al_sent_at : option Z;
  al_acknowledged : bool;
  al_acknowledged_by : option string;
  al_acknowledged_at : option Z
}.

Record DB : Type := {
  services : list Service;
  metrics : list Metric;
  slo_targets : list SLOTarget;
  burn_history : list BurnHistory;
  deployments : list Deployment;
  alerts : list Alert
}.

Definition empty_db : DB :=
  {| services := []; metrics := []; slo_targets := [];
     burn_history := []; deployments := []; alerts := [] |}.

(** [query.first()] *)
Definition first {A : Type} (p : A -> bool) (rows : list A) : option A :=
  find p rows.

(** [func.sum(column)]: NULL over no rows. *)
Definition sql_sum (xs : list Z) : option Z :=
  match xs with
  | [] => None
  | _ => Some (fold_right Z.add 0%Z xs)
  end.

(** [value or 0] *)
Definition or_zero (v : option Z) : Z :=
  match v with
  | Some z => z
  | None => 0%Z
  end.

Definition minutes (m : Z) : Z := (m * 60)%Z.
Definition hours (h : Z) : Z := (h * 3600)%Z.
Definition days (d : Z) : Z := (d * 86400)%Z.

(** ** The ranges of [datetime] and of the store's integers *)

(** [datetime.min] and [datetime.max]: the first second of year 1 and the
    last second of year 9999. *)
Definition datetime_min : Z := (-62135596800)%Z.
Definition datetime_max : Z := 253402300799%Z.

Definition is_datetime (t : Z) : bool :=
  ((datetime_min <=? t) && (t <=? datetime_max))%Z.

(** [timedelta(seconds=...)] for an integer: a span of more than
    999999999 days either way raises [OverflowError].  The messages of
    [OverflowError] and [OperationalError] are not modelled. *)
Definition timedelta (seconds : Z) : result Z :=
  if ((-999999999 <=? seconds / 86400) && (seconds / 86400 <=? 999999999))%Z
  then Ok seconds
  else Raise OverflowError.

(** [t - delta] on a datetime: [OverflowError] when the difference is not
    a datetime. *)
Definition datetime_sub (t delta : Z) : result Z :=
  if is_datetime (t - delta) then Ok (t - delta)%Z else Raise OverflowError.

(** [t + timedelta(hours=h)] for a float [h]: the span in seconds is
    [h * 3600]; [OverflowError] when the span exceeds 999999999 days or
    the sum is not a datetime. *)
Definition datetime_plus_hours (t : Z) (h : Q) : result Q :=
  let seconds := h * 3600 in
  let days := Qfloor (seconds / 86400) in
  if ((-999999999 <=? days) && (days <=? 999999999))%Z
     && Qle_bool (inject_Z datetime_min) (inject_Z t + seconds)
     && Qle_bool (inject_Z t + seconds) (inject_Z datetime_max)
  then Ok (inject_Z t + seconds)
  else Raise OverflowError.

(** The readings of the clock during one call: [clock k] is what
    [datetime.utcnow()] returns at the k-th place of the call that reads
    it, the places counted in the order of the program text. *)
Definition Clock : Type := nat -> Z.

(** The readings from the k-th place on. *)
Definition later (k : nat) (clock : Clock) : Clock := fun i => clock (k + i)%nat.

(** A clock that stands still. *)
Definition always (now : Z) : Clock := fun _ => now.

(** What SQLite holds in an INTEGER column and what its driver accepts
    as a parameter: a signed 64-bit integer. *)
Definition is_int64 (z : Z) : bool := ((- 2 ^ 63 <=? z) && (z <? 2 ^ 63))%Z.

(** A Python [int] handed to the driver: one that does not fit raises
    [OverflowError]. *)
Definition sqlite_int (z : Z) : result Z :=
  if is_int64 z then Ok z else Raise OverflowError.

(** The least magnitude that rounds to no double: [2^1024 - 2^970],
    halfway between the largest double and [2^1024]. *)
Definition float_overflow : Z := (2 ^ 1024 - 2 ^ 970)%Z.

(** [a / b] on two ints with [0 < b]: the quotient, rounded to a double,
    or [OverflowError] when it is too large for one. *)
Definition int_true_div (a b : Z) : result Q :=
  if (float_overflow * b <=? Z.abs a)%Z then Raise OverflowError
  else Ok (inject_Z a / inject_Z b).

(** [SUM] fails with "integer overflow" as soon as a partial sum leaves
    the 64-bit range; [acc] is the sum of the rows read so far, the rows
    read in the order of the table. *)
Fixpoint sum_overflows (acc : Z) (xs : list Z) : bool :=
  match xs with
  | [] => false
  | x :: rest => negb (is_int64 (acc + x)) || sum_overflows (acc + x) rest
  end.

(** [func.sum(column)] as the store evaluates it. *)
Definition checked_sum (xs : list Z) : result (option Z) :=
  if sum_overflows 0 xs then Raise OperationalError else Ok (sql_sum xs).

(** The rows of [metrics] for a service with [start <= timestamp <= now]. *)
Definition metrics_in_window (db : DB) (service_id start now : Z) : list Metric :=
  filter (fun m => (m_service_id m =? service_id)%Z
                   && (start <=? m_timestamp m)%Z
                   && (m_timestamp m <=? now)%Z)
         (metrics db).

(** * Burn-rate engine: [services/burn_rate_service.py] *)

Record BurnRateComputation : Type := {
  brc_service_id : Z;
  brc_service_name : string;
  brc_timestamp : Z;
  brc_window_minutes : Z;
  brc_current_error_rate : Q;
  brc_allowed_error_rate : Q;
  brc_burn_rate : Q;
  brc_error_budget_consumed : Q;
  brc_error_budget_remaining : Q;
  brc_risk_level : RiskLevel;
  brc_risk_color : string;
  brc_risk_action : string
}.

Module BurnRateEngine.
Import Num.

Section WithSettings.
Variable settings : Settings.

Definition _classify_risk (burn_rate budget_consumed : Q) : RiskLevel :=
  if Qgeb burn_rate (BURN_RATE_FREEZE_THRESHOLD settings)
     || Qgeb budget_consumed (ERROR_BUDGET_FREEZE_THRESHOLD settings)
  then FREEZE
  else if Qgeb burn_rate (BURN_RATE_DANGER_THRESHOLD settings)
          || Qgeb budget_consumed (ERROR_BUDGET_DANGER_THRESHOLD settings)
  then DANGER
  else if Qgeb burn_rate (BURN_RATE_OBSERVE_THRESHOLD settings)
          || Qgeb budget_consumed (ERROR_BUDGET_OBSERVE_THRESHOLD settings)
  then OBSERVE
  else SAFE.

(** The two aggregates of the window query, as numbers. *)
Definition window_totals (db : DB) (now service_id window_minutes : Z)
  : option Z * option Z :=
  let window_start := (now - minutes window_minutes)%Z in
  let rows := metrics_in_window db service_id window_start now in
  (sql_sum (map m_total_requests rows), sql_sum (map m_error_count rows)).

(** Lines 88-100: the window and its two aggregates as the code obtains
    them.  The window start may fail to be a datetime, and either sum may
    overflow. *)
Definition window_query (db : DB) (now service_id window_minutes : Z)
  : result (option Z * option Z) :=
  delta <- timedelta (minutes window_minutes) ;;
  window_start <- datetime_sub now delta ;;
  let rows := metrics_in_window db service_id window_start now in
  total <- checked_sum (map m_total_requests rows) ;;
  errors <- checked_sum (map m_error_count rows) ;;
  Ok (total, errors).

(** Lines 115-124: consumed and remaining percentage of the budget. *)
Definition budget_percentages (total_budget : Q) (consumed : Z) : Q * Q :=
  if Qgtb total_budget 0 then
    let consumed_percentage :=
      Qmin ((inject_Z consumed / total_budget) * 100) 100 in
    let remaining_percentage := Qmax (100 - consumed_percentage) 0 in
    (consumed_percentage, remaining_percentage)
  else (0, 100).

(** [compute_burn_rate].  [now] is the reading of line 88.  The id is bound
    to the first query, which fails for one that is no 64-bit integer. *)
Definition compute_burn_rate (db : DB) (now service_id window_minutes : Z)
  : result BurnRateComputation :=
  _ <- sqlite_int service_id ;;
  match first (fun s => (svc_id s =? service_id)%Z) (services db) with
  | None =>
      Raise (ValueError ("Service " ++ string_of_Z service_id ++ " not found"))
  | Some service =>
      let slo_target :=
        first (fun t => (slo_service_id t =? service_id)%Z
                        && String.eqb (slo_name t) "availability"
                        && slo_is_active t)
              (slo_targets db) in
      let '(target_value, critical_burn_rate) :=
        match slo_target with
        | None => (999 # 10, 2)
        | Some t => (slo_target_value t, slo_critical_burn_rate t)
        end in
      let allowed_error_rate := (100 - target_value) / 100 in
      totals <- window_query db now service_id window_minutes ;;
      let '(total, errors) := totals in
      let total_requests := or_zero total in
      let error_count := or_zero errors in
      let current_error_rate :=
        if (0 <? total_requests)%Z
        then inject_Z error_count / inject_Z total_requests
        else 0 in
      let burn_rate :=
        if Qgtb allowed_error_rate 0
        then current_error_rate / allowed_error_rate
        else 0 in
      let total_budget := inject_Z total_requests * allowed_error_rate in
      let '(consumed_percentage, remaining_percentage) :=
        budget_percentages total_budget error_count in
      let risk_level := _classify_risk burn_rate consumed_percentage in
      Ok {| brc_service_id := service_id;
            brc_service_name := svc_name service;
            brc_timestamp := now;
            brc_window_minutes := window_minutes;
            brc_current_error_rate := py_round current_error_rate 6;
            brc_allowed_error_rate := py_round allowed_error_rate 6;
            brc_burn_rate := py_round burn_rate 3;
            brc_error_budget_consumed := py_round consumed_percentage 2;
            brc_error_budget_remaining := py_round remaining_percentage 2;
            brc_risk_level := risk_level;
            brc_risk_color := risk_color risk_level;
            brc_risk_action := risk_action risk_level |}
  end.

(** [WINDOW_CONFIGS]: minutes, name, weight. *)
Definition WINDOW_CONFIGS : list (Z * string * Q) :=
  [ (5%Z, "5m", 3 # 10); (60%Z, "1h", 4 # 10); (1440%Z, "24h", 3 # 10) ].

(** The loop of [compute_all_windows]: each computation reads the clock
    for itself. *)
Fixpoint compute_windows (db : DB) (clock : Clock) (service_id : Z)
         (configs : list (Z * string * Q)) : result (list BurnRateComputation) :=
  match configs with
  | [] => Ok []
  | (window_minutes, _, _) :: rest =>
      computation <- compute_burn_rate db (clock 0%nat) service_id window_minutes ;;
      results <- compute_windows db (later 1 clock) service_id rest ;;
      Ok (computation :: results)
  end.

Definition compute_all_windows (db : DB) (clock : Clock) (service_id : Z)
  : result (list BurnRateComputation) :=
  compute_windows db clock service_id WINDOW_CONFIGS.

Definition _risk_severity (risk : RiskLevel) : Z :=
  match risk with
  | SAFE => 0
  | OBSERVE => 1
  | DANGER => 2
  | FREEZE => 3
  end%Z.

(** The loop body of [get_weighted_burn_rate] over
    [zip(computations, WINDOW_CONFIGS)]. *)
Definition weigh (acc : Q * Q * RiskLevel)
           (item : BurnRateComputation * (Z * string * Q)) : Q * Q * RiskLevel :=
  let '(weighted_burn, total_weight, worst_risk) := acc in
  let '(computation, (_, _, weight)) := item in
  (weighted_burn + brc_burn_rate computation * weight,
   total_weight + weight,
   if (_risk_severity worst_risk <? _risk_severity (brc_risk_level computation))%Z
   then brc_risk_level computation
   else worst_risk).

Definition get_weighted_burn_rate (db : DB) (clock : Clock) (service_id : Z)
  : result (Q * RiskLevel) :=
  computations <- compute_all_windows db clock service_id ;;
  match computations with
  | [] => Ok (0, SAFE)
  | _ =>
      let '(weighted_burn, total_weight, worst_risk) :=
        fold_left weigh (combine computations WINDOW_CONFIGS) (0, 0, SAFE) in
      let final_burn :=
        if Qgtb total_weight 0 then weighted_burn / total_weight else 0 in
      Ok (py_round final_burn 3, worst_risk)
  end.

(** [store_burn_history] *)
Definition store_burn_history (db : DB) (computation : BurnRateComputation)
  : DB :=
  let history :=
    {| bh_service_id := brc_service_id computation;
       bh_timestamp := brc_timestamp computation;
       bh_window_minutes := brc_window_minutes computation;
       bh_burn_rate := brc_burn_rate computation;
       bh_error_budget_consumed := brc_error_budget_consumed computation;
       bh_error_budget_remaining := brc_error_budget_remaining computation;
       bh_time_to_exhaustion_hours := None;
       bh_risk_level := brc_risk_level computation |} in
  {| services := services db; metrics := metrics db;
     slo_targets := slo_targets db;
     burn_history := burn_history db ++ [history];
     deployments := deployments db; alerts := alerts db |}.

End WithSettings.
End BurnRateEngine.

(** * SLO engine: [services/slo_service.py] *)

Record SLOComputation : Type := {
  sc_service_id : Z;
  sc_service_name : string;
  sc_slo_name : string;
  sc_target_value : Q;
  sc_current_value : Q;
  sc_is_meeting_slo : bool;
  sc_total_budget : Q;
  sc_consumed_budget : Z;
  sc_consumed_percentage : Q;
  sc_remaining_percentage : Q;
  sc_availability_5m : option Q;
  sc_availability_1h : option Q;
  sc_availability_24h : option Q;
  sc_window_start : Z;
  sc_window_end : Z;
  sc_computed_at : Z
}.

Module SLOComputationEngine.
Import Num.

Definition _compute_window_availability (db : DB) (now service_id window_minutes : Z)
  : option Q :=
  let start := (now - minutes window_minutes)%Z in
  let rows := metrics_in_window db service_id start now in
  let total := or_zero (sql_sum (map m_total_requests rows)) in
  let errors := or_zero (sql_sum (map m_error_count rows)) in
  if (total =? 0)%Z then None
  else Some (py_round (inject_Z (total - errors) / inject_Z total * 100) 4).

(** The aggregates of the SLO window. *)
Definition slo_totals (db : DB) (now : Z) (service : Service) (slo_target : SLOTarget)
  : option Z * option Z :=
  let window_start := (now - days (slo_window_days slo_target))%Z in
  let rows := metrics_in_window db (svc_id service) window_start now in
  (sql_sum (map m_total_requests rows), sql_sum (map m_error_count rows)).

Definition _compute_single_slo (db : DB) (now : Z) (service : Service)
           (slo_target : SLOTarget) : SLOComputation :=
  let window_start := (now - days (slo_window_days slo_target))%Z in
  let '(total, errors) := slo_totals db now service slo_target in
  let total_requests := or_zero total in
  let error_count := or_zero errors in
  let current_value :=
    if (0 <? total_requests)%Z
    then inject_Z (total_requests - error_count) / inject_Z total_requests * 100
    else 100 in
  let slo_target_fraction := slo_target_value slo_target / 100 in
  let allowed_error_rate := 1 - slo_target_fraction in
  let total_budget :=
    if (0 <? total_requests)%Z
    then inject_Z total_requests * allowed_error_rate
    else 0 in
  let consumed_budget := error_count in
  let '(consumed_percentage, remaining_percentage) :=
    if Qgtb total_budget 0 then
      let consumed_percentage :=
        Qmin ((inject_Z consumed_budget / total_budget) * 100) 100 in
      (consumed_percentage, Qmax (100 - consumed_percentage) 0)
    else (0, 100) in
  {| sc_service_id := svc_id service;
     sc_service_name := svc_name service;
     sc_slo_name := slo_name slo_target;
     sc_target_value := slo_target_value slo_target;
     sc_current_value := py_round current_value 4;
     sc_is_meeting_slo := Qgeb current_value (slo_target_value slo_target);
     sc_total_budget := py_round total_budget 2;
     sc_consumed_budget := consumed_budget;
     sc_consumed_percentage := py_round consumed_percentage 2;
     sc_remaining_percentage := py_round remaining_percentage 2;
     sc_availability_5m := _compute_window_availability db now (svc_id service) 5;
     sc_availability_1h := _compute_window_availability db now (svc_id service) 60;
     sc_availability_24h := _compute_window_availability db now (svc_id service) 1440;
     sc_window_start := window_start;
     sc_window_end := now;
     sc_computed_at := now |}.

End SLOComputationEngine.

(** * Forecast engine: [services/forecast_service.py] *)

Record TrendData : Type := {
  td_slope : Num.npfloat;
  td_direction : string;
  td_confidence : string;
  td_data_points : nat
}.

Record ForecastResponse : Type := {
  fr_service_id : Z;
  fr_service_name : string;
  fr_computed_at : Z;
  fr_current_burn_rate : Q;
  fr_error_budget_remaining : Q;
  fr_time_to_exhaustion_hours : option Q;
  fr_projected_exhaustion_time : option Q;
  fr_confidence_level : string;
  fr_burn_rate_trend : string;
  fr_trend_slope : Num.npfloat;
  fr_forecast_message : string
}.

Module ForecastModule.
Import Num.

Definition Qsum (xs : list Q) : Q := fold_right Qplus 0 xs.

Definition Qmean (xs : list Q) : Q := Qsum xs / inject_Z (Z.of_nat (List.length xs)).

(** [order_by(BurnHistory.timestamp)] *)
Fixpoint insert_by_time (h : BurnHistory) (sorted : list BurnHistory)
  : list BurnHistory :=
  match sorted with
  | [] => [h]
  | h' :: rest =>
      if (bh_timestamp h <? bh_timestamp h')%Z then h :: sorted
      else h' :: insert_by_time h rest
  end.

Definition order_by_timestamp (rows : list BurnHistory) : list BurnHistory :=
  fold_left (fun sorted h => insert_by_time h sorted) rows [].

(** The rows [_calculate_trend] reads: the last six hours of the
    60-minute window, oldest first. *)
Definition trend_history (db : DB) (now service_id : Z) : list BurnHistory :=
  let cutoff := (now - hours 6)%Z in
  order_by_timestamp
    (filter (fun h => (bh_service_id h =? service_id)%Z
                      && (bh_window_minutes h =? 60)%Z
                      && (cutoff <=? bh_timestamp h)%Z)
            (burn_history db)).

(** Lines 172-173. *)
Definition least_squares_slope (x y : list Q) : npfloat :=
  let n := inject_Z (Z.of_nat (List.length x)) in
  np_div (n * Qsum (map (fun p => fst p * snd p) (combine x y)) - Qsum x * Qsum y)
         (n * Qsum (map (fun a => a * a) x) - Qsum x * Qsum x).

(** Lines 176-180 for a finite slope. *)
Definition r_squared_of (slope : Q) (x y : list Q) : Q :=
  let y_mean := Qmean y in
  let intercept := Qmean y - slope * Qmean x in
  let ss_res :=
    Qsum (map (fun p => (snd p - (slope * fst p + intercept))
                        * (snd p - (slope * fst p + intercept)))
              (combine x y)) in
  let ss_tot := Qsum (map (fun b => (b - y_mean) * (b - y_mean)) y) in
  if Qgtb ss_tot 0 then 1 - ss_res / ss_tot else 0.

(** Lines 191-196.  With a slope that is not finite the predictions, and
    so [ss_res], are NaN or infinite: [r_squared] is then NaN, minus
    infinity or 0 and fails both comparisons. *)
Definition confidence_of (slope : npfloat) (x y : list Q) : string :=
  match slope with
  | Finite m =>
      let r_squared := r_squared_of m x y in
      let n := List.length x in
      if Qgtb r_squared (7 # 10) && (5 <=? n)%nat then "high"
      else if Qgtb r_squared (4 # 10) && (3 <=? n)%nat then "medium"
      else "low"
  | _ => "low"
  end.

(** Lines 183-188. *)
Definition direction_of (slope : npfloat) : string :=
  if np_gtb slope (1 # 10) then "increasing"
  else if np_ltb slope (- (1 # 10)) then "decreasing"
  else "stable".

Definition _calculate_trend (db : DB) (now service_id : Z) : option TrendData :=
  let history := trend_history db now service_id in
  if (List.length history <? 3)%nat then None
  else
    let base_time := match history with h :: _ => bh_timestamp h | [] => 0%Z end in
    let timestamps :=
      map (fun h => inject_Z (bh_timestamp h - base_time) / 3600) history in
    let burn_rates := map bh_burn_rate history in
    let slope := least_squares_slope timestamps burn_rates in
    Some {| td_slope := slope;
            td_direction := direction_of slope;
            td_confidence := confidence_of slope timestamps burn_rates;
            td_data_points := List.length timestamps |}.

(** Lines 72-88: the burn rate that enters the exhaustion formula. *)
Definition burn_rate_for_forecast (current_burn_rate : Q)
           (use_historical_trend : bool) (trend_data : option TrendData) : npfloat :=
  if use_historical_trend then
    match trend_data with
    | Some t =>
        if np_gtb (td_slope t) 0
        then np_add current_burn_rate (td_slope t)
        else Finite current_burn_rate
    | None => Finite current_burn_rate
    end
  else Finite current_burn_rate.

(** Lines 90-110: [time_to_exhaustion], and what the assignment of
    [exhaustion_time] comes to.  [now] is the reading of line 107 or of
    line 110; the sum of line 107 raises [OverflowError] when the
    projected time lies beyond the last datetime. *)
Definition exhaustion (now : Z) (burn_rate_for_forecast : npfloat)
           (remaining_budget : Q) (window_hours : Z)
  : option Q * result (option Q) :=
  if np_gtb burn_rate_for_forecast 0 && Qgtb remaining_budget 0 then
    let time_to_exhaustion :=
      py_round (np_quot ((remaining_budget / 100) * inject_Z window_hours)
                        burn_rate_for_forecast) 2 in
    (Some time_to_exhaustion,
     if Qgtb time_to_exhaustion 0
     then exhaustion_time <- datetime_plus_hours now time_to_exhaustion ;;
          Ok (Some exhaustion_time)
     else Ok None)
  else if Qleb remaining_budget 0 then (Some 0, Ok (Some (inject_Z now)))
  else (None, Ok None).

Definition _generate_forecast_message (service_name : string) (burn_rate remaining : Q)
           (hours_to_exhaustion : option Q) (trend : string) : string :=
  if Qleb remaining 0 then
    service_name ++ " has exhausted its error budget. Immediate action required."
  else
    match hours_to_exhaustion with
    | None =>
        service_name ++ " error budget status is healthy with "
          ++ format_fixed 1 remaining ++ "% remaining."
    | Some h =>
        let time_str :=
          if Qltb h 1 then string_of_Z (py_int (h * 60)) ++ " minutes"
          else if Qltb h 24 then format_fixed 1 h ++ " hours"
          else if Qltb h 72 then format_fixed 1 (h / 24) ++ " days"
          else string_of_Z (py_int (h / 24)) ++ " days" in
        let '(severity, urgency) :=
          if Qgeb burn_rate 3 then
            ("critically fast", "Immediate intervention required.")
          else if Qgeb burn_rate 2 then
            (format_fixed 1 burn_rate ++ "× faster than allowed",
             "Action recommended within the hour.")
          else if Qgeb burn_rate (3 # 2) then
            (format_fixed 1 burn_rate ++ "× normal rate", "Monitor closely.")
          else if Qgeb burn_rate 1 then
            ("at the allowed rate", "Consider investigation.")
          else ("below normal", "Budget is healthy.") in
        let trend_msg :=
          if String.eqb trend "increasing" then " Burn rate is trending upward."
          else if String.eqb trend "decreasing" then " Burn rate is trending downward."
          else "" in
        service_name ++ " is burning error budget " ++ severity ++ ". "
          ++ "Budget exhaustion projected in ~" ++ time_str ++ "." ++ trend_msg
          ++ " " ++ urgency
    end.

(** Lines 59-69: the length of the SLO window in hours. *)
Definition slo_window_hours (db : DB) (service_id : Z) : Z :=
  let slo_target :=
    first (fun t => (slo_service_id t =? service_id)%Z
                    && String.eqb (slo_name t) "availability"
                    && slo_is_active t)
          (slo_targets db) in
  let window_days :=
    match slo_target with
    | Some t => slo_window_days t
    | None => 30%Z
    end in
  (window_days * 24)%Z.

Section WithSettings.
Variable settings : Settings.

(** [forecast_exhaustion].  The clock is read by the burn-rate
    computation of line 57 ([clock 0]), by [_calculate_trend] ([clock 1]),
    in line 107 or 110 ([clock 2]) and in line 124 ([clock 3]). *)
Definition forecast_exhaustion (db : DB) (clock : Clock) (service_id : Z)
           (use_historical_trend : bool) : result ForecastResponse :=
  _ <- sqlite_int service_id ;;
  match first (fun s => (svc_id s =? service_id)%Z) (services db) with
  | None =>
      Raise (ValueError ("Service " ++ string_of_Z service_id ++ " not found"))
  | Some service =>
      current_burn <-
        BurnRateEngine.compute_burn_rate settings db (clock 0%nat) service_id 60 ;;
      let window_hours := slo_window_hours db service_id in
      let trend_data :=
        if use_historical_trend
        then _calculate_trend db (clock 1%nat) service_id else None in
      let '(trend_slope, trend_direction, confidence) :=
        match trend_data with
        | Some t => (td_slope t, td_direction t, td_confidence t)
        | None => (Finite 0, "stable", "medium")
        end in
      let rate :=
        burn_rate_for_forecast (brc_burn_rate current_burn)
                               use_historical_trend trend_data in
      let remaining_budget := brc_error_budget_remaining current_burn in
      let time_to_exhaustion :=
        fst (exhaustion (clock 2%nat) rate remaining_budget window_hours) in
      exhaustion_time <-
        snd (exhaustion (clock 2%nat) rate remaining_budget window_hours) ;;
      let message :=
        _generate_forecast_message (svc_name service) (brc_burn_rate current_burn)
                                   remaining_budget time_to_exhaustion
                                   trend_direction in
      Ok {| fr_service_id := service_id;
            fr_service_name := svc_name service;
            fr_computed_at := clock 3%nat;
            fr_current_burn_rate := brc_burn_rate current_burn;
            fr_error_budget_remaining := remaining_budget;
            fr_time_to_exhaustion_hours := time_to_exhaustion;
            fr_projected_exhaustion_time := exhaustion_time;
            fr_confidence_level := confidence;
            fr_burn_rate_trend := trend_direction;
            fr_trend_slope := np_round trend_slope 4;
            fr_forecast_message := message |}
  end.

End WithSettings.
End ForecastModule.

(** * Release gate: [services/release_gate_service.py] *)

Record ReleaseCheckRequest : Type := {
  req_service_name : string;
  req_deployment_id : string;
  req_version : option string;
  req_requested_by : option string;
  req_override : bool;
  req_override_reason : option string
}.

Record ReleaseCheckResponse : Type := {
  resp_allowed : bool;
  resp_reason : string;
  resp_service_name : string;
  resp_deployment_id : string;
  resp_current_risk_level : RiskLevel;
  resp_current_burn_rate : Q;
  resp_error_budget_remaining : Q;
  resp_time_to_exhaustion_hours : option Q;
  resp_recommendations : list string;
  resp_checked_at : Z;
  resp_checked_by : string
}.

(** Truth value of an [Optional[str]]: [None] and the empty string are false. *)
Definition truthy (s : option string) : bool :=
  match s with
  | Some (String _ _) => true
  | _ => false
  end.

(** The text of an [Optional[str]] inside an f-string. *)
Definition str_of_optional (s : option string) : string :=
  match s with
  | Some t => t
  | None => "None"
  end.

Module Uuid.

Definition hex_digit (n : N) : ascii :=
  match n with
  | 0 => "0" | 1 => "1" | 2 => "2" | 3 => "3" | 4 => "4" | 5 => "5"
  | 6 => "6" | 7 => "7" | 8 => "8" | 9 => "9" | 10 => "a" | 11 => "b"
  | 12 => "c" | 13 => "d" | 14 => "e" | _ => "f"
  end%N%char.

(** The [width] lowest hexadecimal digits of [n], most significant first. *)
Fixpoint hex (width : nat) (n : N) (acc : string) : string :=
  match width with
  | O => acc
  | S w => hex w (N.div n 16) (String (hex_digit (N.modulo n 16)) acc)
  end.

(** [str(uuid.uuid4())] for the 128 bits the generator drew: the
    8-4-4-4-12 grouping of the 32 hexadecimal digits. *)
Definition str (bits : N) : string :=
  hex 8 (N.shiftr bits 96) ""
  ++ "-" ++ hex 4 (N.shiftr bits 80) ""
  ++ "-" ++ hex 4 (N.shiftr bits 64) ""
  ++ "-" ++ hex 4 (N.shiftr bits 48) ""
  ++ "-" ++ hex 12 bits "".

End Uuid.

Module ReleaseGateController.
Import Num.

Section WithSettings.
Variable settings : Settings.

Definition _evaluate_gate (burn_rate : Q) (risk_level : RiskLevel)
           (budget_remaining : Q) (time_to_exhaustion : option Q)
           (override : bool) (override_reason : option string)
  : bool * string * list string :=
  if RiskLevel_eqb risk_level FREEZE then
    if override && truthy override_reason then
      (true,
       "OVERRIDE: Deployment allowed despite FREEZE state. Reason: "
         ++ str_of_optional override_reason,
       ["Deployment approved via override - monitor closely"])
    else
      (false,
       "Deployment blocked: System is in FREEZE state due to critical reliability issues",
       ["Investigate and resolve active incidents before deploying";
        "Error budget is critically low or exhausted";
        "Consider rolling back recent changes"])
  else if RiskLevel_eqb risk_level DANGER then
    let recommendations := ["System is in DANGER state - consider waiting"] in
    if override && truthy override_reason then
      (true,
       "OVERRIDE: Deployment allowed despite DANGER state. Reason: "
         ++ str_of_optional override_reason,
       (recommendations ++ ["Monitor deployment closely and be ready to rollback"])%list)
    else
      (false,
       "Deployment blocked: System is in DANGER state with elevated error rates",
       (recommendations
          ++ ["Error budget is running low";
              "Wait for system to stabilize or provide override with justification"])%list)
  else if Qgtb burn_rate (RELEASE_GATE_BURN_RATE_THRESHOLD settings) then
    (false,
     "Deployment blocked: Burn rate (" ++ format_fixed 2 burn_rate
       ++ "x) exceeds threshold ("
       ++ float_repr (RELEASE_GATE_BURN_RATE_THRESHOLD settings) ++ "x)",
     ["Current error rate is too high for safe deployment";
      "Investigate recent changes that may have caused elevated errors"])
  else
    let budget_consumed := 100 - budget_remaining in
    if Qgtb budget_consumed (RELEASE_GATE_BUDGET_THRESHOLD settings) then
      (false,
       "Deployment blocked: Error budget " ++ format_fixed 1 budget_consumed
         ++ "% consumed exceeds threshold ("
         ++ float_repr (RELEASE_GATE_BUDGET_THRESHOLD settings) ++ "%)",
       ["Error budget is nearly exhausted";
        "Prioritize reliability improvements before new deployments"])
    else
      let recommendations :=
        match time_to_exhaustion with
        | Some t =>
            if Qltb t 4 then
              ["Warning: Error budget will be exhausted in ~"
                 ++ format_fixed 1 t ++ " hours"]
            else []
        | None => []
        end in
      if RiskLevel_eqb risk_level OBSERVE then
        (true,
         "Deployment allowed with caution: System reliability is being observed",
         (recommendations
            ++ ["System is in OBSERVE state - increased monitoring recommended";
                "Consider smaller deployment batches"])%list)
      else
        (true,
         "Deployment allowed: System reliability is healthy",
         match recommendations with
         | [] => ["System is operating normally"]
         | _ => recommendations
         end).

(** [_record_deployment].  [uuid_bits] is what [uuid.uuid4()] draws when
    it is called; [deployments.deployment_id] is declared [unique], so
    the commit of a second row with the same id fails.  [now] is the
    reading of the clock at the INSERT, where the default of the column
    [requested_at] is evaluated. *)
Definition _record_deployment (db : DB) (now : Z) (uuid_bits : N)
           (service_id : Z) (deployment_id : string)
           (version requested_by : option string) (allowed : bool)
           (reason : string) (risk_level : RiskLevel) (burn_rate : Q)
  : result DB :=
  let deployment_id :=
    if String.eqb deployment_id "" then Uuid.str uuid_bits else deployment_id in
  let deployment :=
    {| dep_service_id := service_id;
       dep_deployment_id := deployment_id;
       dep_version := version;
       dep_requested_at := now;
       dep_requested_by := requested_by;
       dep_allowed := allowed;
       dep_blocked_reason := if negb allowed then Some reason else None;
       dep_risk_level_at_request := Some risk_level;
       dep_burn_rate_at_request := Some burn_rate;
       dep_status := if allowed then "approved" else "rejected" |} in
  if existsb (fun d => String.eqb (dep_deployment_id d) deployment_id)
             (deployments db)
  then Raise (IntegrityError "UNIQUE constraint failed: deployments.deployment_id")
  else
    Ok {| services := services db; metrics := metrics db;
          slo_targets := slo_targets db; burn_history := burn_history db;
          deployments := (deployments db ++ [deployment])%list;
          alerts := alerts db |}.

(** [check_release].  For a service that is not registered the clock is
    read once, in line 68 ([clock 0]).  Otherwise it is read by the
    burn-rate computation of line 73 ([clock 0]), by the three
    computations of the weighted burn rate ([clock 1] to [clock 3]), by
    the forecast ([clock 4] to [clock 7]), at the INSERT of the
    deployment row ([clock 8]) and in line 111 ([clock 9]). *)
Definition check_release (db : DB) (clock : Clock) (uuid_bits : N)
           (request : ReleaseCheckRequest) : result (ReleaseCheckResponse * DB) :=
  match first (fun s => String.eqb (svc_name s) (req_service_name request))
              (services db) with
  | None =>
      Ok ({| resp_allowed := false;
             resp_reason :=
               "Service '" ++ req_service_name request ++ "' not found";
             resp_service_name := req_service_name request;
             resp_deployment_id := req_deployment_id request;
             resp_current_risk_level := FREEZE;
             resp_current_burn_rate := 0;
             resp_error_budget_remaining := 0;
             resp_time_to_exhaustion_hours := None;
             resp_recommendations := ["Register the service before deploying"];
             resp_checked_at := clock 0%nat;
             resp_checked_by := "system" |}, db)
  | Some service =>
      burn_computation <-
        BurnRateEngine.compute_burn_rate settings db (clock 0%nat) (svc_id service) 60 ;;
      weighted <-
        BurnRateEngine.get_weighted_burn_rate settings db (later 1 clock)
                                              (svc_id service) ;;
      let '(weighted_burn, worst_risk) := weighted in
      forecast <-
        ForecastModule.forecast_exhaustion settings db (later 4 clock)
                                           (svc_id service) true ;;
      let '(allowed, reason, recommendations) :=
        _evaluate_gate weighted_burn worst_risk
                       (brc_error_budget_remaining burn_computation)
                       (fr_time_to_exhaustion_hours forecast)
                       (req_override request) (req_override_reason request) in
      db' <- _record_deployment db (clock 8%nat) uuid_bits (svc_id service)
                                (req_deployment_id request) (req_version request)
                                (req_requested_by request) allowed reason
                                worst_risk weighted_burn ;;
      Ok ({| resp_allowed := allowed;
             resp_reason := reason;
             resp_service_name := svc_name service;
             resp_deployment_id := req_deployment_id request;
             resp_current_risk_level := worst_risk;
             resp_current_burn_rate := weighted_burn;
             resp_error_budget_remaining :=
               brc_error_budget_remaining burn_computation;
             resp_time_to_exhaustion_hours := fr_time_to_exhaustion_hours forecast;
             resp_recommendations := recommendations;
             resp_checked_at := clock 9%nat;
             resp_checked_by :=
               if truthy (req_requested_by request)
               then str_of_optional (req_requested_by request)
               else "system" |}, db')
  end.

End WithSettings.
End ReleaseGateController.

(** * Alert manager: [services/alert_service.py] *)

Module AlertManager.
Import Num.

(** A template of [str.format]: literal text and [{name}] fields. *)
Inductive segment : Type :=
| Lit (text : string)
| Field (name : string).

Fixpoint lookup (key : string) (dict : list (string * string)) : option string :=
  match dict with
  | [] => None
  | (k, v) :: rest => if String.eqb k key then Some v else lookup key rest
  end.

(** [str.format] with the fields taken from [template_vars]. *)
Fixpoint format (template : list segment) (template_vars : list (string * string))
  : result string :=
  match template with
  | [] => Ok ""
  | Lit text :: rest =>
      tail <- format rest template_vars ;;
      Ok (text ++ tail)
  | Field name :: rest =>
      match lookup name template_vars with
      | None => Raise (KeyError name)
      | Some v =>
          tail <- format rest template_vars ;;
          Ok (v ++ tail)
      end
  end.

Record Template : Type := {
  tpl_title : list segment;
  tpl_message : list segment;
  tpl_severity : AlertSeverity
}.

(** [ALERT_TEMPLATES.get(alert_type)] *)
Definition ALERT_TEMPLATES (alert_type : string) : option Template :=
  if String.eqb alert_type "budget_exhausted" then
    Some {| tpl_title := [Lit "[CRITICAL] Error Budget Exhausted: "; Field "service"];
            tpl_message :=
              [Lit "Error budget for "; Field "service";
               Lit " has been completely exhausted. Deployment freeze recommended."];
            tpl_severity := EMERGENCY |}
  else if String.eqb alert_type "budget_critical" then
    Some {| tpl_title := [Lit "[WARNING] Error Budget Critical: "; Field "service"];
            tpl_message :=
              [Lit "Error budget for "; Field "service";
               Lit " is critically low ("; Field "remaining";
               Lit "% remaining). Budget will be exhausted in ~"; Field "time";
               Lit "."];
            tpl_severity := CRITICAL |}
  else if String.eqb alert_type "burn_rate_high" then
    Some {| tpl_title := [Lit "[ALERT] High Burn Rate: "; Field "service"];
            tpl_message :=
              [Field "service"; Lit " is burning error budget at "; Field "rate";
               Lit "Ã— the allowed rate. Current risk level: "; Field "risk";
               Lit "."];
            tpl_severity := WARNING |}
  else if String.eqb alert_type "risk_escalation" then
    Some {| tpl_title := [Lit "[NOTICE] Risk Level Changed: "; Field "service"];
            tpl_message :=
              [Field "service"; Lit " risk level has escalated from ";
               Field "from_risk"; Lit " to "; Field "to_risk"; Lit "."];
            tpl_severity := WARNING |}
  else if String.eqb alert_type "deployment_blocked" then
    Some {| tpl_title := [Lit "[INFO] Deployment Blocked: "; Field "service"];
            tpl_message :=
              [Lit "Deployment "; Field "deployment_id";
               Lit " was blocked due to "; Field "reason"; Lit "."];
            tpl_severity := INFO |}
  else if String.eqb alert_type "recovery" then
    Some {| tpl_title := [Lit "[RESOLVED] Service Recovered: "; Field "service"];
            tpl_message :=
              [Field "service"; Lit " has recovered. Risk level is now ";
               Field "risk"; Lit "."];
            tpl_severity := INFO |}
  else None.

(** ** The mapped class [Alert]

    What a name denotes on the class.  Its body in [database.py] declares
    thirteen columns; the JSON one is declared as [alert_metadata].  The
    name [metadata] is not among them: on a class derived from
    [declarative_base()] it is the attribute inherited from [Base], the
    [MetaData] registry of the tables. *)
Inductive class_attribute : Type :=
| JsonColumn (read : Alert -> option json_object)
| PlainColumn
| TableRegistry.

Definition Alert_columns : list string :=
  ["id"; "service_id"; "timestamp"; "severity"; "channel"; "title"; "message";
   "sent"; "sent_at"; "acknowledged"; "acknowledged_by"; "acknowledged_at"].

(** [Alert.<name>] *)
Definition Alert_getattr (name : string) : result class_attribute :=
  if String.eqb name "alert_metadata" then Ok (JsonColumn al_alert_metadata)
  else if existsb (String.eqb name) Alert_columns then Ok PlainColumn
  else if String.eqb name "metadata" then Ok TableRegistry
  else Raise (AttributeError ("type object 'Alert' has no attribute '" ++ name ++ "'")).

(** Every pair of [probe] occurs in [object]. *)
Definition json_contains (object probe : json_object) : bool :=
  forallb (fun kv => match lookup (fst kv) object with
                     | Some v => String.eqb v (snd kv)
                     | None => false
                     end) probe.

(** [attribute.contains(probe)] as a row filter.  The JSON column builds a
    containment test (on another column it would be a substring test,
    which the code never builds); the [MetaData] registry has no method
    [contains]. *)
Definition contains (attribute : class_attribute) (probe : json_object)
  : result (Alert -> bool) :=
  match attribute with
  | JsonColumn read =>
      Ok (fun row => match read row with
                     | Some object => json_contains object probe
                     | None => false
                     end)
  | PlainColumn => Ok (fun _ => false)
  | TableRegistry =>
      Raise (AttributeError "'MetaData' object has no attribute 'contains'")
  end.

(** [Alert(service_id=..., severity=..., channel=..., title=...,
    message=..., metadata=...)].  The keyword [metadata] names no column:
    the constructor accepts it because the class has an attribute of that
    name, and the value stays on the Python object.  The columns that are
    not named take their defaults. *)
Definition Alert_new (now service_id : Z) (severity : AlertSeverity)
           (channel : AlertChannel) (title message : string)
           (metadata : json_object) : Alert :=
  {| al_service_id := service_id;
     al_timestamp := now;
     al_severity := severity;
     al_channel := channel;
     al_title := title;
     al_message := message;
     al_alert_metadata := None;
     al_sent := false;
     al_sent_at := None;
     al_acknowledged := false;
     al_acknowledged_by := None;
     al_acknowledged_at := None |}.

Definition set_alerts (db : DB) (rows : list Alert) : DB :=
  {| services := services db; metrics := metrics db;
     slo_targets := slo_targets db; burn_history := burn_history db;
     deployments := deployments db; alerts := rows |}.

Section WithSettings.
Variable settings : Settings.

Definition _is_in_cooldown (db : DB) (now service_id : Z) (alert_type : string)
  : result bool :=
  let cooldown_start := (now - minutes (ALERT_COOLDOWN_MINUTES settings))%Z in
  attribute <- Alert_getattr "metadata" ;;
  tagged <- contains attribute [("alert_type", alert_type)] ;;
  let recent :=
    first (fun a => (al_service_id a =? service_id)%Z
                    && (cooldown_start <=? al_timestamp a)%Z
                    && tagged a)
          (alerts db) in
  Ok (match recent with Some _ => true | None => false end).

(** [_send_notification]: the row just added is marked as sent. *)
Definition _send_notification (now : Z) (alert : Alert) : Alert :=
  {| al_service_id := al_service_id alert;
     al_timestamp := al_timestamp alert;
     al_severity := al_severity alert;
     al_channel := al_channel alert;
     al_title := al_title alert;
     al_message := al_message alert;
     al_alert_metadata := al_alert_metadata alert;
     al_sent := true;
     al_sent_at := Some now;
     al_acknowledged := al_acknowledged alert;
     al_acknowledged_by := al_acknowledged_by alert;
     al_acknowledged_at := al_acknowledged_at alert |}.

Definition create_alert (db : DB) (now service_id : Z) (alert_type : string)
           (channel : AlertChannel) (template_vars : list (string * string))
           (metadata : option json_object) : result (option Alert * DB) :=
  match ALERT_TEMPLATES alert_type with
  | None => Raise (ValueError ("Unknown alert type: " ++ alert_type))
  | Some template =>
      in_cooldown <- _is_in_cooldown db now service_id alert_type ;;
      if in_cooldown then Ok (None, db)
      else
        title <- format (tpl_title template) template_vars ;;
        message <- format (tpl_message template) template_vars ;;
        let alert :=
          Alert_new now service_id (tpl_severity template) channel title message
                    (match metadata with Some m => m | None => [] end) in
        let alert := _send_notification now alert in
        Ok (Some alert, set_alerts db (alerts db ++ [alert])%list)
  end.

Definition _format_time (hours : option Q) : string :=
  match hours with
  | None => "unknown"
  | Some h =>
      if Qltb h 1 then string_of_Z (py_int (h * 60)) ++ " minutes"
      else if Qltb h 24 then format_fixed 1 h ++ " hours"
      else format_fixed 1 (h / 24) ++ " days"
  end.

Definition upper (s : string) : string :=
  string_of_list_ascii
    (map (fun c => let n := nat_of_ascii c in
                   if ((97 <=? n) && (n <=? 122))%nat
                   then ascii_of_nat (n - 32) else c)
         (list_ascii_of_string s)).

Definition appended (alerts : list Alert) (alert : option Alert) : list Alert :=
  match alert with
  | Some a => (alerts ++ [a])%list
  | None => alerts
  end.

(** The first [if]/[elif] of the [try] block (budget exhausted, budget
    critical). *)
Definition budget_alerts (db : DB) (clock : Clock) (service_id : Z)
           (service : Service) (burn : BurnRateComputation)
  : result (list Alert * DB) :=
  if Qleb (brc_error_budget_remaining burn) 0 then
    created <- create_alert db (clock 5%nat) service_id "budget_exhausted" SLACK
                            [("service", svc_name service)]
                            (Some [("alert_type", "budget_exhausted")]) ;;
    Ok (appended [] (fst created), snd created)
  else if Qltb (brc_error_budget_remaining burn) 15 then
    forecast <- ForecastModule.forecast_exhaustion settings db (later 1 clock)
                                                   service_id true ;;
    let time_str := _format_time (fr_time_to_exhaustion_hours forecast) in
    created <- create_alert db (clock 5%nat) service_id "budget_critical" SLACK
                            [("service", svc_name service);
                             ("remaining",
                              format_fixed 1 (brc_error_budget_remaining burn));
                             ("time", time_str)]
                            (Some [("alert_type", "budget_critical")]) ;;
    Ok (appended [] (fst created), snd created)
  else Ok ([], db).

(** The second [if] of the [try] block (high burn rate). *)
Definition burn_rate_alert (db : DB) (clock : Clock) (service_id : Z)
           (service : Service) (burn : BurnRateComputation) (alerts : list Alert)
  : result (list Alert * DB) :=
  if Qgeb (brc_burn_rate burn) 2 then
    created <- create_alert db (clock 6%nat) service_id "burn_rate_high" UI
                            [("service", svc_name service);
                             ("rate", format_fixed 1 (brc_burn_rate burn));
                             ("risk", upper (RiskLevel_value (brc_risk_level burn)))]
                            (Some [("alert_type", "burn_rate_high")]) ;;
    Ok (appended alerts (fst created), snd created)
  else Ok (alerts, db).

(** [evaluate_and_alert].  The query of line 173 stands before the [try]
    block: an id that is no 64-bit integer makes the call raise.  An
    exception inside the [try] block is printed and the alerts collected
    so far are returned; what was committed before it stays committed.
    The clock is read by the burn-rate computation ([clock 0]), by the
    forecast ([clock 1] to [clock 4]) and by the calls of [create_alert]
    ([clock 5] and [clock 6]). *)
Definition evaluate_and_alert (db : DB) (clock : Clock) (service_id : Z)
  : result (list Alert * DB) :=
  _ <- sqlite_int service_id ;;
  match first (fun s => (svc_id s =? service_id)%Z) (services db) with
  | None => Ok ([], db)
  | Some service =>
      match BurnRateEngine.compute_burn_rate settings db (clock 0%nat) service_id 60 with
      | Raise _ => Ok ([], db)
      | Ok burn =>
          match budget_alerts db clock service_id service burn with
          | Raise _ => Ok ([], db)
          | Ok (alerts1, db1) =>
              Ok (try_except (burn_rate_alert db1 clock service_id service burn alerts1)
                             (fun _ => (alerts1, db1)))
          end
      end
  end.

End WithSettings.
End AlertManager.

(** * Metric ingestion: [schemas.MetricSnapshot], [services/metrics_service.py]
      and the endpoint [api/endpoints/metrics.py] *)

(** One element of the request body, before validation. *)
Record MetricSnapshot : Type := {
  ms_service : string;
  ms_timestamp : Z;
  ms_total_requests : Z;
  ms_error_count : Z;
  ms_latency_p50 : option Q;
  ms_latency_p95 : option Q;
  ms_latency_p99 : option Q
}.

Module MetricsIngestionService.
Import Num.

(** The constraints of the pydantic model: [Field(ge=0)] on both counts. *)
Definition validate (metric : MetricSnapshot) : result MetricSnapshot :=
  if (ms_total_requests metric <? 0)%Z then
    Raise (ValidationError "total_requests: Input should be greater than or equal to 0")
  else if (ms_error_count metric <? 0)%Z then
    Raise (ValidationError "error_count: Input should be greater than or equal to 0")
  else Ok metric.

Fixpoint validate_all (body : list MetricSnapshot) : result (list MetricSnapshot) :=
  match body with
  | [] => Ok []
  | metric :: rest =>
      m <- validate metric ;;
      ms <- validate_all rest ;;
      Ok (m :: ms)
  end.

(** The id the store assigns to a new [services] row. *)
Definition next_service_id (db : DB) : Z :=
  (fold_right Z.max 0 (map svc_id (services db)) + 1)%Z.

(** [find or create service], lines 44 to 51: the service of that name,
    or a new active one, flushed to the store to obtain its id. *)
Definition find_or_create (db : DB) (name : string) : Service * DB :=
  match first (fun s => String.eqb (svc_name s) name) (services db) with
  | Some service => (service, db)
  | None =>
      let service := {| svc_id := next_service_id db;
                        svc_name := name;
                        svc_is_active := true |} in
      (service,
       {| services := (services db ++ [service])%list; metrics := metrics db;
          slo_targets := slo_targets db; burn_history := burn_history db;
          deployments := deployments db; alerts := alerts db |})
  end.

(** Lines 54 to 59: the division of two ints raises when its quotient is
    too large for a float. *)
Definition success_rate_of (metric : MetricSnapshot) : result (option Q) :=
  if (0 <? ms_total_requests metric)%Z then
    ratio <- int_true_div (ms_total_requests metric - ms_error_count metric)
                          (ms_total_requests metric) ;;
    Ok (Some (ratio * 100))
  else Ok None.

(** Lines 62 to 72: the row added to the session. *)
Definition add_metric (db : DB) (service : Service) (metric : MetricSnapshot)
           (success_rate : option Q) : DB :=
  let db_metric :=
    {| m_service_id := svc_id service;
       m_timestamp := ms_timestamp metric;
       m_total_requests := ms_total_requests metric;
       m_error_count := ms_error_count metric;
       m_latency_p50 := ms_latency_p50 metric;
       m_latency_p95 := ms_latency_p95 metric;
       m_latency_p99 := ms_latency_p99 metric;
       m_success_rate := success_rate |} in
  {| services := services db; metrics := (metrics db ++ [db_metric])%list;
     slo_targets := slo_targets db; burn_history := burn_history db;
     deployments := deployments db; alerts := alerts db |}.

(** The [try] block of the loop of [ingest_metrics] for one snapshot: the
    store it leaves and whether it reached [processed += 1].  When the
    success rate raises, the [except] branch is taken; a service created
    before stays in the session. *)
Definition ingest_one (db : DB) (metric : MetricSnapshot) : DB * bool :=
  let '(service, db) := find_or_create db (ms_service metric) in
  match success_rate_of metric with
  | Ok success_rate => (add_metric db service metric success_rate, true)
  | Raise _ => (db, false)
  end.

(** Both counts of the snapshot fit the INTEGER columns of [metrics]. *)
Definition fits (metric : MetricSnapshot) : bool :=
  is_int64 (ms_total_requests metric) && is_int64 (ms_error_count metric).

(** The snapshot gets its row added to the session. *)
Definition processed_by_loop (metric : MetricSnapshot) : bool :=
  match success_rate_of metric with
  | Ok _ => true
  | Raise _ => false
  end.

(** The loop of [ingest_metrics] from the counts and the store so far. *)
Definition ingest_loop (batch : list MetricSnapshot) (start : (Z * Z) * DB)
  : (Z * Z) * DB :=
  fold_left (fun acc metric =>
               let '((processed, errors), db) := acc in
               let '(db, ok) := ingest_one db metric in
               if ok then ((processed + 1, errors)%Z, db)
               else ((processed, errors + 1)%Z, db))
            batch start.

(** [ingest_metrics]: [(processed, errors)] and the store after the
    commit.  A row whose count does not fit its column makes its INSERT
    fail: the rows are written by the commit at the latest, the call
    ends in an exception and the transaction is not committed.  The model
    keeps the [OverflowError] of the driver for it. *)
Definition ingest_metrics (db : DB) (batch : list MetricSnapshot)
  : result ((Z * Z) * DB) :=
  if forallb (fun metric => negb (processed_by_loop metric) || fits metric) batch
  then Ok (ingest_loop batch ((0, 0)%Z, db))
  else Raise OverflowError.


End MetricsIngestionService.

(** * Further operations of the engines *)

(** [order_by(column.desc())] on an integer column. *)
Fixpoint insert_desc {A : Type} (key : A -> Z) (x : A) (sorted : list A) : list A :=
  match sorted with
  | [] => [x]
  | y :: rest =>
      if (key y <? key x)%Z then x :: sorted else y :: insert_desc key x rest
  end.

Definition order_by_desc {A : Type} (key : A -> Z) (rows : list A) : list A :=
  fold_right (insert_desc key) [] rows.

(** [func.avg], [func.max] and [func.min] over a float column: NULL over
    no rows. *)
Definition sql_avg (xs : list Q) : option Q :=
  match xs with
  | [] => None
  | _ => Some (ForecastModule.Qsum xs / inject_Z (Z.of_nat (List.length xs)))
  end.

Definition sql_max (xs : list Q) : option Q :=
  match xs with
  | [] => None
  | x :: rest => Some (fold_left Qmax rest x)
  end.

Definition sql_min (xs : list Q) : option Q :=
  match xs with
  | [] => None
  | x :: rest => Some (fold_left Qmin rest x)
  end.

(** [value or 0] on a float. *)
Definition or_zero_float (v : option Q) : Q :=
  match v with
  | Some q => q
  | None => 0
  end.

(** ** [burn_rate_service.py]: history queries *)

Record BurnStatistics : Type := {
  bs_average_burn_rate : Q;
  bs_peak_burn_rate : Q;
  bs_min_burn_rate : Q;
  bs_average_budget_consumed : Q;
  bs_hours : Z
}.

Module BurnRateHistory.
Import Num.


(** The rows [get_burn_statistics] aggregates: every window of the
    service since the cutoff. *)
Definition statistics_rows (db : DB) (now service_id period_hours : Z)
  : list BurnHistory :=
  let cutoff := (now - hours period_hours)%Z in
  filter (fun h => (bh_service_id h =? service_id)%Z
                   && (cutoff <=? bh_timestamp h)%Z)
         (burn_history db).

Definition get_burn_statistics (db : DB) (now service_id period_hours : Z)
  : BurnStatistics :=
  let rows := statistics_rows db now service_id period_hours in
  let avg_burn := sql_avg (map bh_burn_rate rows) in
  let max_burn := sql_max (map bh_burn_rate rows) in
  let min_burn := sql_min (map bh_burn_rate rows) in
  let avg_consumed := sql_avg (map bh_error_budget_consumed rows) in
  {| bs_average_burn_rate := py_round (or_zero_float avg_burn) 3;
     bs_peak_burn_rate := py_round (or_zero_float max_burn) 3;
     bs_min_burn_rate := py_round (or_zero_float min_burn) 3;
     bs_average_budget_consumed := py_round (or_zero_float avg_consumed) 2;
     bs_hours := period_hours |}.

End BurnRateHistory.

(** ** [slo_service.py]: compliance of all services, default targets *)

Record SLOStatus : Type := {
  st_service_id : Z;
  st_service_name : string;
  st_computations : list SLOComputation;
  st_overall_compliance : Q;
  st_is_healthy : bool
}.

Record GlobalCompliance : Type := {
  gc_total_services : nat;
  gc_services_meeting_slo : nat;
  gc_global_compliance : Q;
  gc_services_at_risk : list string
}.

Module SLOCompliance.
Import Num.

(** [compute_slo(service_id)], as every caller in the repository calls
    it: [slo_target_id] is left at [None] and all active targets of the
    service are computed. *)
Definition compute_slo (db : DB) (now service_id : Z) : result (list SLOComputation) :=
  match first (fun s => (svc_id s =? service_id)%Z) (services db) with
  | None =>
      Raise (ValueError ("Service " ++ string_of_Z service_id ++ " not found"))
  | Some service =>
      let slo_targets :=
        filter (fun t => (slo_service_id t =? service_id)%Z && slo_is_active t)
               (slo_targets db) in
      Ok (map (SLOComputationEngine._compute_single_slo db now service) slo_targets)
  end.

(** The list comprehension of lines 190-193.  A target value of zero makes
    the float division raise, which the [except] of the loop turns into
    the service being left out: [None]. *)
Fixpoint compliances (computations : list SLOComputation) : option (list Q) :=
  match computations with
  | [] => Some []
  | c :: rest =>
      if Qeq_bool (sc_target_value c) 0 then None
      else
        match compliances rest with
        | None => None
        | Some tail =>
            Some (Qmin (sc_current_value c / sc_target_value c * 100) 100 :: tail)
        end
  end.

(** The body of the loop of [get_all_services_slo_status] for one service. *)
Definition service_status (db : DB) (now : Z) (service : Service) : option SLOStatus :=
  match compute_slo db now (svc_id service) with
  | Raise _ => None
  | Ok computations =>
      let overall :=
        match computations with
        | [] => Some 100
        | _ =>
            match compliances computations with
            | None => None
            | Some cs =>
                Some (ForecastModule.Qsum cs / inject_Z (Z.of_nat (List.length cs)))
            end
        end in
      match overall with
      | None => None
      | Some overall_compliance =>
          Some {| st_service_id := svc_id service;
                  st_service_name := svc_name service;
                  st_computations := computations;
                  st_overall_compliance := py_round overall_compliance 2;
                  st_is_healthy := Qgeb overall_compliance 100 |}
      end
  end.

Fixpoint collect_status (db : DB) (now : Z) (services : list Service) : list SLOStatus :=
  match services with
  | [] => []
  | service :: rest =>
      match service_status db now service with
      | Some status => status :: collect_status db now rest
      | None => collect_status db now rest
      end
  end.

Definition get_all_services_slo_status (db : DB) (now : Z) : list SLOStatus :=
  collect_status db now (filter svc_is_active (services db)).

Definition compute_global_compliance (db : DB) (now : Z) : GlobalCompliance :=
  let services_status := get_all_services_slo_status db now in
  let total_services := List.length services_status in
  match total_services with
  | O =>
      {| gc_total_services := 0; gc_services_meeting_slo := 0;
         gc_global_compliance := 100; gc_services_at_risk := [] |}
  | _ =>
      let services_meeting_slo :=
        List.length (filter st_is_healthy services_status) in
      let global_compliance :=
        ForecastModule.Qsum (map st_overall_compliance services_status)
        / inject_Z (Z.of_nat total_services) in
      let at_risk :=
        map st_service_name
            (filter (fun s => negb (st_is_healthy s)) services_status) in
      {| gc_total_services := total_services;
         gc_services_meeting_slo := services_meeting_slo;
         gc_global_compliance := py_round global_compliance 2;
         gc_services_at_risk := at_risk |}
  end.

(** [create_default_slo_targets]; the columns that are not named take
    their defaults, [is_active] among them. *)
Definition default_targets (service_id : Z) : list SLOTarget :=
  [ {| slo_service_id := service_id; slo_name := "availability";
       slo_target_value := 999 # 10; slo_window_days := 30;
       slo_burn_rate_threshold := 1; slo_critical_burn_rate := 2;
       slo_is_active := true |};
    {| slo_service_id := service_id; slo_name := "latency_p99";
       slo_target_value := 99; slo_window_days := 30;
       slo_burn_rate_threshold := 1; slo_critical_burn_rate := 2;
       slo_is_active := true |} ].

Definition create_default_slo_targets (db : DB) (service_id : Z) : list SLOTarget * DB :=
  let targets := default_targets service_id in
  (targets,
   {| services := services db; metrics := metrics db;
      slo_targets := (slo_targets db ++ targets)%list;
      burn_history := burn_history db; deployments := deployments db;
      alerts := alerts db |}).

End SLOCompliance.

(** ** [forecast_service.py]: the scan over all services *)

Record NearestExhaustion : Type := {
  ne_service_name : string;
  ne_time_to_exhaustion_hours : option Q;
  ne_projected_exhaustion_time : option Q;
  ne_current_burn_rate : Q;
  ne_budget_remaining : Q
}.

Module ForecastScan.
Import Num.

Section WithSettings.
Variable settings : Settings.

(** The loop of [get_all_forecasts]; [clocks k] holds the readings of the
    forecast for the k-th service of the list.  A forecast that raises is
    printed and left out. *)
Fixpoint collect_forecasts (db : DB) (clocks : nat -> Clock) (services : list Service)
  : list ForecastResponse :=
  match services with
  | [] => []
  | service :: rest =>
      match ForecastModule.forecast_exhaustion settings db (clocks 0%nat)
                                               (svc_id service) true with
      | Ok forecast =>
          forecast :: collect_forecasts db (fun k => clocks (S k)) rest
      | Raise _ => collect_forecasts db (fun k => clocks (S k)) rest
      end
  end.

Definition get_all_forecasts (db : DB) (clocks : nat -> Clock)
  : list ForecastResponse :=
  collect_forecasts db clocks (filter svc_is_active (services db)).

(** The filter of lines 281-285. *)
Definition at_risk (f : ForecastResponse) : bool :=
  match fr_time_to_exhaustion_hours f with
  | Some t => Qltb t 720
  | None => false
  end.

(** The key of [min]; every element it is applied to passed [at_risk]. *)
Definition exhaustion_key (f : ForecastResponse) : Q :=
  or_zero_float (fr_time_to_exhaustion_hours f).

(** [min(rest, key=...)] with [best] the smallest so far: the first of
    the smallest elements wins. *)
Fixpoint min_by_key (best : ForecastResponse) (rest : list ForecastResponse)
  : ForecastResponse :=
  match rest with
  | [] => best
  | f :: rest' =>
      min_by_key (if Qltb (exhaustion_key f) (exhaustion_key best) then f else best)
                 rest'
  end.

Definition get_nearest_exhaustion (db : DB) (clocks : nat -> Clock)
  : option NearestExhaustion :=
  let forecasts := get_all_forecasts db clocks in
  match filter at_risk forecasts with
  | [] => None
  | f :: rest =>
      let nearest := min_by_key f rest in
      Some {| ne_service_name := fr_service_name nearest;
              ne_time_to_exhaustion_hours := fr_time_to_exhaustion_hours nearest;
              ne_projected_exhaustion_time := fr_projected_exhaustion_time nearest;
              ne_current_burn_rate := fr_current_burn_rate nearest;
              ne_budget_remaining := fr_error_budget_remaining nearest |}
  end.

End WithSettings.
End ForecastScan.

(** ** [release_gate_service.py]: history and statistics *)

Record GateStatistics : Type := {
  gs_period_days : Z;
  gs_total_deployments : Z;
  gs_blocked_deployments : Z;
  gs_allowed_deployments : Z;
  gs_block_rate : Q;
  gs_risk_distribution : list (string * Z)
}.

Module GateAudit.
Import Num.

(** [func.count] *)
Definition count {A : Type} (p : A -> bool) (rows : list A) : Z :=
  Z.of_nat (List.length (filter p rows)).

(** The rows [get_deployment_history] selects from: [if service_id:]
    filters for an id that is neither [None] nor 0. *)
Definition selected (db : DB) (service_id : option Z) : list Deployment :=
  match service_id with
  | Some id =>
      if (id =? 0)%Z then deployments db
      else filter (fun d => (dep_service_id d =? id)%Z) (deployments db)
  | None => deployments db
  end.

(** [LIMIT n]: a negative [n] sets no bound. *)
Definition sql_limit {A : Type} (n : Z) (rows : list A) : list A :=
  if (n <? 0)%Z then rows else firstn (Z.to_nat n) rows.

(** [get_deployment_history].  The id, when it filters, and the limit are
    bound to the statement. *)
Definition get_deployment_history (db : DB) (service_id : option Z) (limit : Z)
  : result (list Deployment) :=
  _ <- match service_id with
       | Some id => if (id =? 0)%Z then Ok id else sqlite_int id
       | None => Ok 0%Z
       end ;;
  _ <- sqlite_int limit ;;
  Ok (sql_limit limit (order_by_desc dep_requested_at (selected db service_id))).

(** The groups of [group_by(risk_level_at_request)] with their counts,
    without the group of the rows that carry no level. *)
Definition risk_counts (rows : list Deployment) : list (string * Z) :=
  flat_map
    (fun level =>
       let n := count (fun d => match dep_risk_level_at_request d with
                                | Some l => RiskLevel_eqb l level
                                | None => false
                                end) rows in
       if (0 <? n)%Z then [(RiskLevel_value level, n)] else [])
    [SAFE; OBSERVE; DANGER; FREEZE].

(** [get_gate_statistics].  The cutoff is [utcnow() - timedelta(days=days)]. *)
Definition get_gate_statistics (db : DB) (now period_days : Z)
  : result GateStatistics :=
  delta <- timedelta (days period_days) ;;
  cutoff <- datetime_sub now delta ;;
  let in_period := fun d => (cutoff <=? dep_requested_at d)%Z in
  let total := count in_period (deployments db) in
  let blocked :=
    count (fun d => in_period d && negb (dep_allowed d)) (deployments db) in
  Ok {| gs_period_days := period_days;
        gs_total_deployments := total;
        gs_blocked_deployments := blocked;
        gs_allowed_deployments := (total - blocked)%Z;
        gs_block_rate :=
          if (total =? 0)%Z then 0
          else py_round (inject_Z blocked / inject_Z total * 100) 2;
        gs_risk_distribution := risk_counts (filter in_period (deployments db)) |}.

End GateAudit.

(** ** [metrics_service.py]: retention and the simulator's counts *)

Module MetricsRetention.
Import Num.

(** [cleanup_old_metrics].  [metrics_retention_days] is
    [settings.METRICS_RETENTION_DAYS], used when no retention is given. *)
Definition cleanup_old_metrics (metrics_retention_days : Z) (db : DB) (now : Z)
           (retention_days : option Z) : Z * DB :=
  let retention_days :=
    match retention_days with
    | Some d => d
    | None => metrics_retention_days
    end in
  let cutoff := (now - days retention_days)%Z in
  let deleted := filter (fun m => (m_timestamp m <? cutoff)%Z) (metrics db) in
  (Z.of_nat (List.length deleted),
   {| services := services db;
      metrics := filter (fun m => negb (m_timestamp m <? cutoff)%Z) (metrics db);
      slo_targets := slo_targets db; burn_history := burn_history db;
      deployments := deployments db; alerts := alerts db |}).

(** Lines 268-280 of [_generate_service_snapshot]: the request and error
    counts of a simulated snapshot.  [load] is the product
    [base_rps * day_factor * variance] and [error_rate] the rate before it
    is clamped, both with the random draws already made. *)
Definition simulated_counts (load error_rate : Q) : Z * Z :=
  let rps := py_int load in
  let total_requests := Z.max rps 0 in
  let error_rate := Qmax 0 (Qmin 1 error_rate) in
  let error_count := py_int (inject_Z total_requests * error_rate) in
  (total_requests, error_count).

End MetricsRetention.

(** ** [main.py]: one round of the periodic computation *)

Module PeriodicComputation.

Section WithSettings.
Variable settings : Settings.

(** The inner loop over the windows: each computation reads the clock for
    itself and is stored before the next one starts; an exception ends the
    loop and is handed on. *)
Fixpoint store_windows (db : DB) (clock : Clock) (service_id : Z) (windows : list Z)
  : DB * option exn :=
  match windows with
  | [] => (db, None)
  | window :: rest =>
      match BurnRateEngine.compute_burn_rate settings db (clock 0%nat) service_id
                                             window with
      | Raise e => (db, Some e)
      | Ok computation =>
          store_windows (BurnRateEngine.store_burn_history db computation)
                        (later 1 clock) service_id rest
      end
  end.

(** The [try] block for one service; what was stored before an exception
    stays stored.  The three computations read [clock 0] to [clock 2],
    [evaluate_and_alert] the readings after them. *)
Definition process_service (db : DB) (clock : Clock) (service : Service) : DB :=
  match store_windows db clock (svc_id service) [5; 60; 1440]%Z with
  | (db1, Some _) => db1
  | (db1, None) =>
      match AlertManager.evaluate_and_alert settings db1 (later 3 clock)
                                            (svc_id service) with
      | Ok (_, db2) => db2
      | Raise _ => db1
      end
  end.

(** The loop over the services; [clocks k] holds the readings made while
    the k-th service of the list is processed. *)
Fixpoint process_services (db : DB) (clocks : nat -> Clock) (services : list Service)
  : DB :=
  match services with
  | [] => db
  | service :: rest =>
      process_services (process_service db (clocks 0%nat) service)
                       (fun k => clocks (S k)) rest
  end.

(** One pass of the [while True] loop, up to the sleep. *)
Definition tick (db : DB) (clocks : nat -> Clock) : DB :=
  process_services db clocks (filter svc_is_active (services db)).

End WithSettings.
End PeriodicComputation.

(** The deployment was requested at the given risk level. *)
Definition has_level (level : RiskLevel) (d : Deployment) : bool :=
  match dep_risk_level_at_request d with
  | Some l => RiskLevel_eqb l level
  | None => false
  end.

(** The order of a result sorted by [key] descending: [a] comes before [b]. *)
Definition newer_first {A : Type} (key : A -> Z) (a b : A) : Prop :=
  (key b <= key a)%Z.

(** * Vocabulary of the statements *)

(** The service a release request names, as [check_release] looks it up. *)
Definition registered (db : DB) (request : ReleaseCheckRequest) : option Service :=
  first (fun s => String.eqb (svc_name s) (req_service_name request)) (services db).

(** The id under which [_record_deployment] stores the row. *)
Definition stored_id (uuid_bits : N) (request : ReleaseCheckRequest) : string :=
  if String.eqb (req_deployment_id request) "" then Uuid.str uuid_bits
  else req_deployment_id request.

Definition id_is_new (db : DB) (id : string) : Prop :=
  existsb (fun d => String.eqb (dep_deployment_id d) id) (deployments db) = false.

(** The window of a burn-rate computation starts at a datetime. *)
Definition window_in_range (now window_minutes : Z) : Prop :=
  (-999999999 <= minutes window_minutes / 86400 <= 999999999)%Z
  /\ (datetime_min <= now - minutes window_minutes <= datetime_max)%Z.

(** Neither sum over the rows of the window leaves the 64-bit range. *)
Definition sums_fit (db : DB) (now service_id window_minutes : Z) : Prop :=
  let rows := metrics_in_window db service_id (now - minutes window_minutes) now in
  sum_overflows 0 (map m_total_requests rows) = false
  /\ sum_overflows 0 (map m_error_count rows) = false.

(** The first [n] readings are datetimes a day or more after the first
    datetime, as every reading of a running clock is. *)
Definition clock_in_range (clock : Clock) (n : nat) : Prop :=
  forall k, (k < n)%nat -> (datetime_min + days 1 <= clock k <= datetime_max)%Z.

(** The counts of the store are not negative and add up to 64-bit
    integers, as they do in a store filled by ingestion while the traffic
    it has seen stays below 2^63 requests. *)
Definition counts_fit (db : DB) : Prop :=
  Forall (fun m => (0 <= m_total_requests m)%Z /\ (0 <= m_error_count m)%Z)
         (metrics db)
  /\ (fold_right Z.add 0 (map m_total_requests (metrics db)) < 2 ^ 63)%Z
  /\ (fold_right Z.add 0 (map m_error_count (metrics db)) < 2 ^ 63)%Z.

(** What the schema of a metric snapshot rejects. *)
Definition malformed (metric : MetricSnapshot) : Prop :=
  (ms_total_requests metric < 0)%Z \/ (ms_error_count metric < 0)%Z.

(** A service of that name is registered. *)
Definition named (db : DB) (name : string) : Prop :=
  exists s, In s (services db) /\ svc_name s = name.

(** * Example stores *)

Module Examples.

Definition api_gateway : Service :=
  {| svc_id := 1; svc_name := "api-gateway"; svc_is_active := true |}.

Definition metric (timestamp total_requests error_count : Z) : Metric :=
  {| m_service_id := 1; m_timestamp := timestamp;
     m_total_requests := total_requests; m_error_count := error_count;
     m_latency_p50 := None; m_latency_p95 := None; m_latency_p99 := None;
     m_success_rate := None |}.

Definition history (timestamp : Z) (burn_rate : Q) : BurnHistory :=
  {| bh_service_id := 1; bh_timestamp := timestamp; bh_window_minutes := 60;
     bh_burn_rate := burn_rate; bh_error_budget_consumed := 50;
     bh_error_budget_remaining := 50; bh_time_to_exhaustion_hours := None;
     bh_risk_level := SAFE |}.

(** One service, 600000 requests with 300 errors in the last hour (burn
    rate 0.5, half of the budget left), and an hourly history that rises
    by 0.05 per hour. *)
Definition gentle_rise : DB :=
  {| services := [api_gateway];
     metrics := [metric 7000 600000 300];
     slo_targets := [];
     burn_history := [history 0 (40 # 100); history 3600 (45 # 100);
                      history 7200 (50 # 100)];
     deployments := [];
     alerts := [] |}.

(** The same service with an hourly history that rises by 0.25 per hour. *)
Definition steep_rise : DB :=
  {| services := [api_gateway];
     metrics := [metric 7000 600000 300];
     slo_targets := [];
     burn_history := [history 0 (0 # 100); history 3600 (25 # 100);
                      history 7200 (50 # 100)];
     deployments := [];
     alerts := [] |}.

(** A release request for a service nobody registered. *)
Definition ghost_request : ReleaseCheckRequest :=
  {| req_service_name := "ghost-service"; req_deployment_id := "deploy-123";
     req_version := Some "v2.1.0"; req_requested_by := None;
     req_override := false; req_override_reason := None |}.

(** A release request for the registered service that carries no
    deployment id. *)
Definition unnamed_request : ReleaseCheckRequest :=
  {| req_service_name := "api-gateway"; req_deployment_id := "";
     req_version := Some "v2.1.0"; req_requested_by := Some "john.doe@company.com";
     req_override := false; req_override_reason := None |}.

(** The service in DANGER: 600000 requests with 540 errors in the last
    five minutes, which is a burn rate of 0.9 and 90% of the budget
    consumed in each of the three windows. *)
Definition strained : DB :=
  {| services := [api_gateway];
     metrics := [metric 7000 600000 540];
     slo_targets := [];
     burn_history := [];
     deployments := [];
     alerts := [] |}.

(** A release request for the registered service with an override and
    its reason. *)
Definition hotfix_request : ReleaseCheckRequest :=
  {| req_service_name := "api-gateway"; req_deployment_id := "deploy-456";
     req_version := Some "v2.1.1"; req_requested_by := Some "john.doe@company.com";
     req_override := true; req_override_reason := Some "hotfix for CVE-2024-X" |}.

(** The store of [gentle_rise] after a deployment "deploy-123" of the
    service was let through and a later one, "deploy-124", was blocked. *)
Definition released : DB :=
  {| services := [api_gateway];
     metrics := [metric 7000 600000 300];
     slo_targets := [];
     burn_history := [history 0 (40 # 100); history 3600 (45 # 100);
                      history 7200 (50 # 100)];
     deployments :=
       [ {| dep_service_id := 1; dep_deployment_id := "deploy-123";
            dep_version := Some "v2.1.0"; dep_requested_at := 3600;
            dep_requested_by := None; dep_allowed := true;
            dep_blocked_reason := None;
            dep_risk_level_at_request := Some SAFE;
            dep_burn_rate_at_request := Some (1 # 2);
            dep_status := "approved" |};
         {| dep_service_id := 1; dep_deployment_id := "deploy-124";
            dep_version := Some "v2.1.1"; dep_requested_at := 7000;
            dep_requested_by := None; dep_allowed := false;
            dep_blocked_reason :=
              Some "Deployment blocked: System is in DANGER state with elevated error rates";
            dep_risk_level_at_request := Some DANGER;
            dep_burn_rate_at_request := Some (9 # 10);
            dep_status := "rejected" |} ];
     alerts := [] |}.

(** The service while it burns its budget at 2.5 times the allowed
    rate: 600000 requests with 1500 errors in the last hour, no alert
    stored yet. *)
Definition burning : DB :=
  {| services := [api_gateway];
     metrics := [metric 7000 600000 1500];
     slo_targets := [];
     burn_history := [];
     deployments := [];
     alerts := [] |}.

(** The same store with a [burn_rate_high] alert for the service that
    is five minutes old at time 7500 and carries its tag in the JSON
    column. *)
Definition alerted : DB :=
  {| services := [api_gateway];
     metrics := [metric 7000 600000 1500];
     slo_targets := [];
     burn_history := [];
     deployments := [];
     alerts := [ {| al_service_id := 1; al_timestamp := 7200;
                    al_severity := WARNING; al_channel := UI;
                    al_title := "[ALERT] High Burn Rate: api-gateway";
                    al_message := "";
                    al_alert_metadata := Some [("alert_type", "burn_rate_high")];
                    al_sent := true; al_sent_at := Some 7200%Z;
                    al_acknowledged := false; al_acknowledged_by := None;
                    al_acknowledged_at := None |} ] |}.

(** The service with two rows of 2^62 requests each in the last hour:
    each count is a 64-bit integer, their sum is not. *)
Definition heavy_traffic : DB :=
  {| services := [api_gateway];
     metrics := [metric 7000 (2 ^ 62) 0; metric 7100 (2 ^ 62) 0];
     slo_targets := [];
     burn_history := [];
     deployments := [];
     alerts := [] |}.

Definition burn_rate_high_vars : list (string * string) :=
  [("service", "api-gateway"); ("rate", "2.5"); ("risk", "FREEZE")].

(** A snapshot of one request with so many errors that its success rate
    is too large for a float. *)
Definition absurd_errors : MetricSnapshot :=
  {| ms_service := "batch-job"; ms_timestamp := 7200;
     ms_total_requests := 1; ms_error_count := 2 ^ 1100;
     ms_latency_p50 := None; ms_latency_p95 := None; ms_latency_p99 := None |}.

(** A snapshot with more errors than requests, for a service that is
    not registered. *)
Definition more_errors_than_requests : MetricSnapshot :=
  {| ms_service := "new-service"; ms_timestamp := 7200;
     ms_total_requests := 10; ms_error_count := 50;
     ms_latency_p50 := None; ms_latency_p95 := None; ms_latency_p99 := None |}.


End Examples.

(** [Examples.gentle_rise] with the default SLO targets of its service. *)
Definition calm_with_targets : DB :=
  snd (SLOCompliance.create_default_slo_targets Examples.gentle_rise 1).

(** [Examples.burning] with the default SLO targets of its service. *)
Definition burning_with_targets : DB :=
  snd (SLOCompliance.create_default_slo_targets Examples.burning 1).

(** Every metric row belongs to a service of the store. *)
Definition metrics_reference_services (db : DB) : Prop :=
  forall m, In m (metrics db) -> exists s, In s (services db) /\ svc_id s = m_service_id m.

(** The key of a burn-history row: service, window and time. *)
Definition history_key (h : BurnHistory) : Z * Z * Z :=
  (bh_service_id h, bh_window_minutes h, bh_timestamp h).

(** The keys of the rows for the windows of one service, each computed
    at the next reading of the clock. *)
Fixpoint window_keys (clock : Clock) (service_id : Z) (windows : list Z)
  : list (Z * Z * Z) :=
  match windows with
  | [] => []
  | window :: rest =>
      (service_id, window, clock 0%nat) :: window_keys (later 1 clock) service_id rest
  end.

(** The keys of the rows of one round over the services, [clocks k]
    holding the readings made for the k-th service. *)
Fixpoint round_keys (clocks : nat -> Clock) (services : list Service)
  : list (Z * Z * Z) :=
  match services with
  | [] => []
  | service :: rest =>
      (window_keys (clocks 0%nat) (svc_id service) [5; 60; 1440]%Z
       ++ round_keys (fun k => clocks (S k)) rest)%list
  end.

(** * The risk table of the specification

    The level each dimension implies on its own and the join of two
    levels, worded as the specification words them; compared with
    [_classify_risk] below. *)

Module RiskSpec.

Definition level_by_burn (burn_rate : Q) : RiskLevel :=
  if Num.Qgeb burn_rate 3 then FREEZE
  else if Num.Qgeb burn_rate 2 then DANGER
  else if Num.Qgeb burn_rate (3 # 2) then OBSERVE
  else SAFE.

Definition level_by_budget (budget_consumed : Q) : RiskLevel :=
  if Num.Qgeb budget_consumed 95 then FREEZE
  else if Num.Qgeb budget_consumed 85 then DANGER
  else if Num.Qgeb budget_consumed 70 then OBSERVE
  else SAFE.

Definition severity := BurnRateEngine._risk_severity.

Definition max_level (a b : RiskLevel) : RiskLevel :=
  if (severity a <? severity b)%Z then b else a.

End RiskSpec.

(** * Properties *)

Import Num.

(** ** Comparisons as propositions *)

Lemma Qgeb_true (a b : Q) : Qgeb a b = true <-> b <= a.
Proof. unfold Qgeb. apply Qle_bool_iff. Qed.

Lemma Qgeb_false (a b : Q) : Qgeb a b = false <-> a < b.
Proof.
  unfold Qgeb. split; intro H.
  - apply Qnot_le_lt. intro Hle. apply Qle_bool_iff in Hle. congruence.
  - destruct (Qle_bool b a) eqn:E; [|reflexivity].
    apply Qle_bool_iff in E. exfalso. apply (Qlt_not_le _ _ H E).
Qed.

Lemma Qgtb_true (a b : Q) : Qgtb a b = true <-> b < a.
Proof.
  unfold Qgtb. rewrite negb_true_iff. apply (Qgeb_false b a).
Qed.

Lemma Qgtb_false (a b : Q) : Qgtb a b = false <-> a <= b.
Proof.
  unfold Qgtb. rewrite negb_false_iff. apply Qle_bool_iff.
Qed.

Lemma Qltb_true (a b : Q) : Qltb a b = true <-> a < b.
Proof. unfold Qltb. rewrite negb_true_iff. apply (Qgeb_false a b). Qed.

Lemma Qleb_true (a b : Q) : Qleb a b = true <-> a <= b.
Proof. unfold Qleb. apply Qle_bool_iff. Qed.

(** Turns every boolean comparison of the context into its proposition. *)
Ltac reflect_cmp :=
  repeat match goal with
  | H : Qgeb _ _ = true |- _ => apply Qgeb_true in H
  | H : Qgeb _ _ = false |- _ => apply Qgeb_false in H
  | H : Qgtb _ _ = true |- _ => apply Qgtb_true in H
  | H : Qgtb _ _ = false |- _ => apply Qgtb_false in H
  | H : Qltb _ _ = true |- _ => apply Qltb_true in H
  | H : Qleb _ _ = true |- _ => apply Qleb_true in H
  end.

(** ** Rounding *)

Lemma round_half_even_close (q : Q) :
  q - (1 # 2) <= inject_Z (round_half_even q) <= q + (1 # 2).
Proof.
  unfold round_half_even.
  pose proof (Qfloor_le q) as Hlo.
  pose proof (Qlt_floor q) as Hhi.
  rewrite inject_Z_plus in Hhi. change (inject_Z 1) with 1 in Hhi.
  destruct (Qcompare (q - inject_Z (Qfloor q)) (1 # 2)) eqn:E.
  - apply Qeq_alt in E.
    destruct (Z.even (Qfloor q)).
    + split; lra.
    + rewrite inject_Z_plus. change (inject_Z 1) with 1. split; lra.
  - apply Qlt_alt in E. split; lra.
  - apply Qgt_alt in E. rewrite inject_Z_plus. change (inject_Z 1) with 1.
    split; lra.
Qed.

Lemma round_half_even_between (a b : Z) (q : Q) :
  inject_Z a <= q -> q <= inject_Z b -> (a <= round_half_even q <= b)%Z.
Proof.
  intros Ha Hb.
  assert (Hfa : (a <= Qfloor q)%Z).
  { rewrite <- (Qfloor_Z a). apply Qfloor_resp_le. exact Ha. }
  assert (Hfb : (Qfloor q <= b)%Z).
  { rewrite <- (Qfloor_Z b). apply Qfloor_resp_le. exact Hb. }
  assert (Hstep : inject_Z (Qfloor q) < q -> (Qfloor q + 1 <= b)%Z).
  { intro Hlt. assert (Qfloor q < b)%Z; [|lia].
    rewrite Zlt_Qlt. lra. }
  unfold round_half_even.
  destruct (Qcompare (q - inject_Z (Qfloor q)) (1 # 2)) eqn:E.
  - apply Qeq_alt in E. destruct (Z.even (Qfloor q)); [lia|].
    split; [lia|]. apply Hstep. lra.
  - lia.
  - apply Qgt_alt in E. split; [lia|]. apply Hstep. lra.
Qed.

Lemma round_half_even_comp (p q : Q) : p == q -> round_half_even p = round_half_even q.
Proof.
  intro H. unfold round_half_even.
  rewrite (Qfloor_comp _ _ H).
  assert (E : p - inject_Z (Qfloor q) == q - inject_Z (Qfloor q)) by (rewrite H; reflexivity).
  rewrite (Qcompare_comp _ _ E (1 # 2) (1 # 2) (Qeq_refl _)).
  reflexivity.
Qed.

Lemma py_round_comp (p q : Q) (n : nat) : p == q -> py_round p n = py_round q n.
Proof.
  intro H. unfold py_round. f_equal. apply round_half_even_comp.
  rewrite H. reflexivity.
Qed.

Lemma py_round_value (q : Q) (n : nat) :
  py_round q n == inject_Z (round_half_even (q * inject_Z (Zpos (scale n))))
                  / inject_Z (Zpos (scale n)).
Proof. unfold py_round. apply Qmake_Qdiv. Qed.

(** Rounding to two places moves a value by at most half a hundredth. *)
Lemma py_round_2_close (q : Q) : Qabs (py_round q 2 - q) <= 1 # 200.
Proof.
  rewrite py_round_value. change (inject_Z (Zpos (scale 2))) with 100.
  pose proof (round_half_even_close (q * 100)) as [Hlo Hhi].
  unfold Qdiv. change (/ 100) with (1 # 100).
  apply Qabs_case; intro; lra.
Qed.

Lemma py_round_2_percentage (q : Q) :
  0 <= q <= 100 -> 0 <= py_round q 2 <= 100.
Proof.
  intros [H0 H100].
  rewrite py_round_value. change (inject_Z (Zpos (scale 2))) with 100.
  destruct (round_half_even_between 0 10000 (q * 100)) as [Hlo Hhi].
  - change (inject_Z 0) with 0. lra.
  - change (inject_Z 10000) with 10000. lra.
  - rewrite Zle_Qle in Hlo, Hhi.
    change (inject_Z 0) with 0 in Hlo. change (inject_Z 10000) with 10000 in Hhi.
    unfold Qdiv. change (/ 100) with (1 # 100).
    split; lra.
Qed.

(** ** Risk classification *)

Ltac split_cmp :=
  repeat match goal with
  | |- context [Qgeb ?a ?b] => destruct (Qgeb a b) eqn:?
  end.

(** C4: with the default thresholds the classification is the more severe
    of the level the burn rate implies and the level the consumed budget
    implies, and raising either input never lowers it. *)
Theorem classify_risk_is_max_and_monotone (burn_rate budget_consumed : Q) :
  0 <= burn_rate ->
  0 <= budget_consumed <= 100 ->
  BurnRateEngine._classify_risk default_settings burn_rate budget_consumed
  = RiskSpec.max_level (RiskSpec.level_by_burn burn_rate)
                       (RiskSpec.level_by_budget budget_consumed)
  /\ (forall burn_rate', burn_rate <= burn_rate' ->
        (RiskSpec.severity
           (BurnRateEngine._classify_risk default_settings burn_rate budget_consumed)
         <= RiskSpec.severity
              (BurnRateEngine._classify_risk default_settings burn_rate' budget_consumed))%Z)
  /\ (forall budget_consumed', budget_consumed <= budget_consumed' ->
        budget_consumed' <= 100 ->
        (RiskSpec.severity
           (BurnRateEngine._classify_risk default_settings burn_rate budget_consumed)
         <= RiskSpec.severity
              (BurnRateEngine._classify_risk default_settings burn_rate budget_consumed'))%Z).
Proof.
  intros Hb Hc.
  unfold BurnRateEngine._classify_risk, RiskSpec.level_by_burn,
    RiskSpec.level_by_budget, RiskSpec.max_level, RiskSpec.severity.
  cbn [default_settings BURN_RATE_FREEZE_THRESHOLD BURN_RATE_DANGER_THRESHOLD
       BURN_RATE_OBSERVE_THRESHOLD ERROR_BUDGET_FREEZE_THRESHOLD
       ERROR_BUDGET_DANGER_THRESHOLD ERROR_BUDGET_OBSERVE_THRESHOLD].
  repeat split.
  - split_cmp; reflect_cmp; cbn; try reflexivity; exfalso; lra.
  - intros b' Hle. split_cmp; reflect_cmp; cbn; try lia; exfalso; lra.
  - intros c' Hle Hc'. split_cmp; reflect_cmp; cbn; try lia; exfalso; lra.
Qed.

Lemma classify_risk_is_max_and_monotone_witness :
  0 <= (5 # 2) /\ 0 <= 20 <= 100
  /\ BurnRateEngine._classify_risk default_settings (5 # 2) 20 = DANGER.
Proof.
  assert (Hb : 0 <= 5 # 2) by lra.
  assert (Hc : 0 <= 20 <= 100) by lra.
  split; [exact Hb|]. split; [exact Hc|].
  rewrite (proj1 (classify_risk_is_max_and_monotone (5 # 2) 20 Hb Hc)).
  reflexivity.
Defined.

(** ** Error budget percentages *)

Lemma Qle_bool_right (t b b' : Q) : b == b' -> Qle_bool t b = Qle_bool t b'.
Proof. intro H. apply Qleb_comp; [reflexivity | exact H]. Qed.

Lemma classify_risk_comp (settings : Settings) (b b' c c' : Q) :
  b == b' -> c == c' ->
  BurnRateEngine._classify_risk settings b c
  = BurnRateEngine._classify_risk settings b' c'.
Proof.
  intros Hb Hc. unfold BurnRateEngine._classify_risk, Qgeb.
  rewrite !(fun t => Qle_bool_right t b b' Hb), !(fun t => Qle_bool_right t c c' Hc).
  reflexivity.
Qed.

Lemma budget_percentages_range (total_budget : Q) (consumed : Z) :
  (0 <= consumed)%Z ->
  let p := BurnRateEngine.budget_percentages total_budget consumed in
  0 <= fst p <= 100 /\ 0 <= snd p <= 100 /\ fst p + snd p == 100.
Proof.
  intros Hc. unfold BurnRateEngine.budget_percentages.
  destruct (Qgtb total_budget 0) eqn:E; cbn [fst snd]; [|repeat split; lra].
  reflect_cmp.
  assert (Hq : 0 <= inject_Z consumed / total_budget * 100).
  { apply Qmult_le_0_compat; [|lra].
    apply Qmult_le_0_compat.
    - change 0 with (inject_Z 0). rewrite <- Zle_Qle. exact Hc.
    - apply Qinv_le_0_compat. lra. }
  set (x := inject_Z consumed / total_budget * 100) in *.
  destruct (Q.min_spec x 100) as [[Hx Hmin] | [Hx Hmin]];
    destruct (Q.max_spec (100 - Qmin x 100) 0) as [[Hlt Hmax] | [Hle Hmax]];
    rewrite Hmax; rewrite Hmin in *; repeat split; lra.
Qed.

(** Both percentages after rounding to two places. *)
Lemma rounded_percentages (p : Q * Q) :
  0 <= fst p <= 100 /\ 0 <= snd p <= 100 /\ fst p + snd p == 100 ->
  Qabs (py_round (fst p) 2 + py_round (snd p) 2 - 100) <= 1 # 100
  /\ 0 <= py_round (fst p) 2 <= 100
  /\ 0 <= py_round (snd p) 2 <= 100.
Proof.
  intros (Hc & Hr & Hsum).
  split; [|split; apply py_round_2_percentage; assumption].
  pose proof (py_round_2_close (fst p)) as H1.
  pose proof (py_round_2_close (snd p)) as H2.
  apply Qabs_Qle_condition in H1, H2. apply Qabs_Qle_condition.
  lra.
Qed.

(** ** The guards of the burn-rate computation *)

Lemma sqlite_int_ok (z z' : Z) : sqlite_int z = Ok z' -> is_int64 z = true.
Proof. unfold sqlite_int. destruct (is_int64 z); [reflexivity | discriminate]. Qed.

Lemma sqlite_int_fits (z : Z) : is_int64 z = true -> sqlite_int z = Ok z.
Proof. unfold sqlite_int. intros ->. reflexivity. Qed.

Lemma window_query_totals (db : DB) (now service_id window_minutes : Z)
      (totals : option Z * option Z) :
  BurnRateEngine.window_query db now service_id window_minutes = Ok totals ->
  totals = BurnRateEngine.window_totals db now service_id window_minutes.
Proof.
  unfold BurnRateEngine.window_query, BurnRateEngine.window_totals,
    timedelta, datetime_sub, checked_sum.
  destruct (_ && _)%bool; [|discriminate]. cbn [bind].
  destruct (is_datetime _); [|discriminate]. cbn [bind].
  destruct (sum_overflows 0 (map m_total_requests _)); [discriminate|]. cbn [bind].
  destruct (sum_overflows 0 (map m_error_count _)); [discriminate|]. cbn [bind].
  intro H. injection H as <-. reflexivity.
Qed.

(** What a computation that returned went through: the id fits, a
    service has it, and the window query returned the two aggregates. *)
Lemma compute_burn_rate_inv (settings : Settings) (db : DB)
      (now service_id window_minutes : Z) (c : BurnRateComputation) :
  BurnRateEngine.compute_burn_rate settings db now service_id window_minutes = Ok c ->
  is_int64 service_id = true
  /\ first (fun s => (svc_id s =? service_id)%Z) (services db) <> None
  /\ BurnRateEngine.window_query db now service_id window_minutes
     = Ok (BurnRateEngine.window_totals db now service_id window_minutes).
Proof.
  intro H.
  assert (Hi : is_int64 service_id = true).
  { unfold BurnRateEngine.compute_burn_rate in H.
    destruct (sqlite_int service_id) eqn:Ei;
      [exact (sqlite_int_ok _ _ Ei) | discriminate]. }
  split; [exact Hi|].
  unfold BurnRateEngine.compute_burn_rate in H.
  rewrite (sqlite_int_fits _ Hi) in H. cbn [bind] in H.
  destruct (first _ (services db)); [|discriminate].
  split; [discriminate|].
  destruct (BurnRateEngine.window_query db now service_id window_minutes)
    as [totals|] eqn:Eq1.
  - rewrite (window_query_totals _ _ _ _ _ Eq1). reflexivity.
  - destruct (first _ (slo_targets db)); discriminate.
Qed.

Lemma compute_burn_rate_key (settings : Settings) (db : DB)
      (now service_id window_minutes : Z) (c : BurnRateComputation) :
  BurnRateEngine.compute_burn_rate settings db now service_id window_minutes = Ok c ->
  brc_service_id c = service_id /\ brc_timestamp c = now
  /\ brc_window_minutes c = window_minutes.
Proof.
  intro H.
  destruct (compute_burn_rate_inv _ _ _ _ _ _ H) as (Hfit & _ & Hq).
  unfold BurnRateEngine.compute_burn_rate in H.
  rewrite (sqlite_int_fits _ Hfit), Hq in H. cbn [bind] in H. revert H.
  destruct (first _ (services db)); [|discriminate].
  destruct (first _ (slo_targets db));
    destruct (BurnRateEngine.window_totals db now service_id window_minutes);
    destruct (BurnRateEngine.budget_percentages _ _);
    intro H; injection H as <-; repeat split.
Qed.

(** Opens a computation that returned: afterwards the hypothesis is the
    equation of the record that was built from the aggregates. *)
Ltac open_burn_rate H :=
  let Hinv := fresh "Hinv" in
  let Hfit := fresh "Hfit" in
  let Hq := fresh "Hq" in
  pose proof (compute_burn_rate_inv _ _ _ _ _ _ H) as Hinv;
  destruct Hinv as (Hfit & _ & Hq);
  unfold BurnRateEngine.compute_burn_rate in H;
  rewrite (sqlite_int_fits _ Hfit), Hq in H; cbn [bind] in H;
  clear Hfit Hq.

Lemma compute_burn_rate_budget (settings : Settings) (db : DB)
      (now service_id window_minutes : Z) (c : BurnRateComputation) :
  BurnRateEngine.compute_burn_rate settings db now service_id window_minutes = Ok c ->
  exists total_budget,
    let p := BurnRateEngine.budget_percentages total_budget
               (or_zero (snd (BurnRateEngine.window_totals db now service_id window_minutes))) in
    brc_error_budget_consumed c = py_round (fst p) 2
    /\ brc_error_budget_remaining c = py_round (snd p) 2.
Proof.
  intro H. open_burn_rate H. revert H.
  destruct (first _ (services db)) as [service|]; [|discriminate].
  destruct (first _ (slo_targets db)) as [t|];
    destruct (BurnRateEngine.window_totals db now service_id window_minutes)
      as [total errors];
    cbn [snd];
    match goal with
    | |- context [BurnRateEngine.budget_percentages ?tb ?e] =>
        intro H; exists tb; destruct (BurnRateEngine.budget_percentages tb e);
        injection H as <-; cbn; split; reflexivity
    end.
Qed.

Lemma compute_single_slo_budget (db : DB) (now : Z) (service : Service)
      (slo_target : SLOTarget) :
  exists total_budget,
    let p := BurnRateEngine.budget_percentages total_budget
               (or_zero (snd (SLOComputationEngine.slo_totals db now service slo_target))) in
    let c := SLOComputationEngine._compute_single_slo db now service slo_target in
    sc_consumed_percentage c = py_round (fst p) 2
    /\ sc_remaining_percentage c = py_round (snd p) 2.
Proof.
  unfold SLOComputationEngine._compute_single_slo.
  destruct (SLOComputationEngine.slo_totals db now service slo_target)
    as [total errors].
  cbn [snd].
  match goal with
  | |- context [Qgtb ?tb 0] => exists tb
  end.
  unfold BurnRateEngine.budget_percentages.
  match goal with
  | |- context [Qgtb ?tb 0] => destruct (Qgtb tb 0)
  end; cbn; split; reflexivity.
Qed.

(** C5: the consumed and the remaining percentage reported by a burn-rate
    computation, and by a single-target SLO computation, add up to 100
    within the rounding to two places, and each lies between 0 and 100,
    whenever the request and error totals of the window are not negative. *)
Theorem budget_consumed_plus_remaining_is_100 (settings : Settings) (db : DB) (now : Z) :
  (forall service_id window_minutes c,
      BurnRateEngine.compute_burn_rate settings db now service_id window_minutes = Ok c ->
      (0 <= or_zero (fst (BurnRateEngine.window_totals db now service_id window_minutes)))%Z ->
      (0 <= or_zero (snd (BurnRateEngine.window_totals db now service_id window_minutes)))%Z ->
      Qabs (brc_error_budget_consumed c + brc_error_budget_remaining c - 100) <= 1 # 100
      /\ 0 <= brc_error_budget_consumed c <= 100
      /\ 0 <= brc_error_budget_remaining c <= 100)
  /\ (forall service slo_target,
         (0 <= or_zero (fst (SLOComputationEngine.slo_totals db now service slo_target)))%Z ->
         (0 <= or_zero (snd (SLOComputationEngine.slo_totals db now service slo_target)))%Z ->
         let c := SLOComputationEngine._compute_single_slo db now service slo_target in
         Qabs (sc_consumed_percentage c + sc_remaining_percentage c - 100) <= 1 # 100
         /\ 0 <= sc_consumed_percentage c <= 100
         /\ 0 <= sc_remaining_percentage c <= 100).
Proof.
  split.
  - intros service_id window_minutes c Hc _ Herr.
    destruct (compute_burn_rate_budget _ _ _ _ _ _ Hc) as (tb & -> & ->).
    apply rounded_percentages, budget_percentages_range, Herr.
  - intros service slo_target _ Herr.
    destruct (compute_single_slo_budget db now service slo_target) as (tb & H1 & H2).
    cbv zeta. rewrite H1, H2.
    apply rounded_percentages, budget_percentages_range, Herr.
Qed.

Lemma budget_consumed_plus_remaining_is_100_witness :
  exists c,
    BurnRateEngine.compute_burn_rate default_settings Examples.gentle_rise 7200 1 60
    = Ok c
    /\ 0 <= brc_error_budget_consumed c <= 100.
Proof.
  destruct (BurnRateEngine.compute_burn_rate default_settings Examples.gentle_rise
              7200 1 60) as [c|e] eqn:E; [|vm_compute in E; discriminate].
  destruct (proj1 (budget_consumed_plus_remaining_is_100 default_settings
                     Examples.gentle_rise 7200) 1%Z 60%Z c E) as (_ & H & _).
  - vm_compute. discriminate.
  - vm_compute. discriminate.
  - exists c. split; [reflexivity | exact H].
Defined.

(** ** Unknown service and absent data *)

Lemma window_query_ok (db : DB) (now service_id window_minutes : Z) :
  window_in_range now window_minutes ->
  sums_fit db now service_id window_minutes ->
  BurnRateEngine.window_query db now service_id window_minutes
  = Ok (BurnRateEngine.window_totals db now service_id window_minutes).
Proof.
  intros [[Hd1 Hd2] [Hs1 Hs2]] [Ht He].
  unfold BurnRateEngine.window_query, BurnRateEngine.window_totals,
    timedelta, datetime_sub, is_datetime, checked_sum.
  apply Z.leb_le in Hd1, Hd2, Hs1, Hs2.
  rewrite Hd1, Hd2. cbn [andb bind].
  rewrite Hs1, Hs2. cbn [andb bind].
  cbv zeta in Ht, He. rewrite Ht, He. reflexivity.
Qed.

Lemma sum_does_not_overflow (xs : list Z) (acc : Z) :
  (0 <= acc)%Z -> Forall (fun x => 0 <= x)%Z xs ->
  (acc + fold_right Z.add 0 xs < 2 ^ 63)%Z ->
  sum_overflows acc xs = false.
Proof.
  revert acc. induction xs as [|x xs IH]; intros acc Ha Hx Hs; [reflexivity|].
  inversion Hx as [|? ? Hx0 Hxs]; subst. cbn [fold_right] in Hs.
  assert (Hrest : (0 <= fold_right Z.add 0 xs)%Z).
  { clear - Hxs. induction Hxs; cbn; lia. }
  cbn [sum_overflows]. rewrite IH; [|lia | exact Hxs | lia].
  unfold is_int64.
  destruct (Z.leb_spec (- 2 ^ 63) (acc + x)); [|lia].
  destruct (Z.ltb_spec (acc + x) (2 ^ 63)); [reflexivity | lia].
Qed.

Lemma filtered_sum_le {A : Type} (f : A -> Z) (p : A -> bool) (rows : list A) :
  Forall (fun r => 0 <= f r)%Z rows ->
  Forall (fun x => 0 <= x)%Z (map f (filter p rows))
  /\ (fold_right Z.add 0 (map f (filter p rows))
      <= fold_right Z.add 0 (map f rows))%Z.
Proof.
  induction 1 as [|r rows Hr _ [IH1 IH2]]; cbn; [split; [constructor | lia]|].
  destruct (p r); cbn; split; try (constructor; assumption); try assumption; lia.
Qed.

(** In a store whose counts fit, no window sum overflows. *)
Lemma counts_fit_sums_fit (db : DB) (now service_id window_minutes : Z) :
  counts_fit db -> sums_fit db now service_id window_minutes.
Proof.
  intros (Hall & Ht & He). unfold sums_fit, metrics_in_window. cbv zeta.
  split.
  - destruct (filtered_sum_le m_total_requests
                (fun m => (m_service_id m =? service_id)%Z
                          && (now - minutes window_minutes <=? m_timestamp m)%Z
                          && (m_timestamp m <=? now)%Z) (metrics db)) as [H1 H2].
    { eapply Forall_impl; [|exact Hall]. cbn. tauto. }
    apply sum_does_not_overflow; [lia | exact H1 | lia].
  - destruct (filtered_sum_le m_error_count
                (fun m => (m_service_id m =? service_id)%Z
                          && (now - minutes window_minutes <=? m_timestamp m)%Z
                          && (m_timestamp m <=? now)%Z) (metrics db)) as [H1 H2].
    { eapply Forall_impl; [|exact Hall]. cbn. tauto. }
    apply sum_does_not_overflow; [lia | exact H1 | lia].
Qed.

Lemma window_totals_empty (db : DB) (now service_id window_minutes : Z) :
  metrics_in_window db service_id (now - minutes window_minutes) now = [] ->
  BurnRateEngine.window_totals db now service_id window_minutes = (None, None).
Proof.
  intro H. unfold BurnRateEngine.window_totals. rewrite H. reflexivity.
Qed.

(** A computation returns for a service that exists whenever the id
    fits, the window starts at a datetime and its sums fit. *)
Lemma compute_burn_rate_total (settings : Settings) (db : DB)
      (now service_id window_minutes : Z) :
  is_int64 service_id = true ->
  first (fun s => (svc_id s =? service_id)%Z) (services db) <> None ->
  window_in_range now window_minutes ->
  sums_fit db now service_id window_minutes ->
  exists c,
    BurnRateEngine.compute_burn_rate settings db now service_id window_minutes = Ok c.
Proof.
  intros Hi Hs Hw Hf. unfold BurnRateEngine.compute_burn_rate.
  rewrite (sqlite_int_fits _ Hi), (window_query_ok _ _ _ _ Hw Hf). cbn [bind].
  destruct (first _ (services db)) as [service|]; [|contradiction].
  destruct (first _ (slo_targets db));
    destruct (BurnRateEngine.window_totals db now service_id window_minutes);
    match goal with
    | |- context [BurnRateEngine.budget_percentages ?tb ?e] =>
        destruct (BurnRateEngine.budget_percentages tb e)
    end; eexists; reflexivity.
Qed.

(** C8, as the code has it: for an id the store can hold,
    [compute_burn_rate] raises [ValueError] when no service has it, and a
    computation that returns was made for a service that exists; for a
    service that exists it returns whenever its window starts at a
    datetime and the sums over the window fit, and without a metric in the
    window it returns the neutral computation: burn rate 0, error rate 0,
    nothing consumed, the whole budget remaining, risk SAFE. *)
Theorem compute_burn_rate_unknown_service_and_no_data (db : DB)
        (now service_id window_minutes : Z) :
  is_int64 service_id = true ->
  (first (fun s => (svc_id s =? service_id)%Z) (services db) = None ->
   BurnRateEngine.compute_burn_rate default_settings db now service_id window_minutes
   = Raise (ValueError ("Service " ++ string_of_Z service_id ++ " not found")))
  /\ (forall c,
         BurnRateEngine.compute_burn_rate default_settings db now service_id
                                          window_minutes = Ok c ->
         first (fun s => (svc_id s =? service_id)%Z) (services db) <> None)
  /\ (first (fun s => (svc_id s =? service_id)%Z) (services db) <> None ->
      window_in_range now window_minutes ->
      sums_fit db now service_id window_minutes ->
      exists c,
        BurnRateEngine.compute_burn_rate default_settings db now service_id
                                         window_minutes = Ok c)
  /\ (first (fun s => (svc_id s =? service_id)%Z) (services db) <> None ->
      window_in_range now window_minutes ->
      metrics_in_window db service_id (now - minutes window_minutes) now = [] ->
      exists c,
        BurnRateEngine.compute_burn_rate default_settings db now service_id
                                         window_minutes = Ok c
        /\ brc_burn_rate c == 0
        /\ brc_current_error_rate c == 0
        /\ brc_error_budget_consumed c == 0
        /\ brc_error_budget_remaining c == 100
        /\ brc_risk_level c = SAFE).
Proof.
  intro Hi. split; [|split; [|split]].
  - intro Hnone. unfold BurnRateEngine.compute_burn_rate.
    rewrite (sqlite_int_fits _ Hi), Hnone. reflexivity.
  - intros c Hc. apply (compute_burn_rate_inv _ _ _ _ _ _ Hc).
  - intros Hsvc Hw Hf. apply compute_burn_rate_total; assumption.
  - intros Hsvc Hw Hnone.
    assert (Hf : sums_fit db now service_id window_minutes).
    { unfold sums_fit. rewrite Hnone. split; reflexivity. }
    unfold BurnRateEngine.compute_burn_rate.
    rewrite (sqlite_int_fits _ Hi), (window_query_ok _ _ _ _ Hw Hf). cbn [bind].
    destruct (first _ (services db)) as [service|]; [|contradiction].
    rewrite (window_totals_empty _ _ _ _ Hnone).
    destruct (first _ (slo_targets db)) as [t|]; cbn [or_zero Z.ltb Z.compare];
      unfold BurnRateEngine.budget_percentages;
      match goal with
      | |- context [Qgtb (inject_Z 0 * ?a) 0] =>
          assert (Hb : Qgtb (inject_Z 0 * a) 0 = false)
            by (apply Qgtb_false; rewrite Qmult_0_l; apply Qle_refl);
          rewrite Hb;
          assert (Hrate : (if Qgtb a 0 then 0 / a else 0) == 0)
            by (destruct (Qgtb a 0); [unfold Qdiv; apply Qmult_0_l | reflexivity]);
          set (rate := if Qgtb a 0 then 0 / a else 0) in *; clearbody rate
      end;
      eexists; (split; [reflexivity|]); cbn [brc_burn_rate brc_current_error_rate
        brc_error_budget_consumed brc_error_budget_remaining brc_risk_level];
      rewrite (py_round_comp rate 0 3 Hrate),
              (classify_risk_comp default_settings rate 0 0 0 Hrate (Qeq_refl 0));
      repeat split; reflexivity.
Qed.

Lemma compute_burn_rate_unknown_service_and_no_data_witness :
  exists c,
    BurnRateEngine.compute_burn_rate default_settings
      {| services := [{| svc_id := 1; svc_name := "api-gateway"; svc_is_active := true |}];
         metrics := []; slo_targets := []; burn_history := [];
         deployments := []; alerts := [] |} 3600 1 60 = Ok c
    /\ brc_risk_level c = SAFE.
Proof.
  destruct (proj2 (proj2 (proj2 (compute_burn_rate_unknown_service_and_no_data
                     {| services := [{| svc_id := 1; svc_name := "api-gateway";
                                        svc_is_active := true |}];
                        metrics := []; slo_targets := []; burn_history := [];
                        deployments := []; alerts := [] |} 3600 1 60 eq_refl))))
    as (c & Hc & _ & _ & _ & _ & Hrisk).
  - discriminate.
  - unfold window_in_range. vm_compute. repeat split; discriminate.
  - reflexivity.
  - exists c. split; assumption.
Defined.

(** C8 as the specification words it fails: a service that exists is no
    guarantee that the computation returns.  With a window of 2000000000
    minutes the window start lies before year 1 and the subtraction
    raises; with two rows of 2^62 requests in the window the sum of the
    requests overflows and the query raises. *)
Lemma compute_burn_rate_raises_for_a_service_that_exists :
  first (fun s => (svc_id s =? 1)%Z) (services Examples.gentle_rise)
  = Some Examples.api_gateway
  /\ BurnRateEngine.compute_burn_rate default_settings Examples.gentle_rise
       7200 1 2000000000 = Raise OverflowError
  /\ first (fun s => (svc_id s =? 1)%Z) (services Examples.heavy_traffic)
     = Some Examples.api_gateway
  /\ BurnRateEngine.compute_burn_rate default_settings Examples.heavy_traffic
       7200 1 60 = Raise OperationalError.
Proof. repeat split; vm_compute; reflexivity. Qed.

(** ** Forecast *)

(** What [forecast_exhaustion] reports as time to exhaustion: the formula
    of lines 90-110 on the burn rate chosen in lines 72-88. *)
Lemma forecast_exhaustion_time (settings : Settings) (db : DB) (clock : Clock)
      (service_id : Z) (use_historical_trend : bool) (resp : ForecastResponse) :
  ForecastModule.forecast_exhaustion settings db clock service_id use_historical_trend
  = Ok resp ->
  exists burn,
    BurnRateEngine.compute_burn_rate settings db (clock 0%nat) service_id 60 = Ok burn
    /\ fr_current_burn_rate resp = brc_burn_rate burn
    /\ fr_error_budget_remaining resp = brc_error_budget_remaining burn
    /\ fr_burn_rate_trend resp
       = match (if use_historical_trend
                then ForecastModule._calculate_trend db (clock 1%nat) service_id
                else None) with
         | Some t => td_direction t
         | None => "stable"
         end
    /\ fr_time_to_exhaustion_hours resp
       = fst (ForecastModule.exhaustion (clock 2%nat)
                (ForecastModule.burn_rate_for_forecast
                   (brc_burn_rate burn) use_historical_trend
                   (if use_historical_trend
                    then ForecastModule._calculate_trend db (clock 1%nat) service_id
                    else None))
                (brc_error_budget_remaining burn)
                (ForecastModule.slo_window_hours db service_id))
    /\ fr_service_id resp = service_id.
Proof.
  unfold ForecastModule.forecast_exhaustion.
  destruct (sqlite_int service_id); [|discriminate]. cbn [bind].
  destruct (first _ (services db)) as [service|]; [|discriminate].
  destruct (BurnRateEngine.compute_burn_rate settings db (clock 0%nat) service_id 60)
    as [burn|e]; [|discriminate].
  cbn [bind]. intro H. exists burn. split; [reflexivity|].
  destruct (if use_historical_trend
            then ForecastModule._calculate_trend db (clock 1%nat) service_id else None)
    as [t|];
    match type of H with
    | context [snd (ForecastModule.exhaustion ?n ?r ?b ?w)] =>
        destruct (snd (ForecastModule.exhaustion n r b w)); [|discriminate]
    end;
    cbn [bind] in H; injection H as <-; cbn; repeat split; reflexivity.
Qed.

Lemma direction_increasing_iff (slope : npfloat) :
  ForecastModule.direction_of slope = "increasing" <-> np_gtb slope (1 # 10) = true.
Proof.
  unfold ForecastModule.direction_of.
  destruct (np_gtb slope (1 # 10)); [tauto|].
  destruct (np_ltb slope (- (1 # 10))); split; discriminate.
Qed.

Lemma np_gtb_weaken (slope : npfloat) :
  np_gtb slope (1 # 10) = true -> np_gtb slope 0 = true.
Proof.
  destruct slope; cbn; try congruence.
  intro H. apply Qgtb_true in H. apply Qgtb_true. lra.
Qed.

Lemma calculate_trend_direction (db : DB) (now service_id : Z) (t : TrendData) :
  ForecastModule._calculate_trend db now service_id = Some t ->
  td_direction t = ForecastModule.direction_of (td_slope t).
Proof.
  unfold ForecastModule._calculate_trend.
  destruct (_ <? 3)%nat; [discriminate|].
  intro H. injection H as <-. reflexivity.
Qed.

(** C6, as the code has it: the burn rate that enters the exhaustion
    formula is B + m exactly when a trend was computed and its slope m is
    above 0, which covers every "increasing" trend and also the slopes in
    (0, 0.1] that are reported as "stable"; with a slope not above 0, or
    without a trend, it is the current burn rate B. *)
Theorem trend_adjustment_follows_slope_sign (settings : Settings) (db : DB)
        (clock : Clock) (service_id : Z) (resp : ForecastResponse) :
  ForecastModule.forecast_exhaustion settings db clock service_id true = Ok resp ->
  exists burn rate,
    BurnRateEngine.compute_burn_rate settings db (clock 0%nat) service_id 60 = Ok burn
    /\ fr_time_to_exhaustion_hours resp
       = fst (ForecastModule.exhaustion (clock 2%nat) rate
                (brc_error_budget_remaining burn)
                (ForecastModule.slo_window_hours db service_id))
    /\ match ForecastModule._calculate_trend db (clock 1%nat) service_id with
       | Some t =>
           fr_burn_rate_trend resp = td_direction t
           /\ (np_gtb (td_slope t) 0 = true ->
               rate = np_add (brc_burn_rate burn) (td_slope t))
           /\ (np_gtb (td_slope t) 0 = false -> rate = Finite (brc_burn_rate burn))
           /\ (td_direction t = "increasing" <-> np_gtb (td_slope t) (1 # 10) = true)
           /\ (td_direction t = "increasing" -> np_gtb (td_slope t) 0 = true)
       | None => rate = Finite (brc_burn_rate burn)
       end.
Proof.
  intro H.
  destruct (forecast_exhaustion_time _ _ _ _ _ _ H)
    as (burn & Hb & _ & _ & Hdir & Ht & _).
  exists burn.
  exists (ForecastModule.burn_rate_for_forecast (brc_burn_rate burn) true
            (ForecastModule._calculate_trend db (clock 1%nat) service_id)).
  split; [exact Hb|]. split; [exact Ht|].
  destruct (ForecastModule._calculate_trend db (clock 1%nat) service_id)
    as [t|] eqn:Et;
    [|reflexivity].
  pose proof (calculate_trend_direction _ _ _ _ Et) as Hd.
  split; [exact Hdir|].
  unfold ForecastModule.burn_rate_for_forecast.
  split; [intros ->; reflexivity|].
  split; [intros ->; reflexivity|].
  rewrite Hd. split; [apply direction_increasing_iff|].
  intro Hi. apply np_gtb_weaken, direction_increasing_iff, Hi.
Qed.

Lemma trend_adjustment_follows_slope_sign_witness :
  exists resp,
    ForecastModule.forecast_exhaustion default_settings Examples.steep_rise
      (always 7200) 1 true
    = Ok resp
    /\ exists burn rate,
      BurnRateEngine.compute_burn_rate default_settings Examples.steep_rise 7200 1 60
      = Ok burn
      /\ fr_time_to_exhaustion_hours resp
         = fst (ForecastModule.exhaustion 7200 rate (brc_error_budget_remaining burn)
                  (ForecastModule.slo_window_hours Examples.steep_rise 1)).
Proof.
  destruct (ForecastModule.forecast_exhaustion default_settings Examples.steep_rise
              (always 7200) 1 true) as [resp|e] eqn:E; [|vm_compute in E; discriminate].
  exists resp. split; [reflexivity|].
  destruct (trend_adjustment_follows_slope_sign _ _ _ _ _ E)
    as (burn & rate & Hb & Ht & _).
  exists burn, rate. split; assumption.
Defined.

(** C6 as the specification words it fails: on a history rising by 0.05
    per hour the trend is reported "stable", and still the forecast
    divides by B + m = 0.55 instead of B = 0.5. *)
Lemma stable_trend_still_adjusts_burn_rate :
  exists resp h,
    ForecastModule.forecast_exhaustion default_settings Examples.gentle_rise
      (always 7200) 1 true
    = Ok resp
    /\ fr_burn_rate_trend resp = "stable"
    /\ fr_current_burn_rate resp == 1 # 2
    /\ fr_error_budget_remaining resp == 50
    /\ fr_time_to_exhaustion_hours resp = Some h
    /\ h == 65455 # 100
    /\ ~ h == (50 / 100) * 720 / (1 # 2).
Proof.
  eexists. eexists.
  split; [vm_compute; reflexivity|].
  cbn [fr_burn_rate_trend fr_current_burn_rate fr_error_budget_remaining
       fr_time_to_exhaustion_hours].
  repeat split; try reflexivity.
  intro H. vm_compute in H. discriminate.
Qed.

(** ** Time to exhaustion *)

(** C7, as the code has it: the time to exhaustion is (R / 100) * W / B
    rounded to two decimal places when B > 0 and R > 0; it is absent when
    B <= 0 with R > 0, and 0 when R <= 0; B = 2, R = 50, W = 720 gives 180. *)
Theorem time_to_exhaustion_is_rounded_formula (now : Z) (B R : Q) (W : Z) :
  (0 < B -> 0 < R ->
   fst (ForecastModule.exhaustion now (Finite B) R W)
   = Some (py_round ((R / 100) * inject_Z W / B) 2))
  /\ (B <= 0 -> 0 < R -> fst (ForecastModule.exhaustion now (Finite B) R W) = None)
  /\ (R <= 0 -> fst (ForecastModule.exhaustion now (Finite B) R W) = Some 0)
  /\ exists h, fst (ForecastModule.exhaustion now (Finite 2) 50 720) = Some h
               /\ h == 180.
Proof.
  unfold ForecastModule.exhaustion. cbn [np_gtb np_quot].
  repeat split.
  - intros HB HR.
    apply Qgtb_true in HB, HR. rewrite HB, HR. reflexivity.
  - intros HB HR.
    apply Qgtb_false in HB. rewrite HB. cbn [andb].
    destruct (Qleb R 0) eqn:E; [|reflexivity].
    reflect_cmp. exfalso. lra.
  - intros HR.
    assert (E : Qgtb R 0 = false) by (apply Qgtb_false; exact HR).
    rewrite E, andb_false_r.
    apply Qleb_true in HR. rewrite HR. reflexivity.
  - eexists. split; [vm_compute; reflexivity|reflexivity].
Qed.

Lemma time_to_exhaustion_is_rounded_formula_witness :
  fst (ForecastModule.exhaustion 0 (Finite 2) 50 720)
  = Some (py_round ((50 / 100) * inject_Z 720 / 2) 2).
Proof.
  apply (proj1 (time_to_exhaustion_is_rounded_formula 0 2 50 720)); reflexivity.
Defined.

(** C7 as the specification words it fails: with B = 7, R = 50 and
    W = 720 the code reports 51.43, not 360 / 7. *)
Lemma time_to_exhaustion_is_not_exact :
  exists h,
    fst (ForecastModule.exhaustion 0 (Finite 7) 50 720) = Some h
    /\ h == 5143 # 100
    /\ ~ h == (50 / 100) * 720 / 7.
Proof.
  eexists. split; [vm_compute; reflexivity|].
  split; [reflexivity|].
  intro H. vm_compute in H. discriminate.
Qed.

(** ** Release gate *)

Lemma registered_has_id (db : DB) (request : ReleaseCheckRequest) (service : Service) :
  registered db request = Some service ->
  first (fun s => (svc_id s =? svc_id service)%Z) (services db) <> None.
Proof.
  unfold registered, first. intros H Hnone.
  apply find_some in H. destruct H as [Hin _].
  pose proof (find_none _ _ Hnone _ Hin) as Hf. cbn in Hf.
  rewrite Z.eqb_refl in Hf. discriminate.
Qed.

Lemma record_deployment_inv (db db' : DB) (now : Z) (uuid_bits : N) (service_id : Z)
      (deployment_id : string) (version requested_by : option string)
      (allowed : bool) (reason : string) (risk_level : RiskLevel) (burn_rate : Q) :
  ReleaseGateController._record_deployment db now uuid_bits service_id deployment_id
    version requested_by allowed reason risk_level burn_rate = Ok db' ->
  exists d,
    deployments db' = (deployments db ++ [d])%list
    /\ services db' = services db /\ metrics db' = metrics db
    /\ slo_targets db' = slo_targets db /\ burn_history db' = burn_history db
    /\ alerts db' = alerts db
    /\ dep_service_id d = service_id
    /\ dep_deployment_id d
       = (if String.eqb deployment_id "" then Uuid.str uuid_bits else deployment_id)
    /\ dep_allowed d = allowed
    /\ dep_status d = (if allowed then "approved" else "rejected")
    /\ dep_blocked_reason d = (if allowed then None else Some reason).
Proof.
  unfold ReleaseGateController._record_deployment.
  destruct (existsb _ (deployments db)); [discriminate|].
  intro H. injection H as <-. eexists. cbn.
  repeat split. destruct allowed; reflexivity.
Qed.

Lemma check_release_inv (settings : Settings) (db db' : DB) (clock : Clock)
      (uuid_bits : N) (request : ReleaseCheckRequest) (resp : ReleaseCheckResponse)
      (service : Service) :
  registered db request = Some service ->
  ReleaseGateController.check_release settings db clock uuid_bits request
  = Ok (resp, db') ->
  exists burn weighted_burn worst_risk forecast,
    BurnRateEngine.compute_burn_rate settings db (clock 0%nat) (svc_id service) 60
    = Ok burn
    /\ BurnRateEngine.get_weighted_burn_rate settings db (later 1 clock) (svc_id service)
       = Ok (weighted_burn, worst_risk)
    /\ ForecastModule.forecast_exhaustion settings db (later 4 clock) (svc_id service)
                                          true
       = Ok forecast
    /\ let gate :=
         ReleaseGateController._evaluate_gate settings weighted_burn worst_risk
           (brc_error_budget_remaining burn) (fr_time_to_exhaustion_hours forecast)
           (req_override request) (req_override_reason request) in
       ReleaseGateController._record_deployment db (clock 8%nat) uuid_bits
         (svc_id service) (req_deployment_id request) (req_version request)
         (req_requested_by request) (fst (fst gate)) (snd (fst gate)) worst_risk
         weighted_burn = Ok db'
       /\ resp_allowed resp = fst (fst gate)
       /\ resp_reason resp = snd (fst gate)
       /\ resp_recommendations resp = snd gate
       /\ resp_deployment_id resp = req_deployment_id request
       /\ resp_current_risk_level resp = worst_risk
       /\ resp_current_burn_rate resp = weighted_burn
       /\ resp_error_budget_remaining resp = brc_error_budget_remaining burn
       /\ resp_checked_at resp = clock 9%nat.
Proof.
  unfold registered, ReleaseGateController.check_release. intros ->.
  destruct (BurnRateEngine.compute_burn_rate settings db (clock 0%nat)
              (svc_id service) 60) as [burn|]; [|discriminate].
  destruct (BurnRateEngine.get_weighted_burn_rate settings db (later 1 clock)
              (svc_id service)) as [[weighted_burn worst_risk]|]; [|discriminate].
  destruct (ForecastModule.forecast_exhaustion settings db (later 4 clock)
              (svc_id service) true) as [forecast|]; [|discriminate].
  cbn [bind].
  destruct (ReleaseGateController._evaluate_gate _ _ _ _ _ _ _)
    as [[allowed reason] recommendations] eqn:Eg.
  destruct (ReleaseGateController._record_deployment _ _ _ _ _ _ _ _ _ _ _)
    as [db1|] eqn:Er; [|discriminate].
  cbn [bind]. intro H. injection H as <- <-.
  exists burn, weighted_burn, worst_risk, forecast.
  repeat (split; [reflexivity|]).
  cbv zeta. rewrite Eg. cbn [fst snd].
  split; [exact Er|]. repeat split.
Qed.

(** The three override rules on the decision of [_evaluate_gate]. *)
Lemma evaluate_gate_rules (settings : Settings) (burn_rate : Q) (risk_level : RiskLevel)
      (budget_remaining : Q) (time_to_exhaustion : option Q) (override : bool)
      (override_reason : option string) :
  let gate :=
    ReleaseGateController._evaluate_gate settings burn_rate risk_level
      budget_remaining time_to_exhaustion override override_reason in
  (risk_level = FREEZE \/ risk_level = DANGER ->
   override = true -> truthy override_reason = true ->
   fst (fst gate) = true /\ String.prefix "OVERRIDE:" (snd (fst gate)) = true)
  /\ (risk_level = FREEZE \/ risk_level = DANGER ->
      override = false \/ truthy override_reason = false ->
      fst (fst gate) = false)
  /\ (risk_level <> FREEZE -> risk_level <> DANGER ->
      RELEASE_GATE_BURN_RATE_THRESHOLD settings < burn_rate ->
      fst (fst gate) = false).
Proof.
  cbv zeta. unfold ReleaseGateController._evaluate_gate.
  split; [|split].
  - intros [-> | ->] -> Hreason; rewrite Hreason; cbn; split; reflexivity.
  - intros [-> | ->] [-> | Hreason]; cbn [RiskLevel_eqb andb];
      try reflexivity; rewrite Hreason, andb_false_r; reflexivity.
  - intros Hf Hd Hlt. apply Qgtb_true in Hlt.
    destruct risk_level; try contradiction; cbn [RiskLevel_eqb];
      rewrite Hlt; reflexivity.
Qed.

(** C2: every response [check_release] returns for a registered service
    carries the decision of [_evaluate_gate] on the weighted burn rate and
    the composite risk it reports.  With the composite risk FREEZE or
    DANGER an override with a non-empty reason allows the deployment with
    a reason that starts with "OVERRIDE:", and without one the deployment
    is blocked; outside FREEZE and DANGER a weighted burn rate above the
    release-gate threshold blocks whatever the override says.  The same
    three rules hold of [_evaluate_gate] on every input. *)
Theorem gate_override_rules (settings : Settings) :
  (forall db clock uuid_bits request resp db' service,
      registered db request = Some service ->
      ReleaseGateController.check_release settings db clock uuid_bits request
      = Ok (resp, db') ->
      (exists burn forecast,
          BurnRateEngine.compute_burn_rate settings db (clock 0%nat) (svc_id service) 60
          = Ok burn
          /\ BurnRateEngine.get_weighted_burn_rate settings db (later 1 clock)
                                                   (svc_id service)
             = Ok (resp_current_burn_rate resp, resp_current_risk_level resp)
          /\ ForecastModule.forecast_exhaustion settings db (later 4 clock)
                                                (svc_id service) true
             = Ok forecast
          /\ (resp_allowed resp, resp_reason resp, resp_recommendations resp)
             = ReleaseGateController._evaluate_gate settings
                 (resp_current_burn_rate resp) (resp_current_risk_level resp)
                 (brc_error_budget_remaining burn)
                 (fr_time_to_exhaustion_hours forecast)
                 (req_override request) (req_override_reason request))
      /\ (resp_current_risk_level resp = FREEZE
          \/ resp_current_risk_level resp = DANGER ->
          req_override request = true ->
          truthy (req_override_reason request) = true ->
          resp_allowed resp = true
          /\ String.prefix "OVERRIDE:" (resp_reason resp) = true)
      /\ (resp_current_risk_level resp = FREEZE
          \/ resp_current_risk_level resp = DANGER ->
          req_override request = false
          \/ truthy (req_override_reason request) = false ->
          resp_allowed resp = false)
      /\ (resp_current_risk_level resp <> FREEZE ->
          resp_current_risk_level resp <> DANGER ->
          RELEASE_GATE_BURN_RATE_THRESHOLD settings < resp_current_burn_rate resp ->
          resp_allowed resp = false))
  /\ (forall burn_rate risk_level budget_remaining time_to_exhaustion
             override override_reason,
         let gate :=
           ReleaseGateController._evaluate_gate settings burn_rate risk_level
             budget_remaining time_to_exhaustion override override_reason in
         (risk_level = FREEZE \/ risk_level = DANGER ->
          override = true -> truthy override_reason = true ->
          fst (fst gate) = true /\ String.prefix "OVERRIDE:" (snd (fst gate)) = true)
         /\ (risk_level = FREEZE \/ risk_level = DANGER ->
             override = false \/ truthy override_reason = false ->
             fst (fst gate) = false)
         /\ (risk_level <> FREEZE -> risk_level <> DANGER ->
             RELEASE_GATE_BURN_RATE_THRESHOLD settings < burn_rate ->
             fst (fst gate) = false)).
Proof.
  split; [|intros; apply evaluate_gate_rules].
  intros db clock uuid_bits request resp db' service Hreg Hcheck.
  destruct (check_release_inv _ _ _ _ _ _ _ _ Hreg Hcheck)
    as (burn & wb & wr & f & Hb & Hw & Hf & _ & Ha & Hr & Hrec & _ & Hrisk & Hrate & _).
  rewrite Hrisk, Hrate, Ha, Hr.
  pose proof (evaluate_gate_rules settings wb wr (brc_error_budget_remaining burn)
                (fr_time_to_exhaustion_hours f) (req_override request)
                (req_override_reason request)) as Hrules.
  cbv zeta in Hrules.
  split; [|exact Hrules].
  exists burn, f. repeat (split; [assumption|]).
  rewrite Hrec.
  destruct (ReleaseGateController._evaluate_gate _ _ _ _ _ _ _) as [[a r] l].
  reflexivity.
Qed.

Lemma gate_override_rules_witness :
  exists resp db',
    ReleaseGateController.check_release default_settings Examples.strained
      (always 7200) 42 Examples.hotfix_request = Ok (resp, db')
    /\ resp_current_risk_level resp = DANGER
    /\ resp_allowed resp = true
    /\ String.prefix "OVERRIDE:" (resp_reason resp) = true.
Proof.
  destruct (ReleaseGateController.check_release default_settings Examples.strained
              (always 7200) 42 Examples.hotfix_request) as [[resp db']|e] eqn:E;
    [|vm_compute in E; discriminate].
  assert (Hreg : registered Examples.strained Examples.hotfix_request
                 = Some Examples.api_gateway) by reflexivity.
  assert (Hrisk : resp_current_risk_level resp = DANGER)
    by (vm_compute in E; injection E as <- _; reflexivity).
  destruct (proj1 (gate_override_rules default_settings) _ _ _ _ _ _ _ Hreg E)
    as (_ & Hoverride & _).
  destruct (Hoverride (or_intror Hrisk) eq_refl eq_refl) as [Ha Hp].
  exists resp, db'. repeat split; assumption.
Defined.

Lemma record_deployment_total (db : DB) (now : Z) (uuid_bits : N) (service_id : Z)
      (deployment_id : string) (version requested_by : option string)
      (allowed : bool) (reason : string) (risk_level : RiskLevel) (burn_rate : Q) :
  existsb (fun d => String.eqb (dep_deployment_id d)
                      (if String.eqb deployment_id "" then Uuid.str uuid_bits
                       else deployment_id))
          (deployments db) = false ->
  exists db',
    ReleaseGateController._record_deployment db now uuid_bits service_id deployment_id
      version requested_by allowed reason risk_level burn_rate = Ok db'.
Proof.
  intro H. unfold ReleaseGateController._record_deployment.
  cbn [dep_deployment_id]. rewrite H. eexists. reflexivity.
Qed.

Lemma check_release_unknown (settings : Settings) (db : DB) (clock : Clock)
      (uuid_bits : N) (request : ReleaseCheckRequest) :
  registered db request = None ->
  exists resp,
    ReleaseGateController.check_release settings db clock uuid_bits request
    = Ok (resp, db)
    /\ resp_allowed resp = false.
Proof.
  unfold registered, ReleaseGateController.check_release. intros ->.
  eexists. split; reflexivity.
Qed.

(** C1, as the code has it: every call that returns a response for a
    registered service has appended exactly one Deployment row, approved
    exactly when the response allows, carrying the decision reason when
    blocked and none when allowed; a call that names no registered
    service is answered with a block and stores nothing. *)
Theorem check_release_records_registered_only (settings : Settings) (db : DB)
        (clock : Clock) (uuid_bits : N) (request : ReleaseCheckRequest) :
  (registered db request = None ->
   exists resp,
     ReleaseGateController.check_release settings db clock uuid_bits request
     = Ok (resp, db)
     /\ resp_allowed resp = false)
  /\ (forall resp db',
         ReleaseGateController.check_release settings db clock uuid_bits request
         = Ok (resp, db') ->
         match registered db request with
         | Some service =>
             exists d,
               deployments db' = (deployments db ++ [d])%list
               /\ dep_service_id d = svc_id service
               /\ dep_allowed d = resp_allowed resp
               /\ (dep_status d = "approved" <-> resp_allowed resp = true)
               /\ (dep_status d = "rejected" <-> resp_allowed resp = false)
               /\ dep_blocked_reason d
                  = (if resp_allowed resp then None else Some (resp_reason resp))
         | None => db' = db /\ resp_allowed resp = false
         end).
Proof.
  split.
  - apply check_release_unknown.
  - intros resp db' Hcheck.
    destruct (registered db request) as [service|] eqn:Hreg.
    + destruct (check_release_inv _ _ _ _ _ _ _ _ Hreg Hcheck)
        as (burn & wb & wr & f & _ & _ & _ & Hrec & Ha & Hr & _).
      destruct (record_deployment_inv _ _ _ _ _ _ _ _ _ _ _ _ Hrec)
        as (d & Hd & _ & _ & _ & _ & _ & Hsvc & _ & Hallowed & Hstatus & Hblocked).
      exists d. rewrite Ha, Hr.
      split; [exact Hd|]. split; [exact Hsvc|]. split; [exact Hallowed|].
      rewrite Hstatus, Hblocked.
      destruct (fst (fst _)); repeat split; intros; congruence.
    + destruct (check_release_unknown settings db clock uuid_bits request Hreg)
        as (resp0 & H0 & Ha).
      rewrite H0 in Hcheck. injection Hcheck as <- <-. split; [reflexivity | exact Ha].
Qed.

Lemma check_release_records_registered_only_witness :
  exists resp db' d,
    ReleaseGateController.check_release default_settings Examples.gentle_rise
      (always 7200) 42 Examples.unnamed_request = Ok (resp, db')
    /\ deployments db' = (deployments Examples.gentle_rise ++ [d])%list
    /\ dep_allowed d = resp_allowed resp.
Proof.
  destruct (ReleaseGateController.check_release default_settings Examples.gentle_rise
              (always 7200) 42 Examples.unnamed_request) as [[resp db']|e] eqn:E;
    [|vm_compute in E; discriminate].
  destruct (proj2 (check_release_records_registered_only default_settings
                     Examples.gentle_rise (always 7200) 42 Examples.unnamed_request)
                  resp db' E) as (d & Hd & _ & Ha & _).
  exists resp, db', d. repeat split; assumption.
Defined.

(** C1 as the specification words it fails: a call that names no
    registered service returns a blocked response and no Deployment row
    is stored. *)
Lemma unknown_service_records_no_deployment :
  exists resp db',
    ReleaseGateController.check_release default_settings Examples.gentle_rise
      (always 7200) 0 Examples.ghost_request = Ok (resp, db')
    /\ resp_allowed resp = false
    /\ deployments Examples.gentle_rise = []
    /\ deployments db' = [].
Proof.
  eexists. eexists. split; [vm_compute; reflexivity|].
  repeat split.
Qed.

(** ** Deployment ids *)

Lemma hex_length (width : nat) (n : N) (acc : string) :
  String.length (Uuid.hex width n acc) = (width + String.length acc)%nat.
Proof.
  revert n acc. induction width as [|w IH]; intros n acc; cbn [Uuid.hex].
  - reflexivity.
  - rewrite IH. cbn [String.length]. lia.
Qed.

Lemma append_length (s t : string) :
  String.length (s ++ t) = (String.length s + String.length t)%nat.
Proof.
  induction s as [|c s IH]; cbn; [reflexivity|]. rewrite IH. reflexivity.
Qed.

Lemma uuid_str_length (bits : N) : String.length (Uuid.str bits) = 36%nat.
Proof.
  unfold Uuid.str. rewrite !append_length, !hex_length. reflexivity.
Qed.

Lemma uuid_str_not_empty (bits : N) : Uuid.str bits <> "".
Proof.
  intro H. pose proof (uuid_str_length bits) as L. rewrite H in L. discriminate.
Qed.

(** C10: the row the release gate stores never has an empty deployment
    id: for a request with the empty id the row carries the generated
    UUID string while the response repeats the empty id of the request;
    otherwise the row carries the id of the request. *)
Theorem stored_deployment_id_is_not_empty (settings : Settings) (db db' : DB)
        (clock : Clock) (uuid_bits : N) (request : ReleaseCheckRequest)
        (resp : ReleaseCheckResponse) (service : Service) :
  registered db request = Some service ->
  ReleaseGateController.check_release settings db clock uuid_bits request
  = Ok (resp, db') ->
  exists d,
    deployments db' = (deployments db ++ [d])%list
    /\ dep_deployment_id d <> ""
    /\ resp_deployment_id resp = req_deployment_id request
    /\ (req_deployment_id request = "" ->
        dep_deployment_id d = Uuid.str uuid_bits /\ resp_deployment_id resp = "")
    /\ (req_deployment_id request <> "" ->
        dep_deployment_id d = req_deployment_id request).
Proof.
  intros Hreg Hcheck.
  destruct (check_release_inv _ _ _ _ _ _ _ _ Hreg Hcheck)
    as (burn & wb & wr & f & _ & _ & _ & Hrec & _ & _ & _ & Hid & _).
  destruct (record_deployment_inv _ _ _ _ _ _ _ _ _ _ _ _ Hrec)
    as (d & Hd & _ & _ & _ & _ & _ & _ & Hdid & _).
  exists d. split; [exact Hd|]. rewrite Hdid, Hid.
  destruct (String.eqb (req_deployment_id request) "") eqn:E.
  - apply String.eqb_eq in E.
    split; [apply uuid_str_not_empty|]. split; [reflexivity|].
    split; [intros _; split; [reflexivity | exact E]|].
    intro Hne. contradiction.
  - apply String.eqb_neq in E.
    split; [exact E|]. split; [reflexivity|].
    split; [intro He; contradiction|].
    intros _. reflexivity.
Qed.

Lemma stored_deployment_id_is_not_empty_witness :
  exists resp db' d,
    ReleaseGateController.check_release default_settings Examples.gentle_rise
      (always 7200) 42 Examples.unnamed_request = Ok (resp, db')
    /\ deployments db' = [d]
    /\ dep_deployment_id d = "00000000-0000-0000-0000-00000000002a"
    /\ resp_deployment_id resp = "".
Proof.
  destruct (ReleaseGateController.check_release default_settings Examples.gentle_rise
              (always 7200) 42 Examples.unnamed_request) as [[resp db']|e] eqn:E;
    [|vm_compute in E; discriminate].
  assert (Hreg : registered Examples.gentle_rise Examples.unnamed_request
                 = Some Examples.api_gateway) by reflexivity.
  destruct (stored_deployment_id_is_not_empty _ _ _ _ _ _ _ _ Hreg E)
    as (d & Hd & _ & _ & Hempty & _).
  destruct (Hempty eq_refl) as [Hu Hr].
  exists resp, db', d. split; [reflexivity|]. split; [exact Hd|].
  split; [rewrite Hu; reflexivity | exact Hr].
Defined.

(** ** Alert cooldown *)

Lemma is_in_cooldown_raises (settings : Settings) (db : DB) (now service_id : Z)
      (alert_type : string) :
  AlertManager._is_in_cooldown settings db now service_id alert_type
  = Raise (AttributeError "'MetaData' object has no attribute 'contains'").
Proof. reflexivity. Qed.

Lemma create_alert_raises (settings : Settings) (db : DB) (now service_id : Z)
      (alert_type : string) (channel : AlertChannel)
      (template_vars : list (string * string)) (metadata : option json_object) :
  exists e,
    AlertManager.create_alert settings db now service_id alert_type channel
                              template_vars metadata = Raise e.
Proof.
  unfold AlertManager.create_alert.
  destruct (AlertManager.ALERT_TEMPLATES alert_type).
  - rewrite is_in_cooldown_raises. eexists. reflexivity.
  - eexists. reflexivity.
Qed.

(** The row [create_alert] builds has no tag in the JSON column, so a
    lookup in that column would not find it either. *)
Lemma new_alert_carries_no_tag (now service_id : Z) (severity : AlertSeverity)
      (channel : AlertChannel) (title message alert_type : string)
      (metadata : json_object) (tagged : Alert -> bool) :
  AlertManager.contains (AlertManager.JsonColumn al_alert_metadata)
                        [("alert_type", alert_type)] = Ok tagged ->
  tagged (AlertManager._send_notification now
            (AlertManager.Alert_new now service_id severity channel title message
                                    metadata)) = false.
Proof.
  intro H. injection H as <-. reflexivity.
Qed.

(** No call of [evaluate_and_alert] stores or returns an alert. *)
Lemma evaluate_and_alert_stores_nothing (settings : Settings) (db : DB)
      (clock : Clock) (service_id : Z) :
  is_int64 service_id = true ->
  AlertManager.evaluate_and_alert settings db clock service_id = Ok ([], db).
Proof.
  intro Hi. unfold AlertManager.evaluate_and_alert.
  rewrite (sqlite_int_fits _ Hi). cbn [bind].
  destruct (first _ (services db)) as [service|]; [|reflexivity].
  destruct (BurnRateEngine.compute_burn_rate settings db (clock 0%nat) service_id 60)
    as [burn|]; [|reflexivity].
  unfold AlertManager.budget_alerts, AlertManager.burn_rate_alert.
  destruct (Qleb (brc_error_budget_remaining burn) 0).
  - destruct (create_alert_raises settings db (clock 5%nat) service_id
                "budget_exhausted" SLACK
                [("service", svc_name service)]
                (Some [("alert_type", "budget_exhausted")])) as [e ->].
    reflexivity.
  - destruct (Qltb (brc_error_budget_remaining burn) 15).
    + destruct (ForecastModule.forecast_exhaustion settings db (later 1 clock)
                  service_id true) as [forecast|]; [|reflexivity].
      cbn [bind].
      match goal with
      | |- context [AlertManager.create_alert ?s ?d ?n ?i ?t ?c ?v ?m] =>
          destruct (create_alert_raises s d n i t c v m) as [e ->]
      end. reflexivity.
    + destruct (Qgeb (brc_burn_rate burn) 2); [|reflexivity].
      match goal with
      | |- context [AlertManager.create_alert ?s ?d ?n ?i ?t ?c ?v ?m] =>
          destruct (create_alert_raises s d n i t c v m) as [e ->]
      end. reflexivity.
Qed.

(** C3 at the failing inputs.  On a service that burns at 2.5 with its
    budget exhausted and no alert stored, [evaluate_and_alert] stores no
    alert, at the first call and five minutes later; and where a tagged
    alert of the last five minutes is stored, [create_alert] raises at the
    cooldown lookup where it should return no alert. *)
Theorem cooldown_lookup_raises :
  (exists burn,
      BurnRateEngine.compute_burn_rate default_settings Examples.burning 7200 1 60
      = Ok burn
      /\ brc_burn_rate burn == 5 # 2
      /\ brc_error_budget_remaining burn == 0)
  /\ AlertManager.evaluate_and_alert default_settings Examples.burning (always 7200) 1
     = Ok ([], Examples.burning)
  /\ AlertManager.evaluate_and_alert default_settings Examples.burning (always 7500) 1
     = Ok ([], Examples.burning)
  /\ AlertManager.create_alert default_settings Examples.alerted 7500 1
       "burn_rate_high" UI Examples.burn_rate_high_vars
       (Some [("alert_type", "burn_rate_high")])
     = Raise (AttributeError "'MetaData' object has no attribute 'contains'").
Proof.
  split.
  - eexists. split; [vm_compute; reflexivity|]. split; reflexivity.
  - repeat split; vm_compute; reflexivity.
Qed.

(** ** Metric ingestion *)

Lemma validate_all_ok (body : list MetricSnapshot) :
  Forall (fun m => ~ malformed m) body ->
  MetricsIngestionService.validate_all body = Ok body.
Proof.
  induction 1 as [|m rest Hm _ IH]; cbn; [reflexivity|].
  unfold MetricsIngestionService.validate, malformed in *.
  destruct (ms_total_requests m <? 0)%Z eqn:E1; [apply Z.ltb_lt in E1; tauto|].
  destruct (ms_error_count m <? 0)%Z eqn:E2; [apply Z.ltb_lt in E2; tauto|].
  cbn. rewrite IH. reflexivity.
Qed.


Lemma NoDup_snoc {A : Type} (l : list A) (x : A) :
  NoDup l -> ~ In x l -> NoDup (l ++ [x]).
Proof.
  induction 1 as [|y l Hy Hl IH]; intro Hx; cbn.
  - constructor; [intros []|constructor].
  - constructor.
    + intro Hin. apply in_app_or in Hin. destruct Hin as [Hin|[->|[]]].
      * contradiction.
      * apply Hx. left. reflexivity.
    + apply IH. intro Hin. apply Hx. right. exact Hin.
Qed.

Lemma find_or_create_spec (db : DB) (name : string) :
  let '(service, db') := MetricsIngestionService.find_or_create db name in
  In service (services db') /\ svc_name service = name
  /\ (exists fresh, services db' = (services db ++ fresh)%list)
  /\ metrics db' = metrics db /\ slo_targets db' = slo_targets db
  /\ burn_history db' = burn_history db /\ deployments db' = deployments db
  /\ alerts db' = alerts db
  /\ (NoDup (map svc_name (services db)) -> NoDup (map svc_name (services db'))).
Proof.
  unfold MetricsIngestionService.find_or_create.
  destruct (first _ (services db)) as [service|] eqn:E.
  - apply find_some in E. destruct E as [Hin Hname]. apply String.eqb_eq in Hname.
    split; [exact Hin|]. split; [exact Hname|].
    split; [exists []; rewrite app_nil_r; reflexivity|]. repeat split. tauto.
  - cbn. split; [apply in_or_app; right; left; reflexivity|]. split; [reflexivity|].
    split; [eexists; reflexivity|]. repeat split.
    intro Hnd. rewrite map_app. cbn. apply NoDup_snoc; [exact Hnd|].
    intro Hin. apply in_map_iff in Hin. destruct Hin as (s & Hs & Hin).
    pose proof (find_none _ _ E s Hin) as Hf. cbn in Hf.
    rewrite Hs, String.eqb_refl in Hf. discriminate.
Qed.

Lemma ingest_one_spec (db : DB) (metric : MetricSnapshot) :
  let db' := fst (MetricsIngestionService.ingest_one db metric) in
  (exists rows,
      metrics db' = (metrics db ++ rows)%list
      /\ map m_total_requests rows
         = map ms_total_requests
               (filter MetricsIngestionService.processed_by_loop [metric])
      /\ map m_error_count rows
         = map ms_error_count
               (filter MetricsIngestionService.processed_by_loop [metric])
      /\ Forall (fun r => exists s, In s (services db') /\ svc_id s = m_service_id r)
                rows)
  /\ snd (MetricsIngestionService.ingest_one db metric)
     = MetricsIngestionService.processed_by_loop metric
  /\ named db' (ms_service metric)
  /\ (exists fresh, services db' = (services db ++ fresh)%list)
  /\ slo_targets db' = slo_targets db /\ burn_history db' = burn_history db
  /\ deployments db' = deployments db /\ alerts db' = alerts db
  /\ (NoDup (map svc_name (services db)) -> NoDup (map svc_name (services db'))).
Proof.
  cbv zeta.
  unfold MetricsIngestionService.ingest_one, MetricsIngestionService.processed_by_loop,
    named.
  pose proof (find_or_create_spec db (ms_service metric)) as H.
  destruct (MetricsIngestionService.find_or_create db (ms_service metric))
    as [service db1].
  destruct H as (Hin & Hname & Hfresh & Hm & Ht & Hb & Hd & Ha & Hnd).
  cbn [filter].
  destruct (MetricsIngestionService.success_rate_of metric) as [rate|e]; cbn.
  - split.
    + eexists [_]. rewrite Hm. split; [reflexivity|]. split; [reflexivity|].
      split; [reflexivity|]. constructor; [|constructor].
      exists service. split; [exact Hin | reflexivity].
    + split; [reflexivity|]. split; [exists service; split; assumption|].
      repeat (split; [assumption|]). exact Hnd.
  - split.
    + exists []. rewrite app_nil_r. repeat split; [exact Hm | constructor].
    + split; [reflexivity|]. split; [exists service; split; assumption|].
      repeat (split; [assumption|]). exact Hnd.
Qed.

Lemma ingest_loop_spec (batch : list MetricSnapshot) :
  forall (db : DB) (processed errors : Z),
  let out := MetricsIngestionService.ingest_loop batch ((processed, errors), db) in
  (exists rows,
      metrics (snd out) = (metrics db ++ rows)%list
      /\ map m_total_requests rows
         = map ms_total_requests
               (filter MetricsIngestionService.processed_by_loop batch)
      /\ map m_error_count rows
         = map ms_error_count
               (filter MetricsIngestionService.processed_by_loop batch)
      /\ Forall (fun r => exists s, In s (services (snd out))
                                    /\ svc_id s = m_service_id r) rows)
  /\ fst out
     = ((processed
         + Z.of_nat (List.length
                       (filter MetricsIngestionService.processed_by_loop batch)))%Z,
        (errors
         + Z.of_nat (List.length
                       (filter (fun m => negb (MetricsIngestionService.processed_by_loop m))
                               batch)))%Z)
  /\ Forall (fun m => named (snd out) (ms_service m)) batch
  /\ (exists fresh, services (snd out) = (services db ++ fresh)%list)
  /\ slo_targets (snd out) = slo_targets db /\ burn_history (snd out) = burn_history db
  /\ deployments (snd out) = deployments db /\ alerts (snd out) = alerts db
  /\ (NoDup (map svc_name (services db)) -> NoDup (map svc_name (services (snd out)))).
Proof.
  induction batch as [|metric rest IH]; intros db processed errors out.
  - subst out. cbn. rewrite !Z.add_0_r.
    split; [exists []; rewrite app_nil_r; repeat split; constructor|].
    split; [reflexivity|]. split; [constructor|].
    split; [exists []; rewrite app_nil_r; reflexivity|]. repeat split. tauto.
  - subst out. unfold MetricsIngestionService.ingest_loop. cbn [fold_left].
    destruct (ingest_one_spec db metric)
      as ((rows1 & Hm1 & Ht1 & He1 & Hr1) & Hok & Hn1 & (fresh1 & Hs1) & T1 & B1
          & D1 & A1 & N1).
    cbv zeta in *.
    destruct (MetricsIngestionService.ingest_one db metric) as [db1 ok].
    cbn [fst snd] in *. subst ok.
    assert (Hstep :
              exists p e,
                (if MetricsIngestionService.processed_by_loop metric
                 then ((processed + 1)%Z, errors, db1)
                 else (processed, (errors + 1)%Z, db1)) = (p, e, db1)
                /\ (p + Z.of_nat (List.length
                                    (filter MetricsIngestionService.processed_by_loop
                                            rest))
                    = processed
                      + Z.of_nat (List.length
                                    (filter MetricsIngestionService.processed_by_loop
                                            (metric :: rest))))%Z
                /\ (e + Z.of_nat
                          (List.length
                             (filter (fun m =>
                                        negb (MetricsIngestionService.processed_by_loop m))
                                     rest))
                    = errors
                      + Z.of_nat
                          (List.length
                             (filter (fun m =>
                                        negb (MetricsIngestionService.processed_by_loop m))
                                     (metric :: rest))))%Z).
    { cbn [filter].
      destruct (MetricsIngestionService.processed_by_loop metric);
        eexists; eexists; (split; [reflexivity|]); cbn [negb List.length]; lia. }
    destruct Hstep as (p & e & -> & Hp & He).
    fold (MetricsIngestionService.ingest_loop rest (p, e, db1)).
    destruct (IH db1 p e)
      as ((rows2 & Hm2 & Ht2 & He2 & Hr2) & Hc & Hn2 & (fresh2 & Hs2) & T2 & B2
          & D2 & A2 & N2).
    cbv zeta in *.
    set (out := MetricsIngestionService.ingest_loop rest (p, e, db1)) in *.
    split.
    + exists (rows1 ++ rows2)%list.
      split; [rewrite Hm2, Hm1, app_assoc; reflexivity|].
      change (metric :: rest) with ([metric] ++ rest)%list.
      rewrite !filter_app, !map_app.
      split; [rewrite Ht1, Ht2; reflexivity|].
      split; [rewrite He1, He2; reflexivity|].
      apply Forall_app. split; [|exact Hr2].
      rewrite Forall_forall in *. intros r Hr.
      destruct (Hr1 r Hr) as (s & Hin & Hid). exists s. split; [|exact Hid].
      rewrite Hs2. apply in_or_app. left. exact Hin.
    + split; [rewrite Hc, Hp, He; reflexivity|].
      split.
      { constructor; [|exact Hn2].
        destruct Hn1 as (s & Hin & Hname). exists s. split; [|exact Hname].
        rewrite Hs2. apply in_or_app. left. exact Hin. }
      split; [exists (fresh1 ++ fresh2)%list; rewrite Hs2, Hs1, app_assoc; reflexivity|].
      split; [congruence|]. split; [congruence|]. split; [congruence|].
      split; [congruence|]. intro Hnd. apply N2, N1, Hnd.
Qed.






(** * Further properties *)

(** ** Rounding is monotone *)

Lemma round_half_even_floor (q : Q) :
  (Qfloor q <= round_half_even q <= Qfloor q + 1)%Z.
Proof.
  unfold round_half_even.
  destruct (Qcompare (q - inject_Z (Qfloor q)) (1 # 2));
    [destruct (Z.even (Qfloor q))| |]; lia.
Qed.

Lemma round_half_even_mono (p q : Q) :
  p <= q -> (round_half_even p <= round_half_even q)%Z.
Proof.
  intro H.
  pose proof (Qfloor_resp_le _ _ H) as Hf.
  destruct (Z.eq_dec (Qfloor p) (Qfloor q)) as [E|E].
  - unfold round_half_even. rewrite E.
    destruct (Qcompare (p - inject_Z (Qfloor q)) (1 # 2)) eqn:Ep;
      destruct (Qcompare (q - inject_Z (Qfloor q)) (1 # 2)) eqn:Eq2;
      try (destruct (Z.even (Qfloor q))); try lia; exfalso;
      repeat match goal with
      | H : Qcompare _ _ = Eq |- _ => apply Qeq_alt in H
      | H : Qcompare _ _ = Lt |- _ => apply Qlt_alt in H
      | H : Qcompare _ _ = Gt |- _ => apply Qgt_alt in H
      end; lra.
  - pose proof (round_half_even_floor p). pose proof (round_half_even_floor q). lia.
Qed.

Lemma py_round_mono (p q : Q) (n : nat) : p <= q -> py_round p n <= py_round q n.
Proof.
  intro H. unfold py_round, Qle. cbn [Qnum Qden].
  apply Z.mul_le_mono_nonneg_r; [lia|].
  apply round_half_even_mono.
  apply Qmult_le_compat_r; [exact H|].
  unfold Qle. cbn. lia.
Qed.

(** ** The shape of a burn-rate computation *)

Lemma burn_and_budget_relation (T E : Z) (aer : Q) :
  let cer := if (0 <? T)%Z then inject_Z E / inject_Z T else 0 in
  let burn := if Qgtb aer 0 then cer / aer else 0 in
  let p := BurnRateEngine.budget_percentages (inject_Z T * aer) E in
  fst p <= 100
  /\ snd p == Qmax (100 - fst p) 0
  /\ (burn == 0 \/ fst p == Qmin (100 * burn) 100).
Proof.
  cbv zeta. unfold BurnRateEngine.budget_percentages.
  destruct (Qgtb (inject_Z T * aer) 0) eqn:Eb; cbn [fst snd]; reflect_cmp.
  - split; [apply Q.le_min_r|]. split; [reflexivity|].
    destruct (Qgtb aer 0) eqn:Ea; [|left; reflexivity]. reflect_cmp.
    destruct (0 <? T)%Z eqn:Et.
    + right. apply Z.ltb_lt in Et.
      assert (Ht0 : 0 < inject_Z T)
        by (change 0 with (inject_Z 0); rewrite <- Zlt_Qlt; exact Et).
      assert (Hx : inject_Z E / (inject_Z T * aer) * 100
                   == 100 * (inject_Z E / inject_Z T / aer))
        by (field; split; lra).
      rewrite Hx. reflexivity.
    + left. unfold Qdiv. apply Qmult_0_l.
  - split; [lra|]. split; [rewrite Q.max_l; lra|].
    destruct (Qgtb aer 0) eqn:Ea; [|left; reflexivity]. reflect_cmp.
    destruct (0 <? T)%Z eqn:Et; [|left; unfold Qdiv; apply Qmult_0_l].
    exfalso. apply Z.ltb_lt in Et.
    assert (Ht0 : 0 < inject_Z T)
      by (change 0 with (inject_Z 0); rewrite <- Zlt_Qlt; exact Et).
    nra.
Qed.

Lemma compute_burn_rate_shape (settings : Settings) (db : DB)
      (now service_id window_minutes : Z) (c : BurnRateComputation) :
  BurnRateEngine.compute_burn_rate settings db now service_id window_minutes = Ok c ->
  exists burn cons,
    brc_burn_rate c = py_round burn 3
    /\ brc_error_budget_consumed c = py_round cons 2
    /\ brc_error_budget_remaining c = py_round (Qmax (100 - cons) 0) 2
    /\ brc_risk_level c = BurnRateEngine._classify_risk settings burn cons
    /\ cons <= 100
    /\ (burn == 0 \/ cons == Qmin (100 * burn) 100).
Proof.
  intro H. open_burn_rate H. revert H.
  destruct (first _ (services db)) as [service|]; [|discriminate].
  destruct (first _ (slo_targets db)) as [t|];
    destruct (BurnRateEngine.window_totals db now service_id window_minutes)
      as [total errors];
    match goal with
    | |- context [BurnRateEngine.budget_percentages (inject_Z ?T * ?a) ?E] =>
        pose proof (burn_and_budget_relation T E a) as R; cbv zeta in R;
        destruct (BurnRateEngine.budget_percentages (inject_Z T * a) E)
          as [cons rem] eqn:Ebp
    end;
    cbn [fst snd] in R; destruct R as (R1 & R2 & R3);
    intro H; injection H as <-;
    cbn [brc_burn_rate brc_error_budget_consumed brc_error_budget_remaining
         brc_risk_level];
    eexists; exists cons;
    (split; [reflexivity|]); (split; [reflexivity|]);
    (split; [apply py_round_comp; exact R2|]);
    (split; [reflexivity|]); (split; [exact R1 | exact R3]).
Qed.

(** ** Risk level against the reported figures *)

Lemma classify_default_levels (burn cons : Q) :
  let risk := BurnRateEngine._classify_risk default_settings burn cons in
  (risk <> FREEZE -> burn < 3 /\ cons < 95)
  /\ (risk = SAFE \/ risk = OBSERVE -> burn < 2 /\ cons < 85)
  /\ (risk = SAFE -> burn < 3 # 2 /\ cons < 70).
Proof.
  cbv zeta. unfold BurnRateEngine._classify_risk.
  cbn [default_settings BURN_RATE_FREEZE_THRESHOLD BURN_RATE_DANGER_THRESHOLD
       BURN_RATE_OBSERVE_THRESHOLD ERROR_BUDGET_FREEZE_THRESHOLD
       ERROR_BUDGET_DANGER_THRESHOLD ERROR_BUDGET_OBSERVE_THRESHOLD].
  split_cmp; reflect_cmp; cbn [orb];
    (split; [|split]); intros; try (split; assumption);
    try congruence;
    match goal with
    | H : _ \/ _ |- _ => destruct H; congruence
    end.
Qed.

Lemma risk_level_bounds (db : DB)
        (now service_id window_minutes : Z) (c : BurnRateComputation) :
  BurnRateEngine.compute_burn_rate default_settings db now service_id window_minutes
  = Ok c ->
  (brc_risk_level c <> FREEZE ->
   brc_burn_rate c <= 95 # 100 /\ 5 <= brc_error_budget_remaining c)
  /\ (brc_risk_level c = SAFE \/ brc_risk_level c = OBSERVE ->
      brc_burn_rate c <= 85 # 100 /\ 15 <= brc_error_budget_remaining c)
  /\ (brc_risk_level c = SAFE ->
      brc_burn_rate c <= 7 # 10 /\ 30 <= brc_error_budget_remaining c).
Proof.
  intro H.
  destruct (compute_burn_rate_shape _ _ _ _ _ _ H)
    as (burn & cons & -> & _ & -> & -> & Hc & Hrel).
  destruct (classify_default_levels burn cons) as (L1 & L2 & L3).
  assert (Hbound : forall k : Q, 0 <= k -> k <= 100 -> cons < k ->
            py_round burn 3 <= py_round (k / 100) 3
            /\ py_round (100 - k) 2 <= py_round (Qmax (100 - cons) 0) 2).
  { intros k Hk0 Hk Hlt. split; apply py_round_mono.
    - destruct Hrel as [Hz | Hmin].
      + rewrite Hz. unfold Qdiv. change (/ 100) with (1 # 100). lra.
      + destruct (Q.min_spec (100 * burn) 100) as [[Hx Hm] | [Hx Hm]];
          rewrite Hm in Hmin; unfold Qdiv; change (/ 100) with (1 # 100); lra.
    - apply Q.max_le_iff. left. lra. }
  split; [|split].
  - intro Hr. destruct (L1 Hr) as [_ Hcons].
    destruct (Hbound 95) as [A B]; [lra | lra | exact Hcons|].
    split; [apply (Qle_trans _ _ _ A) | refine (Qle_trans _ _ _ _ B)];
      vm_compute; discriminate.
  - intro Hr. destruct (L2 Hr) as [_ Hcons].
    destruct (Hbound 85) as [A B]; [lra | lra | exact Hcons|].
    split; [apply (Qle_trans _ _ _ A) | refine (Qle_trans _ _ _ _ B)];
      vm_compute; discriminate.
  - intro Hr. destruct (L3 Hr) as [_ Hcons].
    destruct (Hbound 70) as [A B]; [lra | lra | exact Hcons|].
    split; [apply (Qle_trans _ _ _ A) | refine (Qle_trans _ _ _ _ B)];
      vm_compute; discriminate.
Qed.

(** With the default thresholds the budget cutoffs decide the level: a
    window computation that is not FREEZE reports a burn rate of at most
    0.95 and at least 5% of the budget left; one that is SAFE or OBSERVE
    at most 0.85 and at least 15%; one that is SAFE at most 0.7 and at
    least 30%. *)
Theorem risk_level_bounds_burn_rate_and_budget (db : DB)
        (now service_id window_minutes : Z) (c : BurnRateComputation) :
  BurnRateEngine.compute_burn_rate default_settings db now service_id window_minutes
  = Ok c ->
  (brc_risk_level c <> FREEZE ->
   brc_burn_rate c <= 95 # 100 /\ 5 <= brc_error_budget_remaining c)
  /\ (brc_risk_level c = SAFE \/ brc_risk_level c = OBSERVE ->
      brc_burn_rate c <= 85 # 100 /\ 15 <= brc_error_budget_remaining c)
  /\ (brc_risk_level c = SAFE ->
      brc_burn_rate c <= 7 # 10 /\ 30 <= brc_error_budget_remaining c).
Proof. apply risk_level_bounds. Qed.

Lemma risk_level_bounds_burn_rate_and_budget_witness :
  exists c,
    BurnRateEngine.compute_burn_rate default_settings Examples.gentle_rise 7200 1 60
    = Ok c
    /\ brc_risk_level c = SAFE
    /\ brc_burn_rate c <= 7 # 10.
Proof.
  destruct (BurnRateEngine.compute_burn_rate default_settings Examples.gentle_rise
              7200 1 60) as [c|e] eqn:E; [|vm_compute in E; discriminate].
  assert (Hs : brc_risk_level c = SAFE)
    by (vm_compute in E; injection E as <-; reflexivity).
  destruct (risk_level_bounds_burn_rate_and_budget _ _ _ _ _ E) as (_ & _ & H).
  exists c. split; [reflexivity|]. split; [exact Hs | apply H, Hs].
Defined.

(** ** The weighted burn rate and the composite risk *)

Lemma get_weighted_burn_rate_inv (settings : Settings) (db : DB) (clock : Clock)
      (service_id : Z) (weighted_burn : Q) (worst_risk : RiskLevel) :
  BurnRateEngine.get_weighted_burn_rate settings db clock service_id
  = Ok (weighted_burn, worst_risk) ->
  exists c5 c60 c1440,
    BurnRateEngine.compute_burn_rate settings db (clock 0%nat) service_id 5 = Ok c5
    /\ BurnRateEngine.compute_burn_rate settings db (clock 1%nat) service_id 60 = Ok c60
    /\ BurnRateEngine.compute_burn_rate settings db (clock 2%nat) service_id 1440
       = Ok c1440
    /\ weighted_burn
       = py_round ((3 # 10) * brc_burn_rate c5 + (4 # 10) * brc_burn_rate c60
                   + (3 # 10) * brc_burn_rate c1440) 3
    /\ RiskSpec.severity worst_risk
       = Z.max (Z.max (RiskSpec.severity (brc_risk_level c5))
                      (RiskSpec.severity (brc_risk_level c60)))
               (RiskSpec.severity (brc_risk_level c1440))
    /\ (worst_risk = brc_risk_level c5 \/ worst_risk = brc_risk_level c60
        \/ worst_risk = brc_risk_level c1440).
Proof.
  unfold BurnRateEngine.get_weighted_burn_rate, BurnRateEngine.compute_all_windows,
    BurnRateEngine.WINDOW_CONFIGS.
  cbn [BurnRateEngine.compute_windows]. unfold later. cbn [Nat.add].
  destruct (BurnRateEngine.compute_burn_rate settings db (clock 0%nat) service_id 5)
    as [c5|]; [|discriminate].
  destruct (BurnRateEngine.compute_burn_rate settings db (clock 1%nat) service_id 60)
    as [c60|]; [|discriminate].
  destruct (BurnRateEngine.compute_burn_rate settings db (clock 2%nat) service_id 1440)
    as [c1440|]; [|discriminate].
  cbn [bind combine fold_left BurnRateEngine.weigh].
  change (Qgtb (0 + (3 # 10) + (4 # 10) + (3 # 10)) 0) with true.
  cbv iota. intro H. injection H as <- <-.
  exists c5, c60, c1440. repeat (split; [reflexivity|]).
  split.
  - apply py_round_comp. field.
  - unfold RiskSpec.severity.
    destruct (brc_risk_level c5), (brc_risk_level c60), (brc_risk_level c1440);
      cbn; split; auto.
Qed.

(** The three standard windows start at a datetime when the reading lies
    a day or more after the first datetime. *)
Lemma standard_window_in_range (now window_minutes : Z) :
  (datetime_min + days 1 <= now <= datetime_max)%Z ->
  (0 <= window_minutes <= 1440)%Z ->
  window_in_range now window_minutes.
Proof.
  unfold window_in_range, minutes, days, datetime_min, datetime_max.
  intros Hn Hw. split; [|lia].
  assert (0 <= window_minutes * 60 / 86400 <= 1)%Z; [|lia].
  split; [apply Z.div_pos; lia | apply Z.div_le_upper_bound; lia].
Qed.

(** The weighted burn rate of a service is the 0.3 / 0.4 / 0.3 mix of the
    burn rates of its 5-minute, 60-minute and 1440-minute computations,
    each made at its own reading of the clock and rounded to three places,
    and the composite risk is the most severe of their three levels.  The
    three computations return, and so does the weighted rate, for a
    service that exists in a store whose counts fit, at readings that lie
    a day or more after the first datetime. *)
Theorem weighted_burn_rate_mixes_the_three_windows (settings : Settings) (db : DB)
        (clock : Clock) (service_id : Z) :
  is_int64 service_id = true ->
  first (fun s => (svc_id s =? service_id)%Z) (services db) <> None ->
  counts_fit db ->
  clock_in_range clock 3 ->
  exists c5 c60 c1440 worst_risk,
    BurnRateEngine.compute_all_windows settings db clock service_id
    = Ok [c5; c60; c1440]
    /\ BurnRateEngine.compute_burn_rate settings db (clock 0%nat) service_id 5 = Ok c5
    /\ BurnRateEngine.compute_burn_rate settings db (clock 1%nat) service_id 60 = Ok c60
    /\ BurnRateEngine.compute_burn_rate settings db (clock 2%nat) service_id 1440
       = Ok c1440
    /\ BurnRateEngine.get_weighted_burn_rate settings db clock service_id
       = Ok (py_round ((3 # 10) * brc_burn_rate c5 + (4 # 10) * brc_burn_rate c60
                       + (3 # 10) * brc_burn_rate c1440) 3,
             worst_risk)
    /\ RiskSpec.severity worst_risk
       = Z.max (Z.max (RiskSpec.severity (brc_risk_level c5))
                      (RiskSpec.severity (brc_risk_level c60)))
               (RiskSpec.severity (brc_risk_level c1440))
    /\ (worst_risk = brc_risk_level c5 \/ worst_risk = brc_risk_level c60
        \/ worst_risk = brc_risk_level c1440).
Proof.
  intros Hi Hid Hfit Hclock.
  assert (Hc : forall k w, (k < 3)%nat -> (0 <= w <= 1440)%Z ->
             exists c, BurnRateEngine.compute_burn_rate settings db (clock k)
                         service_id w = Ok c).
  { intros k w Hk Hw. apply compute_burn_rate_total; try assumption.
    - apply standard_window_in_range; [apply Hclock, Hk | exact Hw].
    - apply counts_fit_sums_fit, Hfit. }
  destruct (Hc 0%nat 5%Z) as [c5 H5]; [lia | lia|].
  destruct (Hc 1%nat 60%Z) as [c60 H60]; [lia | lia|].
  destruct (Hc 2%nat 1440%Z) as [c1440 H1440]; [lia | lia|].
  assert (Hall : BurnRateEngine.compute_all_windows settings db clock service_id
                 = Ok [c5; c60; c1440]).
  { unfold BurnRateEngine.compute_all_windows, BurnRateEngine.WINDOW_CONFIGS.
    cbn [BurnRateEngine.compute_windows]. unfold later. cbn [Nat.add].
    rewrite H5, H60, H1440. reflexivity. }
  destruct (BurnRateEngine.get_weighted_burn_rate settings db clock service_id)
    as [[wb wr]|e] eqn:Hw.
  - destruct (get_weighted_burn_rate_inv _ _ _ _ _ _ Hw)
      as (d5 & d60 & d1440 & G5 & G60 & G1440 & Hwb & Hsev & Hin).
    rewrite H5 in G5. rewrite H60 in G60. rewrite H1440 in G1440.
    injection G5 as <-. injection G60 as <-. injection G1440 as <-.
    exists c5, c60, c1440, wr.
    repeat (split; [assumption|]).
    split; [rewrite Hwb; reflexivity|]. split; assumption.
  - exfalso. unfold BurnRateEngine.get_weighted_burn_rate in Hw.
    rewrite Hall in Hw. cbn [bind] in Hw.
    destruct (fold_left _ _ _) as [[a b] r]. discriminate.
Qed.

Lemma weighted_burn_rate_mixes_the_three_windows_witness :
  exists c5 c60 c1440,
    BurnRateEngine.compute_all_windows default_settings Examples.burning
      (always 90000) 1
    = Ok [c5; c60; c1440].
Proof.
  destruct (weighted_burn_rate_mixes_the_three_windows default_settings
              Examples.burning (always 90000) 1)
    as (c5 & c60 & c1440 & _ & H & _).
  - reflexivity.
  - discriminate.
  - unfold counts_fit. split; [repeat constructor; discriminate|].
    split; reflexivity.
  - intros k _. unfold always. split; vm_compute; discriminate.
  - exists c5, c60, c1440. exact H.
Defined.

(** ** The release gate under the default settings *)

Lemma check_release_fields (settings : Settings) (db db' : DB) (clock : Clock)
      (uuid_bits : N) (request : ReleaseCheckRequest) (resp : ReleaseCheckResponse)
      (service : Service) :
  registered db request = Some service ->
  ReleaseGateController.check_release settings db clock uuid_bits request
  = Ok (resp, db') ->
  exists burn weighted_burn worst_risk d,
    BurnRateEngine.compute_burn_rate settings db (clock 0%nat) (svc_id service) 60
    = Ok burn
    /\ BurnRateEngine.get_weighted_burn_rate settings db (later 1 clock) (svc_id service)
       = Ok (weighted_burn, worst_risk)
    /\ resp_current_risk_level resp = worst_risk
    /\ resp_current_burn_rate resp = weighted_burn
    /\ resp_error_budget_remaining resp = brc_error_budget_remaining burn
    /\ resp_service_name resp = svc_name service
    /\ resp_checked_at resp = clock 9%nat
    /\ deployments db' = (deployments db ++ [d])%list
    /\ dep_risk_level_at_request d = Some worst_risk
    /\ dep_burn_rate_at_request d = Some weighted_burn
    /\ dep_requested_at d = clock 8%nat
    /\ dep_version d = req_version request
    /\ dep_requested_by d = req_requested_by request
    /\ dep_service_id d = svc_id service.
Proof.
  unfold registered, ReleaseGateController.check_release. intros ->.
  destruct (BurnRateEngine.compute_burn_rate settings db (clock 0%nat)
              (svc_id service) 60) as [burn|]; [|discriminate].
  destruct (BurnRateEngine.get_weighted_burn_rate settings db (later 1 clock)
              (svc_id service)) as [[weighted_burn worst_risk]|]; [|discriminate].
  destruct (ForecastModule.forecast_exhaustion settings db (later 4 clock)
              (svc_id service) true) as [forecast|]; [|discriminate].
  cbn [bind].
  destruct (ReleaseGateController._evaluate_gate _ _ _ _ _ _ _)
    as [[allowed reason] recommendations].
  unfold ReleaseGateController._record_deployment.
  destruct (existsb _ (deployments db)); [discriminate|].
  cbn [bind]. intro H. injection H as <- <-.
  exists burn, weighted_burn, worst_risk. eexists.
  cbn. repeat split.
Qed.

(** With the default settings the two threshold rules of the gate decide
    nothing as long as the 60-minute computation of line 73 reports the
    remaining budget that the 60-minute computation inside the weighted
    burn rate reports, as it does unless a metric enters or leaves the
    window between the two readings of the clock: the response for a
    registered service is then blocked exactly when the composite risk is
    FREEZE or DANGER and no override with a non-empty reason was given. *)
Theorem default_gate_blocks_only_on_risk (db db' : DB) (clock : Clock) (uuid_bits : N)
        (request : ReleaseCheckRequest) (resp : ReleaseCheckResponse)
        (service : Service) :
  registered db request = Some service ->
  ReleaseGateController.check_release default_settings db clock uuid_bits request
  = Ok (resp, db') ->
  (forall c60,
      BurnRateEngine.compute_burn_rate default_settings db (clock 2%nat)
                                       (svc_id service) 60 = Ok c60 ->
      brc_error_budget_remaining c60 = resp_error_budget_remaining resp) ->
  resp_allowed resp
  = match resp_current_risk_level resp with
    | FREEZE | DANGER => req_override request && truthy (req_override_reason request)
    | SAFE | OBSERVE => true
    end.
Proof.
  intros Hreg Hcheck Hsame.
  destruct (check_release_inv _ _ _ _ _ _ _ _ Hreg Hcheck)
    as (burn & wb & wr & f & Hb & Hw & _ & _ & -> & _ & _ & _ & -> & _ & Hrem & _).
  destruct (get_weighted_burn_rate_inv _ _ _ _ _ _ Hw)
    as (c5 & c60 & c1440 & H5 & H60 & H1440 & -> & Hsev & _).
  unfold later in H5, H60, H1440. cbn [Nat.add] in H5, H60, H1440.
  pose proof (Hsame c60 H60) as Hr60. rewrite Hrem in Hr60.
  unfold ReleaseGateController._evaluate_gate.
  destruct wr eqn:Ewr; cbn [RiskLevel_eqb];
    try (destruct (req_override request && truthy (req_override_reason request));
         reflexivity).
  all: assert (Hlow : forall c, (RiskSpec.severity (brc_risk_level c) <= 1)%Z ->
                   brc_risk_level c = SAFE \/ brc_risk_level c = OBSERVE)
         by (intros c; destruct (brc_risk_level c); cbn; intros; auto; lia).
  all: cbn in Hsev.
  all: destruct (proj1 (proj2 (risk_level_bounds _ _ _ _ _ H5))
                   (Hlow c5 ltac:(lia))) as [B5 _].
  all: destruct (proj1 (proj2 (risk_level_bounds _ _ _ _ _ H60))
                   (Hlow c60 ltac:(lia))) as [B60 R60].
  all: destruct (proj1 (proj2 (risk_level_bounds _ _ _ _ _ H1440))
                   (Hlow c1440 ltac:(lia))) as [B1440 _].
  all: rewrite Hr60 in R60.
  all: cbn [default_settings RELEASE_GATE_BURN_RATE_THRESHOLD
            RELEASE_GATE_BUDGET_THRESHOLD].
  all: match goal with
       | |- context [Qgtb (py_round ?m 3) 2] =>
           assert (Hm : Qgtb (py_round m 3) 2 = false)
             by (apply Qgtb_false;
                 apply (Qle_trans _ (py_round 2 3));
                 [apply py_round_mono; lra | vm_compute; discriminate]);
           rewrite Hm
       end.
  all: match goal with
       | |- context [Qgtb (100 - ?r) 90] =>
           assert (Hr : Qgtb (100 - r) 90 = false) by (apply Qgtb_false; lra);
           rewrite Hr
       end.
  all: reflexivity.
Qed.

Lemma default_gate_blocks_only_on_risk_witness :
  exists resp db',
    ReleaseGateController.check_release default_settings Examples.burning
      (always 7200) 42 Examples.unnamed_request = Ok (resp, db')
    /\ resp_current_risk_level resp = FREEZE
    /\ resp_allowed resp = false.
Proof.
  destruct (ReleaseGateController.check_release default_settings Examples.burning
              (always 7200) 42 Examples.unnamed_request) as [[resp db']|e] eqn:E;
    [|vm_compute in E; discriminate].
  assert (Hreg : registered Examples.burning Examples.unnamed_request
                 = Some Examples.api_gateway) by reflexivity.
  assert (Hsame : forall c60,
             BurnRateEngine.compute_burn_rate default_settings Examples.burning
               (always 7200 2%nat) (svc_id Examples.api_gateway) 60 = Ok c60 ->
             brc_error_budget_remaining c60 = resp_error_budget_remaining resp).
  { intros c60 H. vm_compute in H, E. injection H as <-. injection E as <- _.
    reflexivity. }
  pose proof (default_gate_blocks_only_on_risk _ _ _ _ _ _ _ Hreg E Hsame) as H.
  assert (Hrisk : resp_current_risk_level resp = FREEZE)
    by (vm_compute in E; injection E as <- _; reflexivity).
  exists resp, db'. split; [reflexivity|]. split; [exact Hrisk|].
  rewrite H, Hrisk. reflexivity.
Defined.

(** ** What the gate returns *)

(** The decision can be read off the reason: it starts with
    "Deployment blocked" exactly when the deployment is blocked, with
    "OVERRIDE:" exactly when an override lifted a FREEZE or DANGER block,
    and with "Deployment allowed" otherwise; the list of recommendations
    is never empty. *)
Theorem gate_reason_tells_the_decision (settings : Settings) (burn_rate : Q)
        (risk_level : RiskLevel) (budget_remaining : Q) (time_to_exhaustion : option Q)
        (override : bool) (override_reason : option string) :
  let gate :=
    ReleaseGateController._evaluate_gate settings burn_rate risk_level
      budget_remaining time_to_exhaustion override override_reason in
  let allowed := fst (fst gate) in
  let reason := snd (fst gate) in
  String.prefix "Deployment blocked" reason = negb allowed
  /\ String.prefix "OVERRIDE:" reason
     = allowed && (RiskLevel_eqb risk_level FREEZE || RiskLevel_eqb risk_level DANGER)
  /\ String.prefix "Deployment allowed" reason
     = allowed && negb (RiskLevel_eqb risk_level FREEZE || RiskLevel_eqb risk_level DANGER)
  /\ snd gate <> [].
Proof.
  cbv zeta. unfold ReleaseGateController._evaluate_gate.
  destruct risk_level; cbn [RiskLevel_eqb orb];
    try (destruct (override && truthy override_reason); cbn;
         repeat split; discriminate).
  all: destruct (Qgtb burn_rate _); [cbn; repeat split; discriminate|].
  all: destruct (Qgtb (100 - budget_remaining) _); [cbn; repeat split; discriminate|].
  all: destruct time_to_exhaustion as [t|]; [destruct (Qltb t 4)|];
    cbn; repeat split; discriminate.
Qed.

(** ** The audit trail *)

Lemma existsb_false_not_in (id : string) (rows : list Deployment) :
  existsb (fun d => String.eqb (dep_deployment_id d) id) rows = false ->
  ~ In id (map dep_deployment_id rows).
Proof.
  intros H Hin. apply in_map_iff in Hin. destruct Hin as (d & Hd & Hin).
  assert (E : existsb (fun d => String.eqb (dep_deployment_id d) id) rows = true).
  { apply existsb_exists. exists d. split; [exact Hin|]. apply String.eqb_eq, Hd. }
  congruence.
Qed.

(** The release gate keeps the deployment ids of the table distinct: on a
    table without a repeated id every call that returns leaves a table
    without a repeated id, and a call that returns for a registered
    service has stored its row under an id the table did not hold. *)
Theorem check_release_keeps_deployment_ids_distinct (settings : Settings)
        (db db' : DB) (clock : Clock) (uuid_bits : N) (request : ReleaseCheckRequest)
        (resp : ReleaseCheckResponse) :
  NoDup (map dep_deployment_id (deployments db)) ->
  ReleaseGateController.check_release settings db clock uuid_bits request
  = Ok (resp, db') ->
  NoDup (map dep_deployment_id (deployments db'))
  /\ (registered db request <> None ->
      id_is_new db (stored_id uuid_bits request)
      /\ In (stored_id uuid_bits request) (map dep_deployment_id (deployments db'))).
Proof.
  intros Hnd Hcheck.
  destruct (registered db request) as [service|] eqn:Hreg.
  - destruct (check_release_inv _ _ _ _ _ _ _ _ Hreg Hcheck)
      as (burn & wb & wr & f & _ & _ & _ & Hrec & _).
    revert Hrec. unfold ReleaseGateController._record_deployment.
    destruct (existsb _ (deployments db)) eqn:E; [discriminate|].
    intro H. injection H as <-. cbn [deployments].
    rewrite map_app. split.
    + apply NoDup_snoc; [exact Hnd|].
      apply existsb_false_not_in. exact E.
    + intros _. split; [exact E|].
      apply in_or_app. right. left. reflexivity.
  - destruct (check_release_unknown settings db clock uuid_bits request Hreg)
      as (resp0 & H0 & _).
    rewrite H0 in Hcheck. injection Hcheck as _ <-.
    split; [exact Hnd | intro H; contradiction].
Qed.

Lemma check_release_keeps_deployment_ids_distinct_witness :
  exists resp db',
    ReleaseGateController.check_release default_settings Examples.released
      (always 7200) 42 Examples.hotfix_request = Ok (resp, db')
    /\ map dep_deployment_id (deployments Examples.released)
       = ["deploy-123"; "deploy-124"]
    /\ NoDup (map dep_deployment_id (deployments db'))
    /\ In "deploy-456" (map dep_deployment_id (deployments db')).
Proof.
  destruct (ReleaseGateController.check_release default_settings Examples.released
              (always 7200) 42 Examples.hotfix_request) as [[resp db']|e] eqn:E;
    [|vm_compute in E; discriminate].
  exists resp, db'. split; [reflexivity|]. split; [reflexivity|].
  destruct (check_release_keeps_deployment_ids_distinct default_settings
              Examples.released db' (always 7200) 42 Examples.hotfix_request resp)
    as [Hnd Hnew]; [cbn; repeat constructor; cbn; intuition discriminate | exact E|].
  split; [exact Hnd|].
  apply (proj2 (Hnew ltac:(intro H; vm_compute in H; discriminate))).
Defined.

(** The row stored for a call records what the response reports: the
    same composite risk level and weighted burn rate, the service found
    by name, and the version and requester of the request.  The row is
    stamped with the reading of the clock at its INSERT, the response
    with the reading of line 111 that follows it. *)
Theorem deployment_row_matches_the_response (settings : Settings) (db db' : DB)
        (clock : Clock) (uuid_bits : N) (request : ReleaseCheckRequest)
        (resp : ReleaseCheckResponse) (service : Service) :
  registered db request = Some service ->
  ReleaseGateController.check_release settings db clock uuid_bits request
  = Ok (resp, db') ->
  exists d,
    deployments db' = (deployments db ++ [d])%list
    /\ dep_service_id d = svc_id service
    /\ dep_risk_level_at_request d = Some (resp_current_risk_level resp)
    /\ dep_burn_rate_at_request d = Some (resp_current_burn_rate resp)
    /\ dep_requested_at d = clock 8%nat
    /\ resp_checked_at resp = clock 9%nat
    /\ dep_version d = req_version request
    /\ dep_requested_by d = req_requested_by request.
Proof.
  intros Hreg Hcheck.
  destruct (check_release_fields _ _ _ _ _ _ _ _ Hreg Hcheck)
    as (burn & wb & wr & d & _ & _ & -> & -> & _ & _ & Hc & Hd & Hr & Hb & Ht & Hv
        & Hby & Hs).
  exists d. repeat split; assumption.
Qed.

Lemma deployment_row_matches_the_response_witness :
  exists resp db' d,
    ReleaseGateController.check_release default_settings Examples.gentle_rise
      (fun k => 7200 + Z.of_nat k)%Z 42 Examples.unnamed_request = Ok (resp, db')
    /\ deployments db' = [d]
    /\ dep_risk_level_at_request d = Some (resp_current_risk_level resp)
    /\ dep_requested_at d = 7208%Z
    /\ resp_checked_at resp = 7209%Z.
Proof.
  destruct (ReleaseGateController.check_release default_settings Examples.gentle_rise
              (fun k => 7200 + Z.of_nat k)%Z 42 Examples.unnamed_request)
    as [[resp db']|e] eqn:E; [|vm_compute in E; discriminate].
  assert (Hreg : registered Examples.gentle_rise Examples.unnamed_request
                 = Some Examples.api_gateway) by reflexivity.
  destruct (deployment_row_matches_the_response _ _ _ _ _ _ _ _ Hreg E)
    as (d & Hd & _ & Hr & _ & Ht & Hc & _).
  exists resp, db', d. split; [reflexivity|]. repeat split; assumption.
Defined.

(** ** Gate statistics *)

Lemma count_split {A : Type} (p q : A -> bool) (rows : list A) :
  GateAudit.count p rows
  = (GateAudit.count (fun x => p x && q x) rows
     + GateAudit.count (fun x => p x && negb (q x)) rows)%Z.
Proof.
  unfold GateAudit.count.
  induction rows as [|x rows IH]; [reflexivity|].
  cbn [filter]. destruct (p x), (q x); cbn [andb negb List.length]; lia.
Qed.

Lemma count_nonneg {A : Type} (p : A -> bool) (rows : list A) :
  (0 <= GateAudit.count p rows)%Z.
Proof. unfold GateAudit.count. lia. Qed.

Lemma level_counts_sum (rows : list Deployment) :
  (GateAudit.count (has_level SAFE) rows + GateAudit.count (has_level OBSERVE) rows
   + GateAudit.count (has_level DANGER) rows + GateAudit.count (has_level FREEZE) rows
   = GateAudit.count (fun d => match dep_risk_level_at_request d with
                               | Some _ => true
                               | None => false
                               end) rows)%Z.
Proof.
  unfold GateAudit.count, has_level.
  induction rows as [|d rows IH]; [reflexivity|].
  cbn [filter]. destruct (dep_risk_level_at_request d) as [[]|];
    cbn [RiskLevel_eqb List.length]; lia.
Qed.

Lemma risk_counts_sum (rows : list Deployment) :
  fold_right Z.add 0%Z (map snd (GateAudit.risk_counts rows))
  = GateAudit.count (fun d => match dep_risk_level_at_request d with
                              | Some _ => true
                              | None => false
                              end) rows.
Proof.
  rewrite <- level_counts_sum.
  unfold GateAudit.risk_counts. cbn [flat_map].
  fold (has_level SAFE) (has_level OBSERVE) (has_level DANGER) (has_level FREEZE).
  pose proof (count_nonneg (has_level SAFE) rows).
  pose proof (count_nonneg (has_level OBSERVE) rows).
  pose proof (count_nonneg (has_level DANGER) rows).
  pose proof (count_nonneg (has_level FREEZE) rows).
  destruct (0 <? GateAudit.count (has_level SAFE) rows)%Z eqn:E1;
    destruct (0 <? GateAudit.count (has_level OBSERVE) rows)%Z eqn:E2;
    destruct (0 <? GateAudit.count (has_level DANGER) rows)%Z eqn:E3;
    destruct (0 <? GateAudit.count (has_level FREEZE) rows)%Z eqn:E4;
    cbn [app map snd fold_right];
    repeat match goal with
    | H : (_ <? _)%Z = false |- _ => apply Z.ltb_ge in H
    end; lia.
Qed.

Lemma gate_statistics_arith (p : Deployment -> bool) (rows : list Deployment) :
  let total := GateAudit.count p rows in
  let blocked := GateAudit.count (fun d => p d && negb (dep_allowed d)) rows in
  (total - blocked)%Z = GateAudit.count (fun d => p d && dep_allowed d) rows
  /\ total = (total - blocked + blocked)%Z
  /\ (0 <= blocked <= total)%Z
  /\ 0 <= (if (total =? 0)%Z then 0
           else py_round (inject_Z blocked / inject_Z total * 100) 2) <= 100.
Proof.
  cbv zeta.
  pose proof (count_split p dep_allowed rows) as Hs.
  pose proof (count_nonneg (fun d => p d && dep_allowed d) rows).
  pose proof (count_nonneg (fun d => p d && negb (dep_allowed d)) rows) as Hb.
  set (total := GateAudit.count p rows) in *.
  set (blocked := GateAudit.count (fun d => p d && negb (dep_allowed d)) rows) in *.
  split; [lia|]. split; [lia|]. split; [lia|].
  destruct (total =? 0)%Z eqn:E; [split; lra|].
  apply Z.eqb_neq in E.
  apply py_round_2_percentage.
  assert (Ht : 0 < inject_Z total)
    by (change 0 with (inject_Z 0); rewrite <- Zlt_Qlt; lia).
  assert (Hb0 : 0 <= inject_Z blocked)
    by (change 0 with (inject_Z 0); rewrite <- Zle_Qle; lia).
  assert (Hbt : inject_Z blocked <= inject_Z total) by (rewrite <- Zle_Qle; lia).
  split.
  - apply Qmult_le_0_compat; [|lra].
    apply Qmult_le_0_compat; [exact Hb0|]. apply Qinv_le_0_compat. lra.
  - assert (Hq : inject_Z blocked / inject_Z total <= 1).
    { apply Qle_shift_div_r; [exact Ht|]. lra. }
    lra.
Qed.

Lemma gate_statistics_inv (db : DB) (now period_days : Z) (s : GateStatistics) :
  GateAudit.get_gate_statistics db now period_days = Ok s ->
  let in_period := fun d => ((now - days period_days) <=? dep_requested_at d)%Z in
  let total := GateAudit.count in_period (deployments db) in
  let blocked :=
    GateAudit.count (fun d => in_period d && negb (dep_allowed d)) (deployments db) in
  gs_period_days s = period_days
  /\ gs_total_deployments s = total
  /\ gs_blocked_deployments s = blocked
  /\ gs_allowed_deployments s = (total - blocked)%Z
  /\ gs_block_rate s = (if (total =? 0)%Z then 0
                        else py_round (inject_Z blocked / inject_Z total * 100) 2)
  /\ gs_risk_distribution s
     = GateAudit.risk_counts (filter in_period (deployments db)).
Proof.
  unfold GateAudit.get_gate_statistics, timedelta, datetime_sub.
  destruct (_ && _)%bool; [|discriminate]. cbn [bind].
  destruct (is_datetime _); [|discriminate]. cbn [bind].
  intro H. injection H as <-. cbn. repeat split.
Qed.

(** The statistics of the gate, when the period is one that
    [get_gate_statistics] can subtract from the clock, are a partition of
    the period: the total is the number of rows requested since the
    cutoff, the blocked count the number of those that were not allowed,
    the allowed count the number of those that were, allowed and blocked
    add up to the total, the block rate lies between 0 and 100 and is 0
    for an empty period, and the risk histogram adds up to the rows of
    the period that carry a risk level.  A period of more than
    999999999 days, or one that reaches back before the first datetime,
    raises instead. *)
Theorem gate_statistics_partition_the_period (db : DB) (now period_days : Z) :
  let in_period := fun d => ((now - days period_days) <=? dep_requested_at d)%Z in
  (forall s,
      GateAudit.get_gate_statistics db now period_days = Ok s ->
      gs_total_deployments s = GateAudit.count in_period (deployments db)
      /\ gs_blocked_deployments s
         = GateAudit.count (fun d => in_period d && negb (dep_allowed d))
                           (deployments db)
      /\ gs_allowed_deployments s
         = GateAudit.count (fun d => in_period d && dep_allowed d) (deployments db)
      /\ gs_total_deployments s
         = (gs_allowed_deployments s + gs_blocked_deployments s)%Z
      /\ (0 <= gs_blocked_deployments s <= gs_total_deployments s)%Z
      /\ 0 <= gs_block_rate s <= 100
      /\ (gs_total_deployments s = 0%Z -> gs_block_rate s == 0)
      /\ fold_right Z.add 0%Z (map snd (gs_risk_distribution s))
         = GateAudit.count (fun d => match dep_risk_level_at_request d with
                                     | Some _ => true
                                     | None => false
                                     end)
                           (filter in_period (deployments db)))
  /\ ((-999999999 <= period_days <= 999999999)%Z ->
      (datetime_min <= now - days period_days <= datetime_max)%Z ->
      exists s, GateAudit.get_gate_statistics db now period_days = Ok s)
  /\ ((999999999 < period_days)%Z ->
      GateAudit.get_gate_statistics db now period_days = Raise OverflowError).
Proof.
  cbv zeta. split; [|split].
  - intros s Hs.
    destruct (gate_statistics_inv _ _ _ _ Hs) as (_ & Ht & Hb & Ha & Hr & Hd).
    cbv zeta in Ht, Hb, Ha, Hr, Hd.
    destruct (gate_statistics_arith
                (fun d => ((now - days period_days) <=? dep_requested_at d)%Z)
                (deployments db)) as (H1 & H2 & H3 & H4).
    cbv zeta in H1, H2, H3, H4.
    rewrite Ht, Hb, Ha, Hr, Hd.
    split; [reflexivity|]. split; [reflexivity|]. split; [exact H1|].
    split; [exact H2|]. split; [exact H3|]. split; [exact H4|].
    split; [|apply risk_counts_sum].
    intros ->. reflexivity.
  - intros [Hp1 Hp2] [Hn1 Hn2].
    unfold GateAudit.get_gate_statistics, timedelta, datetime_sub, is_datetime.
    replace (days period_days / 86400)%Z with period_days
      by (unfold days; rewrite Z.div_mul; lia).
    apply Z.leb_le in Hp1, Hp2, Hn1, Hn2.
    rewrite Hp1, Hp2. cbn [andb bind]. rewrite Hn1, Hn2. cbn [andb bind].
    eexists. reflexivity.
  - intro Hp.
    unfold GateAudit.get_gate_statistics, timedelta.
    replace (days period_days / 86400)%Z with period_days
      by (unfold days; rewrite Z.div_mul; lia).
    destruct (Z.leb_spec period_days 999999999); [lia|].
    rewrite andb_false_r. reflexivity.
Qed.

Lemma gate_statistics_partition_the_period_witness :
  exists s,
    GateAudit.get_gate_statistics Examples.released 7200 7 = Ok s
    /\ gs_total_deployments s = 2%Z
    /\ gs_blocked_deployments s = 1%Z
    /\ gs_allowed_deployments s = 1%Z
    /\ 0 <= gs_block_rate s <= 100.
Proof.
  destruct (proj1 (proj2 (gate_statistics_partition_the_period
                            Examples.released 7200 7))) as [s Hs];
    [lia | vm_compute; split; discriminate |].
  destruct (proj1 (gate_statistics_partition_the_period Examples.released 7200 7)
              s Hs) as (Ht & Hb & Ha & _ & _ & Hr & _).
  exists s. split; [exact Hs|].
  split; [rewrite Ht; reflexivity|]. split; [rewrite Hb; reflexivity|].
  split; [rewrite Ha; reflexivity | exact Hr].
Defined.

(** ** Newest-first queries *)

Lemma insert_desc_In {A : Type} (key : A -> Z) (x y : A) (l : list A) :
  In y (insert_desc key x l) <-> y = x \/ In y l.
Proof.
  induction l as [|z l IH]; cbn.
  - intuition.
  - destruct (key z <? key x)%Z; cbn; [intuition|].
    rewrite IH. intuition.
Qed.


Lemma insert_desc_length {A : Type} (key : A -> Z) (x : A) (l : list A) :
  List.length (insert_desc key x l) = S (List.length l).
Proof.
  induction l as [|z l IH]; cbn; [reflexivity|].
  destruct (key z <? key x)%Z; cbn; [reflexivity|]. rewrite IH. reflexivity.
Qed.

Lemma order_by_desc_length {A : Type} (key : A -> Z) (l : list A) :
  List.length (order_by_desc key l) = List.length l.
Proof.
  induction l as [|x l IH]; cbn; [reflexivity|].
  unfold order_by_desc in IH. rewrite insert_desc_length, IH. reflexivity.
Qed.

Lemma insert_desc_sorted {A : Type} (key : A -> Z) (x : A) (l : list A) :
  StronglySorted (newer_first key) l ->
  StronglySorted (newer_first key) (insert_desc key x l).
Proof.
  induction 1 as [|z l Hl IH Hz]; cbn.
  - constructor; constructor.
  - destruct (key z <? key x)%Z eqn:E.
    + apply Z.ltb_lt in E. constructor; [constructor; assumption|].
      constructor; [unfold newer_first; lia|].
      rewrite Forall_forall in *. intros y Hy.
      specialize (Hz y Hy). unfold newer_first in *. lia.
    + apply Z.ltb_ge in E. constructor; [exact IH|].
      rewrite Forall_forall in *. intros y Hy.
      apply insert_desc_In in Hy. destruct Hy as [->|Hy].
      * unfold newer_first. lia.
      * apply Hz, Hy.
Qed.

Lemma order_by_desc_sorted {A : Type} (key : A -> Z) (l : list A) :
  StronglySorted (newer_first key) (order_by_desc key l).
Proof.
  induction l as [|x l IH]; cbn; [constructor|].
  apply insert_desc_sorted, IH.
Qed.

Lemma In_firstn {A : Type} (n : nat) (x : A) (l : list A) :
  In x (firstn n l) -> In x l.
Proof.
  revert l. induction n as [|n IH]; intros [|y l]; cbn; try tauto.
  intros [->|H]; [left; reflexivity | right; apply IH, H].
Qed.

Lemma firstn_sorted {A : Type} (R : A -> A -> Prop) (n : nat) (l : list A) :
  StronglySorted R l -> StronglySorted R (firstn n l).
Proof.
  intro H. revert n. induction H as [|x l Hl IH Hx]; intros [|n]; cbn;
    try constructor.
  - apply IH.
  - rewrite Forall_forall in *. intros y Hy. apply Hx, (In_firstn n), Hy.
Qed.

Lemma insert_desc_perm {A : Type} (key : A -> Z) (x : A) (l : list A) :
  Permutation (insert_desc key x l) (x :: l).
Proof.
  induction l as [|z l IH]; cbn; [reflexivity|].
  destruct (key z <? key x)%Z; [reflexivity|].
  rewrite IH. apply perm_swap.
Qed.

Lemma order_by_desc_perm {A : Type} (key : A -> Z) (l : list A) :
  Permutation (order_by_desc key l) l.
Proof.
  induction l as [|x l IH]; cbn; [reflexivity|].
  unfold order_by_desc in IH. rewrite insert_desc_perm. constructor. exact IH.
Qed.

Lemma firstn_before_skipn {A : Type} (R : A -> A -> Prop) (n : nat) (l : list A) :
  StronglySorted R l ->
  forall a b, In a (firstn n l) -> In b (skipn n l) -> R a b.
Proof.
  intro H. revert n.
  induction H as [|x l Hl IH Hx]; intros [|n] a b; cbn; try tauto.
  intros [<-|Ha] Hb.
  - rewrite Forall_forall in Hx. apply Hx.
    rewrite <- (firstn_skipn n l). apply in_or_app. right. exact Hb.
  - apply (IH n); assumption.
Qed.

Lemma selected_In (db : DB) (service_id : option Z) (d : Deployment) :
  In d (GateAudit.selected db service_id)
  <-> In d (deployments db)
      /\ forall id, service_id = Some id -> id <> 0%Z -> dep_service_id d = id.
Proof.
  unfold GateAudit.selected.
  destruct service_id as [id|]; [|split; [split; [assumption | discriminate] | tauto]].
  destruct (id =? 0)%Z eqn:E.
  - apply Z.eqb_eq in E. split; [|tauto].
    intro H. split; [exact H|]. intros id' Hid Hne. injection Hid as <-. contradiction.
  - apply Z.eqb_neq in E. rewrite filter_In, Z.eqb_eq. split.
    + intros [Hin Hs]. split; [exact Hin|]. intros id' Hid _. injection Hid as <-.
      exact Hs.
    + intros [Hin Hs]. split; [exact Hin|]. apply Hs; [reflexivity | exact E].
Qed.

(** [get_deployment_history] selects the rows of the table, or for a
    service id other than 0 the rows of that service; the id 0 selects
    like no id at all.  A call that returns gives rows of the selection,
    newest first: the [limit] newest of them for a limit that is not
    negative, all of them for a negative one, which sets no bound.  The
    call returns when the limit and the filtering id are 64-bit
    integers. *)
Theorem deployment_history_is_newest_first (db : DB) (service_id : option Z)
        (limit : Z) :
  (forall rows,
      GateAudit.get_deployment_history db service_id limit = Ok rows ->
      List.length rows
      = (if (limit <? 0)%Z then List.length (GateAudit.selected db service_id)
         else Nat.min (Z.to_nat limit)
                      (List.length (GateAudit.selected db service_id)))
      /\ StronglySorted (newer_first dep_requested_at) rows
      /\ exists older,
          Permutation (rows ++ older) (GateAudit.selected db service_id)
          /\ forall d d', In d rows -> In d' older ->
                          (dep_requested_at d' <= dep_requested_at d)%Z)
  /\ (forall d,
         In d (GateAudit.selected db service_id)
         <-> In d (deployments db)
             /\ forall id, service_id = Some id -> id <> 0%Z -> dep_service_id d = id)
  /\ (is_int64 limit = true ->
      (forall id, service_id = Some id -> is_int64 id = true) ->
      exists rows, GateAudit.get_deployment_history db service_id limit = Ok rows)
  /\ GateAudit.get_deployment_history db (Some 0%Z) limit
     = GateAudit.get_deployment_history db None limit.
Proof.
  split; [|split; [apply selected_In | split; [|reflexivity]]].
  - intros rows. unfold GateAudit.get_deployment_history.
    destruct (match service_id with
              | Some id => if (id =? 0)%Z then Ok id else sqlite_int id
              | None => Ok 0%Z
              end); [|discriminate].
    cbn [bind]. destruct (sqlite_int limit); [|discriminate].
    cbn [bind]. intro H. injection H as <-.
    unfold GateAudit.sql_limit.
    set (sel := GateAudit.selected db service_id).
    destruct (limit <? 0)%Z.
    + split; [apply order_by_desc_length|].
      split; [apply order_by_desc_sorted|].
      exists []. rewrite app_nil_r. split; [apply order_by_desc_perm|].
      intros d d' _ [].
    + split; [rewrite length_firstn, order_by_desc_length; reflexivity|].
      split; [apply firstn_sorted, order_by_desc_sorted|].
      exists (skipn (Z.to_nat limit) (order_by_desc dep_requested_at sel)).
      rewrite firstn_skipn. split; [apply order_by_desc_perm|].
      intros d d' Hd Hd'.
      apply (firstn_before_skipn (newer_first dep_requested_at) (Z.to_nat limit)
               (order_by_desc dep_requested_at sel) (order_by_desc_sorted _ _)
               d d' Hd Hd').
  - intros Hl Hid. unfold GateAudit.get_deployment_history.
    rewrite (sqlite_int_fits _ Hl).
    destruct service_id as [id|]; [|eexists; reflexivity].
    destruct (id =? 0)%Z; [eexists; reflexivity|].
    rewrite (sqlite_int_fits _ (Hid id eq_refl)). eexists. reflexivity.
Qed.

Lemma deployment_history_is_newest_first_witness :
  exists d,
    GateAudit.get_deployment_history Examples.released (Some 1%Z) 1 = Ok [d]
    /\ dep_deployment_id d = "deploy-124"
    /\ forall d', In d' (deployments Examples.released) ->
                  (dep_requested_at d' <= dep_requested_at d)%Z.
Proof.
  destruct (proj1 (proj2 (proj2 (deployment_history_is_newest_first
                                   Examples.released (Some 1%Z) 1))))
    as [rows Hrows]; [reflexivity | intros id H; injection H as <-; reflexivity |].
  destruct (proj1 (deployment_history_is_newest_first Examples.released (Some 1%Z) 1)
              rows Hrows) as (Hlen & _ & older & Hperm & Hnew).
  destruct rows as [|d [|d2 rows]]; try discriminate Hlen.
  exists d. split; [exact Hrows|].
  split; [vm_compute in Hrows; injection Hrows as <-; reflexivity|].
  intros d' Hd'.
  assert (Hsel : In d' (GateAudit.selected Examples.released (Some 1%Z))).
  { cbn. cbn in Hd'. destruct Hd' as [<-|[<-|[]]]; cbn; auto. }
  apply (Permutation_in _ (Permutation_sym Hperm)) in Hsel.
  apply in_app_or in Hsel. destruct Hsel as [[<-|[]]|Hold]; [lia|].
  apply Hnew; [left; reflexivity | exact Hold].
Defined.




(** ** The forecast formula *)

Lemma exhaustion_time_decreases (now : Z) (B B' R : Q) (W : Z) :
  0 < B -> B <= B' -> 0 < R -> (0 <= W)%Z ->
  exists t t',
    fst (ForecastModule.exhaustion now (Finite B) R W) = Some t
    /\ fst (ForecastModule.exhaustion now (Finite B') R W) = Some t'
    /\ 0 <= t' /\ t' <= t.
Proof.
  intros HB HBB HR HW.
  assert (HB' : 0 < B') by lra.
  unfold ForecastModule.exhaustion. cbn [np_gtb np_quot].
  rewrite (proj2 (Qgtb_true B 0) HB), (proj2 (Qgtb_true B' 0) HB'),
    (proj2 (Qgtb_true R 0) HR).
  cbn [andb fst]. eexists. eexists. split; [reflexivity|]. split; [reflexivity|].
  assert (HW0 : 0 <= inject_Z W)
    by (change 0 with (inject_Z 0); rewrite <- Zle_Qle; exact HW).
  set (X := R / 100 * inject_Z W).
  assert (HX : 0 <= X).
  { subst X. unfold Qdiv. change (/ 100) with (1 # 100). nra. }
  assert (Hq' : 0 <= X / B').
  { apply Qle_shift_div_l; [exact HB' | lra]. }
  assert (Hq : X / B' <= X / B).
  { apply Qle_shift_div_l; [exact HB|].
    assert (E : X / B' * B' == X) by (field; lra).
    nra. }
  split.
  - apply (Qle_trans _ (py_round 0 2)); [vm_compute; discriminate|].
    apply py_round_mono, Hq'.
  - apply py_round_mono, Hq.
Qed.

(** The time to exhaustion is never negative and never grows with the
    burn rate: for a remaining budget above 0 and a window that is not
    negative, a larger positive burn rate gives a time that is at most
    the one of the smaller. *)
Theorem time_to_exhaustion_decreases_with_burn_rate (now : Z) (B B' R : Q) (W : Z) :
  0 < B -> B <= B' -> 0 < R -> (0 <= W)%Z ->
  exists t t',
    fst (ForecastModule.exhaustion now (Finite B) R W) = Some t
    /\ fst (ForecastModule.exhaustion now (Finite B') R W) = Some t'
    /\ 0 <= t' /\ t' <= t.
Proof. apply exhaustion_time_decreases. Qed.

Lemma time_to_exhaustion_decreases_with_burn_rate_witness :
  exists t t',
    fst (ForecastModule.exhaustion 0 (Finite 2) 50 720) = Some t
    /\ fst (ForecastModule.exhaustion 0 (Finite 4) 50 720) = Some t'
    /\ 0 <= t' /\ t' <= t.
Proof.
  apply (time_to_exhaustion_decreases_with_burn_rate 0 2 4 50 720);
    [reflexivity | vm_compute; discriminate | reflexivity | lia].
Defined.

Lemma exhaustion_no_budget (now : Z) (rate : npfloat) (R : Q) (W : Z) :
  R <= 0 -> fst (ForecastModule.exhaustion now rate R W) = Some 0.
Proof.
  intro HR. unfold ForecastModule.exhaustion.
  rewrite (proj2 (Qgtb_false R 0) HR), andb_false_r.
  rewrite (proj2 (Qleb_true R 0) HR). reflexivity.
Qed.

Lemma exhaustion_some_inv (now : Z) (B R : Q) (W : Z) (t : Q) :
  fst (ForecastModule.exhaustion now (Finite B) R W) = Some t ->
  R <= 0 \/ (0 < B /\ 0 < R).
Proof.
  unfold ForecastModule.exhaustion. cbn [np_gtb].
  destruct (Qgtb B 0) eqn:EB; destruct (Qgtb R 0) eqn:ER; cbn [andb];
    reflect_cmp.
  - intros _. right. split; assumption.
  - intros _. left. assumption.
  - destruct (Qleb R 0) eqn:E; [|discriminate]. reflect_cmp. intros _. left. assumption.
  - intros _. left. assumption.
Qed.

(** Using the trend never postpones the forecast of a service whose SLO
    window is not negative: whenever [forecast_exhaustion] without the
    trend gives a time to exhaustion, the same call with the trend gives
    one too, and it is not later.  Both calls are taken with the same
    readings of the clock. *)
Theorem trend_never_postpones_exhaustion (settings : Settings) (db : DB)
        (clock : Clock) (service_id : Z) (with_trend without_trend : ForecastResponse)
        (t0 : Q) :
  ForecastModule.forecast_exhaustion settings db clock service_id true
  = Ok with_trend ->
  ForecastModule.forecast_exhaustion settings db clock service_id false
  = Ok without_trend ->
  (0 <= ForecastModule.slo_window_hours db service_id)%Z ->
  fr_time_to_exhaustion_hours without_trend = Some t0 ->
  exists t1, fr_time_to_exhaustion_hours with_trend = Some t1 /\ t1 <= t0.
Proof.
  intros H1 H0 HW Ht0.
  destruct (forecast_exhaustion_time _ _ _ _ _ _ H1)
    as (burn & Hb & _ & _ & _ & T1 & _).
  destruct (forecast_exhaustion_time _ _ _ _ _ _ H0)
    as (burn' & Hb' & _ & _ & _ & T0 & _).
  rewrite Hb in Hb'. injection Hb' as <-.
  rewrite T1. rewrite T0 in Ht0. clear T0 T1 H0 H1.
  cbn [ForecastModule.burn_rate_for_forecast] in Ht0.
  set (B := brc_burn_rate burn) in *.
  set (R := brc_error_budget_remaining burn) in *.
  set (W := ForecastModule.slo_window_hours db service_id) in *.
  set (now := clock 2%nat) in *.
  unfold ForecastModule.burn_rate_for_forecast.
  destruct (ForecastModule._calculate_trend db (clock 1%nat) service_id) as [t|];
    [|exists t0; split; [exact Ht0 | apply Qle_refl]].
  destruct (np_gtb (td_slope t) 0) eqn:Es;
    [|exists t0; split; [exact Ht0 | apply Qle_refl]].
  destruct (exhaustion_some_inv _ _ _ _ _ Ht0) as [HR | [HB HR]].
  - rewrite exhaustion_no_budget in Ht0 by exact HR. injection Ht0 as <-.
    exists 0. split; [apply exhaustion_no_budget, HR | apply Qle_refl].
  - destruct (td_slope t) as [m| | |]; cbn [np_gtb np_add] in *; try discriminate.
    + apply Qgtb_true in Es.
      destruct (exhaustion_time_decreases now B (B + m) R W HB ltac:(lra) HR HW)
        as (a & b & Ha & Hb' & _ & Hle).
      rewrite Ha in Ht0. injection Ht0 as <-.
      exists b. split; assumption.
    + destruct (exhaustion_time_decreases now B B R W HB ltac:(lra) HR HW)
        as (a & b & Ha & Hb2 & H0 & _).
      assert (Eab : a = b) by congruence. subst b.
      rewrite Ha in Ht0. injection Ht0 as <-.
      unfold ForecastModule.exhaustion. cbn [np_gtb np_quot].
      rewrite (proj2 (Qgtb_true R 0) HR). cbn [andb fst].
      eexists. split; [reflexivity|].
      apply (Qle_trans _ 0); [vm_compute; discriminate | exact H0].
Qed.

Lemma trend_never_postpones_exhaustion_witness :
  exists t1,
    t1 <= 72000 # 100
    /\ exists with_trend,
        ForecastModule.forecast_exhaustion default_settings Examples.steep_rise
          (always 7200) 1 true = Ok with_trend
        /\ fr_time_to_exhaustion_hours with_trend = Some t1.
Proof.
  destruct (ForecastModule.forecast_exhaustion default_settings Examples.steep_rise
              (always 7200) 1 true) as [f1|e] eqn:E1; [|vm_compute in E1; discriminate].
  destruct (ForecastModule.forecast_exhaustion default_settings Examples.steep_rise
              (always 7200) 1 false) as [f0|e] eqn:E0; [|vm_compute in E0; discriminate].
  assert (Ht0 : fr_time_to_exhaustion_hours f0 = Some (72000 # 100))
    by (vm_compute in E0; injection E0 as <-; reflexivity).
  destruct (trend_never_postpones_exhaustion default_settings Examples.steep_rise
              (always 7200) 1 f1 f0 (72000 # 100) E1 E0) as (t1 & Ht1 & Hle).
  - vm_compute. discriminate.
  - exact Ht0.
  - exists t1. split; [exact Hle|]. exists f1. split; [reflexivity | exact Ht1].
Defined.

(** ** The scan over all services *)

Lemma collect_forecasts_spec (settings : Settings) (db : DB) (svcs : list Service) :
  forall clocks : nat -> Clock,
    (forall f,
        In f (ForecastScan.collect_forecasts settings db clocks svcs)
        <-> exists k s,
            nth_error svcs k = Some s
            /\ ForecastModule.forecast_exhaustion settings db (clocks k) (svc_id s) true
               = Ok f)
    /\ ((forall k s,
            nth_error svcs k = Some s ->
            exists f, ForecastModule.forecast_exhaustion settings db (clocks k)
                                                         (svc_id s) true = Ok f) ->
        map fr_service_id (ForecastScan.collect_forecasts settings db clocks svcs)
        = map svc_id svcs).
Proof.
  induction svcs as [|s svcs IH]; intro clocks.
  - split.
    + intro f. split; [intros [] | intros ([|k] & s & H & _); discriminate H].
    + reflexivity.
  - destruct (IH (fun k => clocks (S k))) as [IHin IHall].
    cbn [ForecastScan.collect_forecasts]. split.
    + intro f.
      destruct (ForecastModule.forecast_exhaustion settings db (clocks 0%nat)
                  (svc_id s) true) as [f0|e] eqn:E0.
      * split.
        -- intros [<-|Hin].
           ++ exists 0%nat, s. split; [reflexivity | exact E0].
           ++ apply IHin in Hin. destruct Hin as (k & s' & Hk & Hf).
              exists (S k), s'. split; assumption.
        -- intros ([|k] & s' & Hk & Hf).
           ++ injection Hk as <-. left. congruence.
           ++ right. apply IHin. exists k, s'. split; assumption.
      * split.
        -- intro Hin. apply IHin in Hin. destruct Hin as (k & s' & Hk & Hf).
           exists (S k), s'. split; assumption.
        -- intros ([|k] & s' & Hk & Hf).
           ++ injection Hk as <-. congruence.
           ++ apply IHin. exists k, s'. split; assumption.
    + intro Hall.
      destruct (Hall 0%nat s eq_refl) as [f0 E0]. rewrite E0. cbn [map].
      destruct (forecast_exhaustion_time _ _ _ _ _ _ E0) as (_ & _ & _ & _ & _ & _ & ->).
      rewrite IHall; [reflexivity|].
      intros k s' Hk. apply (Hall (S k) s' Hk).
Qed.

(** [get_all_forecasts] lists the forecasts of the active services that
    return, and no others: a forecast is listed exactly when it is what
    [forecast_exhaustion] returns for an active service, and when the
    forecast of every active service returns the list holds one forecast
    for each of them, in the order of the table.  A service whose
    forecast raises is left out. *)
Theorem all_forecasts_cover_the_active_services (settings : Settings) (db : DB)
        (clocks : nat -> Clock) :
  let active := filter svc_is_active (services db) in
  (forall f,
      In f (ForecastScan.get_all_forecasts settings db clocks)
      <-> exists k s,
          nth_error active k = Some s
          /\ ForecastModule.forecast_exhaustion settings db (clocks k) (svc_id s) true
             = Ok f)
  /\ ((forall k s,
          nth_error active k = Some s ->
          exists f, ForecastModule.forecast_exhaustion settings db (clocks k)
                                                       (svc_id s) true = Ok f) ->
      map fr_service_id (ForecastScan.get_all_forecasts settings db clocks)
      = map svc_id active).
Proof.
  cbv zeta. unfold ForecastScan.get_all_forecasts. apply collect_forecasts_spec.
Qed.

Lemma all_forecasts_cover_the_active_services_witness :
  map fr_service_id
      (ForecastScan.get_all_forecasts default_settings Examples.burning
                                      (fun _ => always 7200))
  = [1%Z]
  /\ ForecastScan.get_all_forecasts default_settings Examples.heavy_traffic
                                    (fun _ => always 7200) = [].
Proof.
  split.
  - apply (proj2 (all_forecasts_cover_the_active_services default_settings
                    Examples.burning (fun _ => always 7200))).
    intros [|[|k]] s H; try discriminate H.
    injection H as <-. eexists. vm_compute. reflexivity.
  - vm_compute. reflexivity.
Defined.

Lemma min_by_key_spec (best : ForecastResponse) (rest : list ForecastResponse) :
  let m := ForecastScan.min_by_key best rest in
  In m (best :: rest)
  /\ forall g, In g (best :: rest) ->
               ForecastScan.exhaustion_key m <= ForecastScan.exhaustion_key g.
Proof.
  revert best. induction rest as [|f rest IH]; intro best; cbn [ForecastScan.min_by_key].
  - split; [left; reflexivity|]. intros g [<-|[]]. apply Qle_refl.
  - cbv zeta in IH.
    destruct (Qltb (ForecastScan.exhaustion_key f) (ForecastScan.exhaustion_key best))
      eqn:E.
    + apply Qltb_true in E. destruct (IH f) as [Hin Hmin]. split.
      * destruct Hin as [<-|Hin]; [right; left; reflexivity | right; right; exact Hin].
      * intros g [<-|[<-|Hg]].
        -- apply (Qle_trans _ (ForecastScan.exhaustion_key f));
             [apply Hmin; left; reflexivity | lra].
        -- apply Hmin. left. reflexivity.
        -- apply Hmin. right. exact Hg.
    + assert (E' : ForecastScan.exhaustion_key best <= ForecastScan.exhaustion_key f).
      { destruct (Qlt_le_dec (ForecastScan.exhaustion_key f)
                             (ForecastScan.exhaustion_key best)) as [Hlt|Hle];
          [|exact Hle].
        apply Qltb_true in Hlt. congruence. }
      destruct (IH best) as [Hin Hmin]. split.
      * destruct Hin as [<-|Hin]; [left; reflexivity | right; right; exact Hin].
      * intros g [<-|[<-|Hg]].
        -- apply Hmin. left. reflexivity.
        -- apply (Qle_trans _ (ForecastScan.exhaustion_key best));
             [apply Hmin; left; reflexivity | exact E'].
        -- apply Hmin. right. exact Hg.
Qed.

(** [get_nearest_exhaustion] answers with nothing exactly when no
    forecast gives a time to exhaustion under 720 hours; otherwise it
    reports a forecast of an active service whose time is under 720 hours
    and at most the time of every other such forecast. *)
Theorem nearest_exhaustion_is_the_minimum (settings : Settings) (db : DB)
        (clocks : nat -> Clock) :
  match ForecastScan.get_nearest_exhaustion settings db clocks with
  | None =>
      forall f, In f (ForecastScan.get_all_forecasts settings db clocks) ->
                ForecastScan.at_risk f = false
  | Some nearest =>
      exists f t,
        In f (ForecastScan.get_all_forecasts settings db clocks)
        /\ fr_time_to_exhaustion_hours f = Some t
        /\ t < 720
        /\ ne_service_name nearest = fr_service_name f
        /\ ne_time_to_exhaustion_hours nearest = Some t
        /\ ne_projected_exhaustion_time nearest = fr_projected_exhaustion_time f
        /\ ne_current_burn_rate nearest = fr_current_burn_rate f
        /\ ne_budget_remaining nearest = fr_error_budget_remaining f
        /\ forall g t',
            In g (ForecastScan.get_all_forecasts settings db clocks) ->
            fr_time_to_exhaustion_hours g = Some t' -> t' < 720 -> t <= t'
  end.
Proof.
  unfold ForecastScan.get_nearest_exhaustion.
  destruct (filter ForecastScan.at_risk (ForecastScan.get_all_forecasts settings db clocks))
    as [|f rest] eqn:E.
  - intros f Hf.
    destruct (ForecastScan.at_risk f) eqn:Ef; [|reflexivity].
    assert (Hin : In f (filter ForecastScan.at_risk
                          (ForecastScan.get_all_forecasts settings db clocks)))
      by (apply filter_In; split; assumption).
    rewrite E in Hin. destruct Hin.
  - destruct (min_by_key_spec f rest) as [Hin Hmin]. cbv zeta in Hin, Hmin.
    set (m := ForecastScan.min_by_key f rest) in *.
    rewrite <- E in Hin. apply filter_In in Hin. destruct Hin as [Hall Hrisk].
    unfold ForecastScan.at_risk in Hrisk.
    destruct (fr_time_to_exhaustion_hours m) as [t|] eqn:Et; [|discriminate].
    apply Qltb_true in Hrisk.
    exists m, t. cbn. repeat (split; [first [assumption | reflexivity]|]).
    intros g t' Hg Ht' Hlt.
    assert (Hgin : In g (f :: rest)).
    { rewrite <- E. apply filter_In. split; [exact Hg|].
      unfold ForecastScan.at_risk. rewrite Ht'. apply Qltb_true, Hlt. }
    specialize (Hmin g Hgin). unfold ForecastScan.exhaustion_key in Hmin.
    rewrite Et, Ht' in Hmin. exact Hmin.
Qed.

(** ** SLO computations *)

Lemma py_round_between (a b : Z) (q : Q) (n : nat) :
  inject_Z a <= q <= inject_Z b ->
  inject_Z a <= py_round q n <= inject_Z b.
Proof.
  intros [Ha Hb]. unfold py_round.
  set (s := scale n).
  assert (Hs : 0 < inject_Z (Zpos s)) by reflexivity.
  destruct (round_half_even_between (a * Zpos s) (b * Zpos s) (q * inject_Z (Zpos s)))
    as [Hlo Hhi].
  - rewrite inject_Z_mult. apply Qmult_le_compat_r; [exact Ha | apply Qlt_le_weak, Hs].
  - rewrite inject_Z_mult. apply Qmult_le_compat_r; [exact Hb | apply Qlt_le_weak, Hs].
  - unfold Qle. cbn [Qnum Qden inject_Z]. lia.
Qed.

Lemma py_round_integer (z : Z) (n : nat) : py_round (inject_Z z) n == inject_Z z.
Proof.
  apply Qle_antisym; apply (py_round_between z z); split; apply Qle_refl.
Qed.

Lemma slo_shape (db : DB) (now : Z) (service : Service) (slo_target : SLOTarget) :
  let c := SLOComputationEngine._compute_single_slo db now service slo_target in
  let T := or_zero (fst (SLOComputationEngine.slo_totals db now service slo_target)) in
  let E := or_zero (snd (SLOComputationEngine.slo_totals db now service slo_target)) in
  let budget := if (0 <? T)%Z
                then inject_Z T * (1 - slo_target_value slo_target / 100) else 0 in
  sc_is_meeting_slo c
  = Qgeb (if (0 <? T)%Z then inject_Z (T - E) / inject_Z T * 100 else 100)
         (slo_target_value slo_target)
  /\ sc_consumed_percentage c
     = py_round (if Qgtb budget 0 then Qmin (inject_Z E / budget * 100) 100 else 0) 2
  /\ sc_remaining_percentage c
     = py_round (if Qgtb budget 0
                 then Qmax (100 - Qmin (inject_Z E / budget * 100) 100) 0
                 else 100) 2.
Proof.
  cbv zeta. unfold SLOComputationEngine._compute_single_slo.
  destruct (SLOComputationEngine.slo_totals db now service slo_target) as [total errors].
  cbn [fst snd].
  match goal with
  | |- context [Qgtb ?b 0] => destruct (Qgtb b 0)
  end; cbn; repeat split.
Qed.

(** For a target below 100 an SLO that is not met always shows its
    budget as fully consumed, with nothing remaining.  A target of
    exactly 100 leaves no budget to account: whatever the errors are, the
    computation reports nothing consumed and everything remaining. *)
Theorem missed_slo_shows_an_exhausted_budget (db : DB) (now : Z) (service : Service)
        (slo_target : SLOTarget) :
  let c := SLOComputationEngine._compute_single_slo db now service slo_target in
  (slo_target_value slo_target < 100 ->
   sc_is_meeting_slo c = false ->
   sc_consumed_percentage c == 100 /\ sc_remaining_percentage c == 0)
  /\ (slo_target_value slo_target == 100 ->
      sc_consumed_percentage c == 0 /\ sc_remaining_percentage c == 100).
Proof.
  cbv zeta.
  destruct (slo_shape db now service slo_target) as (Hm & Hc & Hr). cbv zeta in *.
  rewrite Hm, Hc, Hr. clear Hm Hc Hr.
  set (T := or_zero (fst (SLOComputationEngine.slo_totals db now service slo_target))).
  set (E := or_zero (snd (SLOComputationEngine.slo_totals db now service slo_target))).
  set (tv := slo_target_value slo_target).
  split.
  - intros Htv Hmiss. apply Qgeb_false in Hmiss.
    destruct (0 <? T)%Z eqn:Et; [|exfalso; lra].
    apply Z.ltb_lt in Et.
    assert (HT : 0 < inject_Z T)
      by (change 0 with (inject_Z 0); rewrite <- Zlt_Qlt; exact Et).
    assert (Hb : 0 < inject_Z T * (1 - tv / 100)).
    { unfold Qdiv. change (/ 100) with (1 # 100). nra. }
    rewrite (proj2 (Qgtb_true _ 0) Hb).
    assert (Hover : 100 <= inject_Z E / (inject_Z T * (1 - tv / 100)) * 100).
    { assert (Hq : 1 <= inject_Z E / (inject_Z T * (1 - tv / 100))).
      { apply Qle_shift_div_l; [exact Hb|].
        assert (Hx : inject_Z (T - E) / inject_Z T * inject_Z T == inject_Z (T - E))
          by (field; lra).
        unfold Zminus in Hx. rewrite inject_Z_plus, inject_Z_opp in Hx.
        unfold Zminus in Hmiss. rewrite inject_Z_plus, inject_Z_opp in Hmiss.
        unfold Qdiv in *. change (/ 100) with (1 # 100).
        set (r := (inject_Z T + - inject_Z E) * / inject_Z T) in *.
        nra. }
      lra. }
    assert (Hmin : Qmin (inject_Z E / (inject_Z T * (1 - tv / 100)) * 100) 100 == 100)
      by (apply Q.min_r; exact Hover).
    assert (Hmax : Qmax (100 - Qmin (inject_Z E / (inject_Z T * (1 - tv / 100)) * 100)
                                    100) 0 == 0)
      by (apply Q.max_r; rewrite Hmin; lra).
    rewrite (py_round_comp _ _ 2 Hmin), (py_round_comp _ _ 2 Hmax).
    split; reflexivity.
  - intros Htv.
    assert (Hb : (if (0 <? T)%Z then inject_Z T * (1 - tv / 100) else 0) <= 0).
    { destruct (0 <? T)%Z; [|lra]. rewrite Htv.
      unfold Qdiv. change (/ 100) with (1 # 100). lra. }
    rewrite (proj2 (Qgtb_false _ 0) Hb). split; reflexivity.
Qed.

Lemma missed_slo_shows_an_exhausted_budget_witness :
  let target := {| slo_service_id := 1; slo_name := "availability";
                   slo_target_value := 999 # 10; slo_window_days := 30;
                   slo_burn_rate_threshold := 1; slo_critical_burn_rate := 2;
                   slo_is_active := true |} in
  let c := SLOComputationEngine._compute_single_slo Examples.burning 7200
             Examples.api_gateway target in
  sc_consumed_percentage c == 100 /\ sc_remaining_percentage c == 0.
Proof.
  cbv zeta.
  apply (proj1 (missed_slo_shows_an_exhausted_budget Examples.burning 7200
                  Examples.api_gateway
                  {| slo_service_id := 1; slo_name := "availability";
                     slo_target_value := 999 # 10; slo_window_days := 30;
                     slo_burn_rate_threshold := 1; slo_critical_burn_rate := 2;
                     slo_is_active := true |})); reflexivity.
Defined.

Lemma sums_of_well_formed_rows (rows : list Metric) :
  (forall m, In m rows -> (0 <= m_error_count m <= m_total_requests m)%Z) ->
  (0 <= fold_right Z.add 0%Z (map m_error_count rows)
   <= fold_right Z.add 0%Z (map m_total_requests rows))%Z
  /\ (fold_right Z.add 0%Z (map m_total_requests rows) = 0%Z ->
      forall m, In m rows -> m_total_requests m = 0%Z).
Proof.
  induction rows as [|r rows IH]; intro H; cbn.
  - split; [lia|]. intros _ m [].
  - destruct IH as [IH1 IH2]; [intros; apply H; right; assumption|].
    pose proof (H r (or_introl eq_refl)).
    split; [lia|]. intros Hz m [<-|Hm]; [lia|]. apply IH2; [lia | exact Hm].
Qed.

Lemma or_zero_sql_sum (xs : list Z) : or_zero (sql_sum xs) = fold_right Z.add 0%Z xs.
Proof. destruct xs; reflexivity. Qed.

(** Over a table whose rows have no more errors than requests and no
    negative error count, the availability of a window is a percentage
    between 0 and 100, and it is absent only when no row of the window
    carries a request. *)
Theorem window_availability_is_a_percentage (db : DB)
        (now service_id window_minutes : Z) :
  (forall m, In m (metrics db) -> (0 <= m_error_count m <= m_total_requests m)%Z) ->
  match SLOComputationEngine._compute_window_availability db now service_id
          window_minutes with
  | Some a => 0 <= a <= 100
  | None =>
      forall m, In m (metrics_in_window db service_id
                        (now - minutes window_minutes) now) ->
                m_total_requests m = 0%Z
  end.
Proof.
  intro H. unfold SLOComputationEngine._compute_window_availability.
  set (rows := metrics_in_window db service_id (now - minutes window_minutes) now).
  destruct (sums_of_well_formed_rows rows) as [[He Het] Hz].
  { intros m Hm. apply H. unfold rows, metrics_in_window in Hm.
    apply filter_In in Hm. tauto. }
  rewrite !or_zero_sql_sum.
  set (T := fold_right Z.add 0%Z (map m_total_requests rows)) in *.
  set (E := fold_right Z.add 0%Z (map m_error_count rows)) in *.
  destruct (T =? 0)%Z eqn:Et.
  - apply Z.eqb_eq in Et. exact (Hz Et).
  - apply Z.eqb_neq in Et.
    apply (py_round_between 0 100).
    assert (HT : 0 < inject_Z T)
      by (change 0 with (inject_Z 0); rewrite <- Zlt_Qlt; lia).
    assert (H0 : 0 <= inject_Z (T - E))
      by (change 0 with (inject_Z 0); rewrite <- Zle_Qle; lia).
    assert (H1 : inject_Z (T - E) <= inject_Z T) by (rewrite <- Zle_Qle; lia).
    change (inject_Z 0) with 0. change (inject_Z 100) with 100.
    assert (Hq0 : 0 <= inject_Z (T - E) / inject_Z T).
    { apply Qle_shift_div_l; [exact HT | lra]. }
    assert (Hq1 : inject_Z (T - E) / inject_Z T <= 1).
    { apply Qle_shift_div_r; [exact HT | lra]. }
    split; lra.
Qed.

Lemma window_availability_is_a_percentage_witness :
  exists a,
    SLOComputationEngine._compute_window_availability Examples.burning 7200 1 60
    = Some a
    /\ 0 <= a <= 100.
Proof.
  pose proof (window_availability_is_a_percentage Examples.burning 7200 1 60) as H.
  destruct (SLOComputationEngine._compute_window_availability Examples.burning
              7200 1 60) as [a|] eqn:E; [|vm_compute in E; discriminate].
  exists a. split; [reflexivity|]. apply H.
  intros m [<-|[]]. cbn. lia.
Defined.

(** ** Compliance of all services *)

Lemma Qsum_le_all (k : Q) (l : list Q) :
  (forall x, In x l -> x <= k) ->
  ForecastModule.Qsum l <= inject_Z (Z.of_nat (List.length l)) * k.
Proof.
  induction l as [|x l IH]; intro H.
  - unfold Qle. cbn. lia.
  - cbn [ForecastModule.Qsum fold_right List.length].
    rewrite Nat2Z.inj_succ, <- Z.add_1_r, inject_Z_plus. change (inject_Z 1) with 1.
    unfold ForecastModule.Qsum in IH.
    specialize (IH (fun y Hy => H y (or_intror Hy))).
    pose proof (H x (or_introl eq_refl)). lra.
Qed.

Lemma Qsum_ge_all (k : Q) (l : list Q) :
  (forall x, In x l -> x <= k) ->
  inject_Z (Z.of_nat (List.length l)) * k <= ForecastModule.Qsum l ->
  forall x, In x l -> k <= x.
Proof.
  induction l as [|y l IH]; intros H Hs x Hx; [destruct Hx|].
  cbn [ForecastModule.Qsum fold_right List.length] in Hs.
  rewrite Nat2Z.inj_succ, <- Z.add_1_r, inject_Z_plus in Hs.
  change (inject_Z 1) with 1 in Hs.
  pose proof (Qsum_le_all k l (fun z Hz => H z (or_intror Hz))) as Hl.
  unfold ForecastModule.Qsum in Hl.
  pose proof (H y (or_introl eq_refl)) as Hy.
  destruct Hx as [<-|Hx]; [lra|].
  apply IH; [intros z Hz; apply H; right; exact Hz | unfold ForecastModule.Qsum; lra
            | exact Hx].
Qed.

Lemma mean_le (k : Q) (l : list Q) :
  l <> [] -> (forall x, In x l -> x <= k) ->
  ForecastModule.Qsum l / inject_Z (Z.of_nat (List.length l)) <= k.
Proof.
  intros Hne H.
  assert (Hn : 0 < inject_Z (Z.of_nat (List.length l))).
  { change 0 with (inject_Z 0). rewrite <- Zlt_Qlt.
    destruct l; [contradiction | cbn [List.length]; lia]. }
  apply Qle_shift_div_r; [exact Hn|].
  rewrite Qmult_comm. apply Qsum_le_all, H.
Qed.

Lemma compliances_bound (cs : list SLOComputation) (l : list Q) :
  SLOCompliance.compliances cs = Some l ->
  List.length l = List.length cs /\ forall x, In x l -> x <= 100.
Proof.
  revert l. induction cs as [|c cs IH]; intros l; cbn.
  - intro H. injection H as <-. split; [reflexivity|]. intros x [].
  - destruct (Qeq_bool (sc_target_value c) 0); [discriminate|].
    destruct (SLOCompliance.compliances cs) as [tail|]; [|discriminate].
    intro H. injection H as <-. destruct (IH tail eq_refl) as [Hlen Hb].
    split; [cbn; rewrite Hlen; reflexivity|].
    intros x [<-|Hx]; [apply Q.le_min_r | apply Hb, Hx].
Qed.

Lemma service_status_bound (db : DB) (now : Z) (service : Service) (st : SLOStatus) :
  SLOCompliance.service_status db now service = Some st ->
  st_overall_compliance st <= 100 /\ st_service_name st = svc_name service.
Proof.
  unfold SLOCompliance.service_status.
  destruct (SLOCompliance.compute_slo db now (svc_id service)) as [cs|]; [|discriminate].
  destruct cs as [|c cs].
  - intro H. injection H as <-. cbn. split; [vm_compute; discriminate | reflexivity].
  - destruct (SLOCompliance.compliances (c :: cs)) as [l|] eqn:E; [|discriminate].
    intro H. injection H as <-. cbn [st_overall_compliance st_service_name].
    split; [|reflexivity].
    destruct (compliances_bound _ _ E) as [Hlen Hb].
    apply (Qle_trans _ (py_round 100 2)); [|vm_compute; discriminate].
    apply py_round_mono, mean_le; [|exact Hb].
    intro Hnil. rewrite Hnil in Hlen. discriminate.
Qed.

Lemma collect_status_bound (db : DB) (now : Z) (svcs : list Service) :
  (forall st, In st (SLOCompliance.collect_status db now svcs) ->
              st_overall_compliance st <= 100)
  /\ (List.length (SLOCompliance.collect_status db now svcs) <= List.length svcs)%nat.
Proof.
  induction svcs as [|s svcs [IH1 IH2]]; cbn.
  - split; [intros st [] | lia].
  - destruct (SLOCompliance.service_status db now s) as [st0|] eqn:E.
    + split; [|cbn; lia].
      intros st [<-|Hst]; [apply (service_status_bound _ _ _ _ E) | apply IH1, Hst].
    + split; [exact IH1 | lia].
Qed.

Lemma filter_partition_length {A : Type} (p : A -> bool) (l : list A) :
  (List.length (filter p l) + List.length (filter (fun x => negb (p x)) l)
   = List.length l)%nat.
Proof.
  induction l as [|x l IH]; [reflexivity|].
  cbn. destruct (p x); cbn; lia.
Qed.

(** The global compliance accounts for every service that has a status:
    the services meeting their SLOs and the services at risk add up to
    the total, the total never exceeds the number of active services, and
    the global compliance is at most 100 (exactly 100 when no service has
    a status). *)
Theorem global_compliance_accounts_for_every_status (db : DB) (now : Z) :
  let g := SLOCompliance.compute_global_compliance db now in
  (gc_services_meeting_slo g + List.length (gc_services_at_risk g)
   = gc_total_services g)%nat
  /\ gc_total_services g
     = List.length (SLOCompliance.get_all_services_slo_status db now)
  /\ (gc_total_services g <= List.length (filter svc_is_active (services db)))%nat
  /\ gc_global_compliance g <= 100
  /\ (gc_total_services g = 0%nat -> gc_global_compliance g == 100).
Proof.
  cbv zeta. unfold SLOCompliance.compute_global_compliance.
  pose proof (collect_status_bound db now (filter svc_is_active (services db)))
    as [Hb Hlen].
  fold (SLOCompliance.get_all_services_slo_status db now) in Hb, Hlen.
  destruct (SLOCompliance.get_all_services_slo_status db now) as [|st sts] eqn:E.
  - cbn. repeat split; try lia; try reflexivity. vm_compute. discriminate.
  - cbn [List.length gc_services_meeting_slo gc_services_at_risk gc_total_services
         gc_global_compliance].
    rewrite length_map.
    split; [apply (filter_partition_length st_is_healthy (st :: sts))|].
    split; [reflexivity|]. split; [exact Hlen|]. split; [|discriminate].
    apply (Qle_trans _ (py_round 100 2)); [|vm_compute; discriminate].
    apply py_round_mono.
    pose proof (mean_le 100 (map st_overall_compliance (st :: sts))) as Hm.
    rewrite length_map in Hm. apply Hm; [discriminate|].
    intros x Hx. apply in_map_iff in Hx. destruct Hx as (s & <- & Hs).
    apply Hb, Hs.
Qed.

Lemma compliances_map (cs : list SLOComputation) :
  (forall c, In c cs -> 0 < sc_target_value c) ->
  SLOCompliance.compliances cs
  = Some (map (fun c => Qmin (sc_current_value c / sc_target_value c * 100) 100) cs).
Proof.
  induction cs as [|c cs IH]; intro H; [reflexivity|].
  cbn [SLOCompliance.compliances map].
  assert (Hc : Qeq_bool (sc_target_value c) 0 = false).
  { destruct (Qeq_bool (sc_target_value c) 0) eqn:E; [|reflexivity].
    apply Qeq_bool_iff in E. pose proof (H c (or_introl eq_refl)). lra. }
  rewrite Hc, IH; [reflexivity|]. intros c' Hc'. apply H. right. exact Hc'.
Qed.

(** A service that meets every one of its targets is reported healthy,
    with an overall compliance of 100: when each computation of its
    status shows a positive target and a current value that is not below
    it, [is_healthy] is true. *)
Theorem meeting_every_target_means_healthy (db : DB) (now : Z) (service : Service)
        (st : SLOStatus) :
  SLOCompliance.service_status db now service = Some st ->
  (forall c, In c (st_computations st) ->
             0 < sc_target_value c /\ sc_target_value c <= sc_current_value c) ->
  st_is_healthy st = true /\ st_overall_compliance st == 100.
Proof.
  unfold SLOCompliance.service_status.
  destruct (SLOCompliance.compute_slo db now (svc_id service)) as [cs|]; [|discriminate].
  destruct cs as [|c0 cs].
  - intro H. injection H as <-. cbn. intros _. split; reflexivity.
  - destruct (SLOCompliance.compliances (c0 :: cs)) as [l|] eqn:E; [|discriminate].
    intro H. injection H as <-.
    cbn [st_computations st_is_healthy st_overall_compliance].
    intro Hmet.
    rewrite (compliances_map _ (fun c Hc => proj1 (Hmet c Hc))) in E.
    injection E as <-.
    set (f := fun c => Qmin (sc_current_value c / sc_target_value c * 100) 100).
    assert (Hterm : forall c, In c (c0 :: cs) -> f c == 100).
    { intros c Hc. destruct (Hmet c Hc) as [Hpos Hle]. unfold f.
      assert (Hx : sc_current_value c / sc_target_value c * sc_target_value c
                   == sc_current_value c) by (field; lra).
      set (r := sc_current_value c / sc_target_value c) in *.
      apply Q.min_r. nra. }
    assert (Hs : forall l : list SLOComputation,
               (forall c, In c l -> f c == 100) ->
               ForecastModule.Qsum (map f l)
               == 100 * inject_Z (Z.of_nat (List.length (map f l)))).
    { induction l as [|c l IHl]; intro Hl.
      - reflexivity.
      - cbn [map ForecastModule.Qsum fold_right List.length].
        rewrite Nat2Z.inj_succ, <- Z.add_1_r, inject_Z_plus.
        change (inject_Z 1) with 1.
        unfold ForecastModule.Qsum in IHl.
        rewrite (IHl (fun c' Hc' => Hl c' (or_intror Hc'))).
        rewrite (Hl c (or_introl eq_refl)). ring. }
    assert (Hn : 0 < inject_Z (Z.of_nat (List.length (map f (c0 :: cs))))).
    { change 0 with (inject_Z 0). rewrite <- Zlt_Qlt. cbn [map List.length]. lia. }
    assert (Hmean : ForecastModule.Qsum (map f (c0 :: cs))
                    / inject_Z (Z.of_nat (List.length (map f (c0 :: cs)))) == 100).
    { rewrite (Hs (c0 :: cs) Hterm). field. lra. }
    set (m := ForecastModule.Qsum (map f (c0 :: cs))
              / inject_Z (Z.of_nat (List.length (map f (c0 :: cs))))) in *.
    split.
    + change (Qgeb m 100 = true). apply Qgeb_true. lra.
    + change (py_round m 2 == 100). apply Qle_antisym.
      * apply (Qle_trans _ (py_round 100 2));
          [apply py_round_mono; lra | vm_compute; discriminate].
      * apply (Qle_trans _ (py_round 100 2));
          [vm_compute; discriminate | apply py_round_mono; lra].
Qed.

Lemma meeting_every_target_means_healthy_witness :
  exists st,
    SLOCompliance.service_status calm_with_targets 7200 Examples.api_gateway
    = Some st
    /\ List.length (st_computations st) = 2%nat
    /\ st_is_healthy st = true.
Proof.
  destruct (SLOCompliance.service_status calm_with_targets 7200
              Examples.api_gateway) as [st|] eqn:E; [|vm_compute in E; discriminate].
  exists st. split; [reflexivity|].
  split; [vm_compute in E; injection E as <-; reflexivity|].
  apply (meeting_every_target_means_healthy _ _ _ _ E).
  vm_compute in E. injection E as <-.
  intros c [<-|[<-|[]]]; split; vm_compute; first [reflexivity | discriminate].
Defined.

(** ** Default targets *)

Lemma first_app {A : Type} (p : A -> bool) (l l' : list A) :
  first p (l ++ l') = match first p l with
                      | Some x => Some x
                      | None => first p l'
                      end.
Proof.
  unfold first. induction l as [|x l IH]; [reflexivity|].
  cbn. destruct (p x); [reflexivity | exact IH].
Qed.

Lemma default_targets_lookup (db : DB) (service_id service_id' : Z) :
  let p := fun t => (slo_service_id t =? service_id')%Z
                    && String.eqb (slo_name t) "availability" && slo_is_active t in
  let found :=
    first p (slo_targets (snd (SLOCompliance.create_default_slo_targets db service_id))) in
  match found with
  | Some t => (slo_target_value t, slo_critical_burn_rate t)
  | None => (999 # 10, 2)
  end
  = match first p (slo_targets db) with
    | Some t => (slo_target_value t, slo_critical_burn_rate t)
    | None => (999 # 10, 2)
    end
  /\ match found with
     | Some t => slo_window_days t
     | None => 30%Z
     end
     = match first p (slo_targets db) with
       | Some t => slo_window_days t
       | None => 30%Z
       end.
Proof.
  cbv zeta. unfold SLOCompliance.create_default_slo_targets. cbn [snd slo_targets].
  rewrite first_app.
  destruct (first _ (slo_targets db)); [split; reflexivity|].
  unfold SLOCompliance.default_targets, first. cbn.
  destruct (service_id =? service_id')%Z; split; reflexivity.
Qed.

(** Seeding a service with the default SLO targets changes no burn-rate
    computation and no SLO window, of that service or of any other: the
    availability target it adds carries the values the engines fall back
    to when a service has none. *)
Theorem default_targets_change_no_burn_rate (settings : Settings) (db : DB)
        (service_id now service_id' window_minutes : Z) :
  let db' := snd (SLOCompliance.create_default_slo_targets db service_id) in
  BurnRateEngine.compute_burn_rate settings db' now service_id' window_minutes
  = BurnRateEngine.compute_burn_rate settings db now service_id' window_minutes
  /\ ForecastModule.slo_window_hours db' service_id'
     = ForecastModule.slo_window_hours db service_id'.
Proof.
  cbv zeta.
  destruct (default_targets_lookup db service_id service_id') as [H1 H2].
  cbv zeta in H1, H2. split.
  - unfold BurnRateEngine.compute_burn_rate.
    change (services (snd (SLOCompliance.create_default_slo_targets db service_id)))
      with (services db).
    change (BurnRateEngine.window_totals
              (snd (SLOCompliance.create_default_slo_targets db service_id))
              now service_id' window_minutes)
      with (BurnRateEngine.window_totals db now service_id' window_minutes).
    destruct (first _ (services db)); [|reflexivity].
    rewrite H1. reflexivity.
  - unfold ForecastModule.slo_window_hours. rewrite H2. reflexivity.
Qed.

(** ** Retention of metrics *)

Lemma filter_filter_absorb {A : Type} (p q : A -> bool) (l : list A) :
  (forall x, p x = true -> q x = true) ->
  filter p (filter q l) = filter p l.
Proof.
  intro H. induction l as [|x l IH]; [reflexivity|].
  cbn. destruct (q x) eqn:Eq1; cbn; destruct (p x) eqn:Ep.
  - rewrite IH. reflexivity.
  - exact IH.
  - rewrite (H x Ep) in Eq1. discriminate.
  - exact IH.
Qed.

Lemma filter_split_length {A : Type} (p : A -> bool) (l : list A) :
  (Z.of_nat (List.length (filter p l))
   + Z.of_nat (List.length (filter (fun x => negb (p x)) l))
   = Z.of_nat (List.length l))%Z.
Proof.
  induction l as [|x l IH]; [reflexivity|].
  cbn. destruct (p x); cbn [negb List.length]; lia.
Qed.

Lemma cleanup_window_query (default : Z) (db : DB) (now now' : Z)
      (retention_days : option Z) (service_id window_minutes : Z) :
  (now <= now')%Z ->
  (minutes window_minutes
   <= days match retention_days with Some d => d | None => default end)%Z ->
  BurnRateEngine.window_query
    (snd (MetricsRetention.cleanup_old_metrics default db now retention_days))
    now' service_id window_minutes
  = BurnRateEngine.window_query db now' service_id window_minutes.
Proof.
  intros Hnow Hwin.
  unfold BurnRateEngine.window_query, timedelta, datetime_sub.
  destruct (_ && _)%bool; [|reflexivity]. cbn [bind].
  destruct (is_datetime _); [|reflexivity]. cbn [bind].
  unfold MetricsRetention.cleanup_old_metrics, metrics_in_window. cbn [snd metrics].
  rewrite filter_filter_absorb; [reflexivity|].
  intros m Hm. apply andb_prop in Hm. destruct Hm as [Hm _].
  apply andb_prop in Hm. destruct Hm as [_ Hm].
  apply Z.leb_le in Hm. apply negb_true_iff, Z.ltb_ge. lia.
Qed.

(** Removing the metrics older than the retention period deletes exactly
    the rows before the cutoff, and no later burn-rate computation over a
    window that fits in the retention period sees a difference. *)
Theorem cleanup_keeps_the_windows_in_retention (settings : Settings) (default : Z)
        (db : DB) (now now' : Z) (retention_days : option Z)
        (service_id window_minutes : Z) :
  let d := match retention_days with Some d => d | None => default end in
  let r := MetricsRetention.cleanup_old_metrics default db now retention_days in
  (now <= now')%Z ->
  (minutes window_minutes <= days d)%Z ->
  BurnRateEngine.compute_burn_rate settings (snd r) now' service_id window_minutes
  = BurnRateEngine.compute_burn_rate settings db now' service_id window_minutes
  /\ (fst r + Z.of_nat (List.length (metrics (snd r)))
      = Z.of_nat (List.length (metrics db)))%Z
  /\ (forall m, In m (metrics (snd r))
                <-> In m (metrics db) /\ (now - days d <= m_timestamp m)%Z).
Proof.
  cbv zeta. intros Hnow Hwin.
  split; [|split].
  - unfold BurnRateEngine.compute_burn_rate.
    rewrite (cleanup_window_query default db now now' retention_days service_id
               window_minutes Hnow Hwin).
    reflexivity.
  - unfold MetricsRetention.cleanup_old_metrics. cbn [fst snd metrics].
    apply filter_split_length.
  - intro m. unfold MetricsRetention.cleanup_old_metrics. cbn [snd metrics].
    rewrite filter_In, negb_true_iff, Z.ltb_ge. reflexivity.
Qed.

Lemma cleanup_keeps_the_windows_in_retention_witness :
  let r := MetricsRetention.cleanup_old_metrics 30 Examples.burning 7200 (Some 1%Z) in
  (7200 <= 7260)%Z /\ (minutes 1440 <= days 1)%Z
  /\ BurnRateEngine.compute_burn_rate default_settings (snd r) 7260 1 1440
     = BurnRateEngine.compute_burn_rate default_settings Examples.burning 7260 1 1440.
Proof.
  cbv zeta.
  assert (H1 : (7200 <= 7260)%Z) by lia.
  assert (H2 : (minutes 1440 <= days 1)%Z) by (vm_compute; discriminate).
  split; [exact H1|]. split; [exact H2|].
  exact (proj1 (cleanup_keeps_the_windows_in_retention default_settings 30
                  Examples.burning 7200 7260 (Some 1%Z) 1 1440 H1 H2)).
Defined.

(** ** Simulated snapshots *)

Lemma py_int_bounds (q : Q) (n : Z) :
  0 <= q -> q <= inject_Z n -> (0 <= py_int q <= n)%Z.
Proof.
  destruct q as [a b]. unfold Qle, py_int. cbn. intros H0 Hn.
  split.
  - apply Z.quot_pos; lia.
  - apply Z.quot_le_upper_bound; lia.
Qed.

Lemma simulated_counts_bounds (load error_rate : Q) :
  let '(total_requests, error_count) :=
    MetricsRetention.simulated_counts load error_rate in
  (0 <= error_count <= total_requests)%Z.
Proof.
  unfold MetricsRetention.simulated_counts.
  set (total := Z.max (py_int load) 0).
  set (rate := Qmax 0 (Qmin 1 error_rate)).
  assert (Ht : 0 <= inject_Z total).
  { change 0 with (inject_Z 0). rewrite <- Zle_Qle. subst total. lia. }
  assert (Hr0 : 0 <= rate) by apply Q.le_max_l.
  assert (Hr1 : rate <= 1).
  { subst rate. apply Q.max_lub; [discriminate | apply Q.le_min_l]. }
  apply py_int_bounds; nra.
Qed.

(** A simulated snapshot never carries more errors than requests, and
    neither count is negative: the schema of the ingestion endpoint
    accepts every snapshot the simulator generates. *)
Theorem simulated_snapshot_counts_are_consistent (load error_rate : Q)
        (name : string) (timestamp : Z) (p50 p95 p99 : option Q) :
  let '(total_requests, error_count) :=
    MetricsRetention.simulated_counts load error_rate in
  let snapshot := {| ms_service := name; ms_timestamp := timestamp;
                     ms_total_requests := total_requests;
                     ms_error_count := error_count;
                     ms_latency_p50 := p50; ms_latency_p95 := p95;
                     ms_latency_p99 := p99 |} in
  (0 <= error_count <= total_requests)%Z
  /\ MetricsIngestionService.validate snapshot = Ok snapshot.
Proof.
  pose proof (simulated_counts_bounds load error_rate) as H.
  destruct (MetricsRetention.simulated_counts load error_rate) as [total errors].
  cbv zeta. split; [exact H|].
  unfold MetricsIngestionService.validate. cbn.
  destruct (Z.ltb_spec total 0); [lia|].
  destruct (Z.ltb_spec errors 0); [lia|]. reflexivity.
Qed.

(** ** Statistics of the burn history *)

Lemma fold_left_Qmax_ge (l : list Q) (x : Q) :
  x <= fold_left Qmax l x /\ forall y, In y l -> y <= fold_left Qmax l x.
Proof.
  revert x. induction l as [|z l IH]; intro x; cbn.
  - split; [lra | intros y []].
  - destruct (IH (Qmax x z)) as [H1 H2]. split.
    + eapply Qle_trans; [apply Q.le_max_l | exact H1].
    + intros y [<-|Hy]; [|apply H2, Hy].
      eapply Qle_trans; [apply Q.le_max_r | exact H1].
Qed.

Lemma fold_left_Qmin_le (l : list Q) (x : Q) :
  fold_left Qmin l x <= x /\ forall y, In y l -> fold_left Qmin l x <= y.
Proof.
  revert x. induction l as [|z l IH]; intro x; cbn.
  - split; [lra | intros y []].
  - destruct (IH (Qmin x z)) as [H1 H2]. split.
    + eapply Qle_trans; [exact H1 | apply Q.le_min_l].
    + intros y [<-|Hy]; [|apply H2, Hy].
      eapply Qle_trans; [exact H1 | apply Q.le_min_r].
Qed.

Lemma mean_ge (k : Q) (l : list Q) :
  l <> [] -> (forall x, In x l -> k <= x) ->
  k <= ForecastModule.Qsum l / inject_Z (Z.of_nat (List.length l)).
Proof.
  intros Hne H.
  assert (Hn : 0 < inject_Z (Z.of_nat (List.length l))).
  { change 0 with (inject_Z 0). rewrite <- Zlt_Qlt.
    destruct l; [contradiction | cbn [List.length]; lia]. }
  apply Qle_shift_div_l; [exact Hn|].
  clear Hne Hn. induction l as [|x l IH].
  - unfold Qle. cbn. lia.
  - cbn [ForecastModule.Qsum fold_right List.length].
    rewrite Nat2Z.inj_succ, <- Z.add_1_r, inject_Z_plus. change (inject_Z 1) with 1.
    unfold ForecastModule.Qsum in IH.
    specialize (IH (fun y Hy => H y (or_intror Hy))).
    pose proof (H x (or_introl eq_refl)). lra.
Qed.

Lemma sql_aggregates_ordered (xs : list Q) :
  or_zero_float (sql_min xs) <= or_zero_float (sql_avg xs)
  /\ or_zero_float (sql_avg xs) <= or_zero_float (sql_max xs)
  /\ (forall x, In x xs ->
        or_zero_float (sql_min xs) <= x /\ x <= or_zero_float (sql_max xs)).
Proof.
  destruct xs as [|x rest].
  - cbn. repeat split; try lra; contradiction.
  - unfold sql_min, sql_max, sql_avg, or_zero_float.
    destruct (fold_left_Qmax_ge rest x) as [M1 M2].
    destruct (fold_left_Qmin_le rest x) as [m1 m2].
    assert (Hall : forall y, In y (x :: rest) ->
                     fold_left Qmin rest x <= y /\ y <= fold_left Qmax rest x).
    { intros y [<-|Hy]; [split; assumption | split; [apply m2 | apply M2]; exact Hy]. }
    split; [|split].
    + apply mean_ge; [discriminate | intros y Hy; apply Hall, Hy].
    + apply mean_le; [discriminate | intros y Hy; apply Hall, Hy].
    + exact Hall.
Qed.

(** The statistics of a period are ordered: the minimum is at most the
    average, the average at most the peak, and every burn rate stored for
    the service in the period lies, rounded to three places, between the
    minimum and the peak reported.  Over a period with no stored row all
    four figures are zero. *)
Theorem burn_statistics_are_ordered (db : DB) (now service_id period_hours : Z) :
  let stats := BurnRateHistory.get_burn_statistics db now service_id period_hours in
  let rows := BurnRateHistory.statistics_rows db now service_id period_hours in
  bs_min_burn_rate stats <= bs_average_burn_rate stats
  /\ bs_average_burn_rate stats <= bs_peak_burn_rate stats
  /\ (forall h, In h rows ->
        bs_min_burn_rate stats <= py_round (bh_burn_rate h) 3
        /\ py_round (bh_burn_rate h) 3 <= bs_peak_burn_rate stats)
  /\ (rows = [] ->
        bs_min_burn_rate stats == 0 /\ bs_average_burn_rate stats == 0
        /\ bs_peak_burn_rate stats == 0 /\ bs_average_budget_consumed stats == 0).
Proof.
  cbv zeta. unfold BurnRateHistory.get_burn_statistics.
  cbn [bs_min_burn_rate bs_average_burn_rate bs_peak_burn_rate
       bs_average_budget_consumed].
  set (rows := BurnRateHistory.statistics_rows db now service_id period_hours).
  destruct (sql_aggregates_ordered (map bh_burn_rate rows)) as (H1 & H2 & H3).
  split; [apply py_round_mono, H1|].
  split; [apply py_round_mono, H2|].
  split.
  - intros h Hh. destruct (H3 (bh_burn_rate h) (in_map _ _ _ Hh)) as [Ha Hb].
    split; apply py_round_mono; assumption.
  - intros ->. cbn. repeat split; reflexivity.
Qed.

(** ** Ingestion keeps the store consistent *)

(** A call of [ingest_metrics] that returns has counted every snapshot,
    as processed or as an error, has stored one row for each processed
    one, and has kept the store consistent: service names stay unique,
    every metric row still belongs to a service, the services there were
    keep their place, and no table other than [services] and [metrics]
    changes.  A snapshot counts as an error when its success rate is too
    large for a float; it gets no row, but its service is registered. *)
Theorem ingestion_keeps_the_store_consistent (db db' : DB)
        (batch : list MetricSnapshot) (processed errors : Z) :
  NoDup (map svc_name (services db)) ->
  metrics_reference_services db ->
  MetricsIngestionService.ingest_metrics db batch = Ok ((processed, errors), db') ->
  (processed + errors = Z.of_nat (List.length batch))%Z
  /\ processed
     = Z.of_nat (List.length (filter MetricsIngestionService.processed_by_loop batch))
  /\ (Z.of_nat (List.length (metrics db')) 
      = Z.of_nat (List.length (metrics db)) + processed)%Z
  /\ NoDup (map svc_name (services db'))
  /\ metrics_reference_services db'
  /\ Forall (fun m => named db' (ms_service m)) batch
  /\ (exists fresh, services db' = (services db ++ fresh)%list)
  /\ slo_targets db' = slo_targets db
  /\ burn_history db' = burn_history db
  /\ deployments db' = deployments db /\ alerts db' = alerts db.
Proof.
  intros Hnd Href. unfold MetricsIngestionService.ingest_metrics.
  destruct (forallb _ batch); [|discriminate].
  destruct (ingest_loop_spec batch db 0 0)
    as ((rows & Hrows & Ht & _ & Hr) & Hc & Hn & (fresh & Hs) & T & B & D & A & N).
  cbv zeta in *. intro E. injection E as E. rewrite E in *. cbn [fst snd] in *.
  injection Hc as -> ->.
  assert (Hlen : List.length rows
                 = List.length (filter MetricsIngestionService.processed_by_loop batch)).
  { rewrite <- (length_map m_total_requests rows), Ht, length_map. reflexivity. }
  split.
  { pose proof (filter_split_length MetricsIngestionService.processed_by_loop batch).
    lia. }
  split; [lia|].
  split; [rewrite Hrows, length_app, Hlen; lia|].
  split; [apply N, Hnd|].
  split.
  { intros m Hm. rewrite Hrows in Hm. apply in_app_or in Hm. destruct Hm as [Hm|Hm].
    - destruct (Href m Hm) as (s & Hin & Hid). exists s. split; [|exact Hid].
      rewrite Hs. apply in_or_app. left. exact Hin.
    - rewrite Forall_forall in Hr. apply Hr, Hm. }
  split; [exact Hn|].
  split; [exists fresh; exact Hs|]. repeat split; assumption.
Qed.

Lemma ingestion_keeps_the_store_consistent_witness :
  exists db',
    MetricsIngestionService.ingest_metrics Examples.burning
      [Examples.more_errors_than_requests; Examples.absurd_errors;
       Examples.more_errors_than_requests] = Ok ((2, 1)%Z, db')
    /\ List.length (metrics db') = 3%nat
    /\ map svc_name (services db') = ["api-gateway"; "new-service"; "batch-job"]
    /\ metrics_reference_services db'.
Proof.
  destruct (MetricsIngestionService.ingest_metrics Examples.burning
              [Examples.more_errors_than_requests; Examples.absurd_errors;
               Examples.more_errors_than_requests]) as [[[p e] db']|e] eqn:E;
    [|vm_compute in E; discriminate].
  assert (Hnd : NoDup (map svc_name (services Examples.burning)))
    by (cbn; repeat constructor; intros []).
  assert (Href : metrics_reference_services Examples.burning).
  { intros m Hm. exists Examples.api_gateway. cbn in Hm.
    destruct Hm as [<-|[]]. split; [left; reflexivity | reflexivity]. }
  destruct (ingestion_keeps_the_store_consistent _ _ _ _ _ Hnd Href E)
    as (_ & _ & _ & _ & Hrefs & _).
  exists db'. vm_compute in E. injection E as <- <- <-.
  split; [reflexivity|]. split; [reflexivity|]. split; [reflexivity|].
  exact Hrefs.
Defined.

(** ** One round of the periodic computation *)

Lemma store_windows_spec (settings : Settings) (service_id : Z) (windows : list Z) :
  forall (db : DB) (clock : Clock),
  let out := PeriodicComputation.store_windows settings db clock service_id windows in
  exists rows,
    burn_history (fst out) = (burn_history db ++ rows)%list
    /\ (List.length rows <= List.length windows)%nat
    /\ Forall (fun r => bh_service_id r = service_id
                        /\ In (bh_window_minutes r) windows) rows
    /\ services (fst out) = services db /\ metrics (fst out) = metrics db
    /\ slo_targets (fst out) = slo_targets db
    /\ deployments (fst out) = deployments db
    /\ (snd out = None -> map history_key rows = window_keys clock service_id windows)
    /\ (is_int64 service_id = true ->
        first (fun s => (svc_id s =? service_id)%Z) (services db) <> None ->
        counts_fit db ->
        clock_in_range clock (List.length windows) ->
        Forall (fun w => (0 <= w <= 1440)%Z) windows ->
        snd out = None).
Proof.
  induction windows as [|w rest IH]; intros db clock out.
  - exists []. subst out. cbn. rewrite app_nil_r.
    split; [reflexivity|]. split; [lia|]. split; [constructor|]. repeat split.
  - subst out. cbn [PeriodicComputation.store_windows].
    destruct (BurnRateEngine.compute_burn_rate settings db (clock 0%nat) service_id w)
      as [c|e] eqn:Hc.
    + destruct (compute_burn_rate_key _ _ _ _ _ _ Hc) as (K1 & K2 & K3).
      destruct (IH (BurnRateEngine.store_burn_history db c) (later 1 clock))
        as (rows & Hb & Hl & Hr & F1 & F2 & F3 & F4 & Hk & Ht).
      cbv zeta in *.
      eexists (_ :: rows).
      split; [rewrite Hb; cbn [BurnRateEngine.store_burn_history burn_history];
              rewrite <- app_assoc; reflexivity|].
      split; [cbn [List.length]; lia|].
      split.
      { constructor; [cbn; split; [exact K1 | left; symmetry; exact K3]|].
        rewrite Forall_forall in *. intros r Hin.
        destruct (Hr r Hin) as [Hs Hw]. split; [exact Hs | right; exact Hw]. }
      split; [exact F1|]. split; [exact F2|]. split; [exact F3|]. split; [exact F4|].
      split.
      * intro Hn. cbn [map window_keys]. rewrite (Hk Hn).
        unfold history_key at 1. cbn. rewrite K1, K2, K3. reflexivity.
      * intros Hi Hs Hfit Hclock Hw. inversion Hw as [|? ? Hw0 Hws]; subst.
        apply Ht; try assumption.
        intros k Hk'. unfold later. apply Hclock. cbn [List.length]. lia.
    + exists []. cbn [fst snd]. rewrite app_nil_r.
      split; [reflexivity|]. split; [cbn; lia|]. split; [constructor|].
      repeat (split; [reflexivity|]).
      split; [discriminate|].
      intros Hi Hs Hfit Hclock Hw. inversion Hw as [|? ? Hw0 Hws]; subst.
      destruct (compute_burn_rate_total settings db (clock 0%nat) service_id w Hi Hs)
        as [c Hc'].
      * apply standard_window_in_range; [|exact Hw0].
        apply Hclock. cbn [List.length]. lia.
      * apply counts_fit_sums_fit, Hfit.
      * rewrite Hc' in Hc. discriminate.
Qed.

Lemma in_services_has_id (db : DB) (service : Service) :
  In service (services db) ->
  first (fun s => (svc_id s =? svc_id service)%Z) (services db) <> None.
Proof.
  intros Hin Hnone. unfold first in Hnone.
  pose proof (find_none _ _ Hnone _ Hin) as Hf. cbn in Hf.
  rewrite Z.eqb_refl in Hf. discriminate.
Qed.

Lemma process_service_stores_windows (settings : Settings) (db : DB) (clock : Clock)
      (service : Service) :
  PeriodicComputation.process_service settings db clock service
  = fst (PeriodicComputation.store_windows settings db clock (svc_id service)
                                           [5; 60; 1440]%Z).
Proof.
  unfold PeriodicComputation.process_service.
  destruct (PeriodicComputation.store_windows settings db clock (svc_id service)
              [5; 60; 1440]%Z) as [db1 [e|]]; [reflexivity|].
  cbn [fst].
  destruct (is_int64 (svc_id service)) eqn:Hi.
  - rewrite (evaluate_and_alert_stores_nothing settings db1 (later 3 clock)
               (svc_id service) Hi).
    reflexivity.
  - unfold AlertManager.evaluate_and_alert, sqlite_int. rewrite Hi. reflexivity.
Qed.

Lemma process_services_spec (settings : Settings) (todo : list Service) :
  forall (db : DB) (clocks : nat -> Clock),
  let db' := PeriodicComputation.process_services settings db clocks todo in
  exists rows,
    burn_history db' = (burn_history db ++ rows)%list
    /\ (List.length rows <= 3 * List.length todo)%nat
    /\ Forall (fun r => (exists s, In s todo /\ bh_service_id r = svc_id s)
                        /\ In (bh_window_minutes r) [5; 60; 1440]%Z) rows
    /\ services db' = services db /\ metrics db' = metrics db
    /\ slo_targets db' = slo_targets db /\ deployments db' = deployments db
    /\ ((forall s, In s todo -> In s (services db) /\ is_int64 (svc_id s) = true) ->
        counts_fit db ->
        (forall k, (k < List.length todo)%nat -> clock_in_range (clocks k) 3) ->
        map history_key rows = round_keys clocks todo).
Proof.
  induction todo as [|s rest IH]; intros db clocks db'.
  - exists []. subst db'. cbn. rewrite app_nil_r.
    split; [reflexivity|]. split; [lia|]. split; [constructor|]. repeat split.
  - subst db'. cbn [PeriodicComputation.process_services].
    rewrite process_service_stores_windows.
    destruct (store_windows_spec settings (svc_id s) [5; 60; 1440]%Z db (clocks 0%nat))
      as (rows1 & Hb1 & Hl1 & Hr1 & F1 & F2 & F3 & F4 & Hk1 & Ht1).
    cbv zeta in *.
    set (db1 := fst (PeriodicComputation.store_windows settings db (clocks 0%nat)
                       (svc_id s) [5; 60; 1440]%Z)) in *.
    destruct (IH db1 (fun k => clocks (S k)))
      as (rows2 & Hb2 & Hl2 & Hr2 & G1 & G2 & G3 & G4 & Hk2).
    cbv zeta in *.
    exists (rows1 ++ rows2)%list.
    split; [rewrite Hb2, Hb1, app_assoc; reflexivity|].
    split; [rewrite length_app; cbn [List.length] in *; lia|].
    split.
    { apply Forall_app. split; rewrite Forall_forall in *.
      - intros r Hin. destruct (Hr1 r Hin) as [Hs Hw].
        split; [exists s; split; [left; reflexivity | exact Hs] | exact Hw].
      - intros r Hin. destruct (Hr2 r Hin) as [(s' & Hs' & Hid) Hw].
        split; [exists s'; split; [right; exact Hs' | exact Hid] | exact Hw]. }
    split; [congruence|]. split; [congruence|]. split; [congruence|].
    split; [congruence|].
    intros Hall Hfit Hclocks. cbn [round_keys]. rewrite map_app.
    destruct (Hall s (or_introl eq_refl)) as [Hin Hi].
    rewrite Hk1.
    + rewrite Hk2; [reflexivity| | |].
      * intros s' Hs'. rewrite F1. apply Hall. right. exact Hs'.
      * unfold counts_fit in *. rewrite F2. exact Hfit.
      * intros k Hk. apply Hclocks. cbn [List.length]. lia.
    + apply Ht1; [exact Hi | apply in_services_has_id, Hin | exact Hfit | |].
      * apply Hclocks. cbn [List.length]. lia.
      * repeat constructor; lia.
Qed.

(** One round of the periodic computation appends rows to the burn
    history and leaves the services, metrics, SLO targets and deployments
    as they were.  The rows are rows of active services for the windows
    of 5, 60 and 1440 minutes, at most three for each service.  When the
    ids and the counts of the store are 64-bit integers and the clock
    reads datetimes, no computation fails: every active service gets
    exactly three rows, for the windows of 5, 60 and 1440 minutes in this
    order, each stamped with the reading of the clock made by its
    computation. *)
Theorem periodic_round_stores_three_rows_per_service (settings : Settings)
        (db : DB) (clocks : nat -> Clock) :
  let db' := PeriodicComputation.tick settings db clocks in
  let active := filter svc_is_active (services db) in
  exists rows,
    burn_history db' = (burn_history db ++ rows)%list
    /\ (List.length rows <= 3 * List.length active)%nat
    /\ Forall (fun r => (exists s, In s active /\ bh_service_id r = svc_id s)
                        /\ In (bh_window_minutes r) [5; 60; 1440]%Z) rows
    /\ services db' = services db /\ metrics db' = metrics db
    /\ slo_targets db' = slo_targets db /\ deployments db' = deployments db
    /\ ((forall s, In s active -> is_int64 (svc_id s) = true) ->
        counts_fit db ->
        (forall k, (k < List.length active)%nat -> clock_in_range (clocks k) 3) ->
        map history_key rows = round_keys clocks active).
Proof.
  cbv zeta. unfold PeriodicComputation.tick.
  destruct (process_services_spec settings (filter svc_is_active (services db))
              db clocks) as (rows & Hb & Hl & Hr & F1 & F2 & F3 & F4 & Hk).
  cbv zeta in *. exists rows.
  repeat (split; [assumption|]).
  intros Hall Hfit Hclocks. apply Hk; [|exact Hfit | exact Hclocks].
  intros s Hs. split; [|apply Hall, Hs].
  apply filter_In in Hs. apply Hs.
Qed.

Lemma periodic_round_stores_three_rows_per_service_witness :
  exists rows,
    burn_history (PeriodicComputation.tick default_settings Examples.burning
                    (fun _ k => 90000 + Z.of_nat k)%Z)
    = (burn_history Examples.burning ++ rows)%list
    /\ map history_key rows
       = [(1, 5, 90000); (1, 60, 90001); (1, 1440, 90002)]%Z.
Proof.
  destruct (periodic_round_stores_three_rows_per_service default_settings
              Examples.burning (fun _ k => 90000 + Z.of_nat k)%Z)
    as (rows & Hb & _ & _ & _ & _ & _ & _ & Hk).
  exists rows. split; [exact Hb|].
  apply Hk.
  - intros s [<-|[]]. reflexivity.
  - unfold counts_fit. split; [repeat constructor; discriminate|].
    split; reflexivity.
  - intros k _ i Hi. unfold datetime_min, datetime_max, days. lia.
Defined.
